(** * Shallow embedding of the document-family pipeline of agent-M365AT

    Modelled sources:
    - [src/azure_function/document_analyzer.py]: [extract_text],
      [extract_text_from_docx], [extract_text_from_txt];
    - [src/family_analyzer.py]: [analyze_document_family];
    - [src/azure_function/intent_extractor.py]: [extract_search_intent],
      [extract_intent], [merge_fields];
    - [src/document_generator.py]: [generate_from_synthesis].

    Python strings are lists of Unicode code points ([pystr]), byte strings
    are lists of integers in [0, 255].  Python dictionaries are association
    lists that keep insertion order, with the update rule of [dict.__setitem__]
    (replace in place, or append a new key at the end).  The third-party
    services (base64 decoding, python-docx parsing, the chat-completion
    endpoint, [json.loads], [json.dumps]) are oracles: Section variables of
    the development, so every theorem holds for every behaviour of them. *)

From Stdlib Require Import String Ascii.
From Stdlib Require Import List Bool ZArith QArith Lia.
From Stdlib Require Import Sorting.Permutation Sorting.Sorted.
Import ListNotations.
Open Scope Z_scope.

(* ------------------------------------------------------------------------- *)
(** ** Python strings and bytes *)

Definition pystr := list Z.
Definition bytes := list Z.

(** ASCII literal as a Python string. *)
Definition lit (s : string) : pystr :=
  map (fun c => Z.of_nat (nat_of_ascii c)) (list_ascii_of_string s).

Definition nl : pystr := [10].

Fixpoint pystr_eqb (a b : pystr) : bool :=
  match a, b with
  | [], [] => true
  | x :: a', y :: b' => Z.eqb x y && pystr_eqb a' b'
  | _, _ => false
  end.

(** [a < b] on Python strings: lexicographic order on code points, a proper
    prefix being smaller. *)
Fixpoint pystr_ltb (a b : pystr) : bool :=
  match a, b with
  | [], [] => false
  | [], _ :: _ => true
  | _ :: _, [] => false
  | x :: a', y :: b' => Z.ltb x y || (Z.eqb x y && pystr_ltb a' b')
  end.

(** [str.lower()] on the ASCII range: code points of 'A'..'Z' are mapped to
    'a'..'z'; the other code points are kept (the Unicode case mapping of
    non-ASCII letters is not modelled; no suffix test below depends on it). *)
Definition lower_cp (c : Z) : Z :=
  if (65 <=? c) && (c <=? 90) then c + 32 else c.

Definition py_lower (s : pystr) : pystr := map lower_cp s.

(** [s.endswith(suf)] *)
Definition py_endswith (s suf : pystr) : bool :=
  (Nat.leb (length suf) (length s)) &&
  pystr_eqb (skipn (length s - length suf) s) suf.

(** [str.isspace()] for one code point (Unicode White_Space as used by
    CPython: bidirectional classes WS, B, S and category Zs). *)
Definition py_isspace (c : Z) : bool :=
  ((9 <=? c) && (c <=? 13)) || ((28 <=? c) && (c <=? 32)) ||
  (c =? 133) || (c =? 160) || (c =? 5760) ||
  ((8192 <=? c) && (c <=? 8202)) || (c =? 8232) || (c =? 8233) ||
  (c =? 8239) || (c =? 8287) || (c =? 12288).

(** [bool(s.strip())]: the string has a non-whitespace code point. *)
Definition strip_nonempty (s : pystr) : bool :=
  existsb (fun c => negb (py_isspace c)) s.

(** Leading whitespace removed. *)
Fixpoint lstrip_ws (s : pystr) : pystr :=
  match s with
  | c :: s' => if py_isspace c then lstrip_ws s' else s
  | [] => []
  end.

(** [s.strip()] *)
Definition py_strip (s : pystr) : pystr := rev (lstrip_ws (rev (lstrip_ws s))).

(** [bool(s)] for a string. *)
Definition py_truthy_str (s : pystr) : bool :=
  match s with [] => false | _ => true end.

(** [sep.join(xs)] *)
Fixpoint py_join (sep : pystr) (xs : list pystr) : pystr :=
  match xs with
  | [] => []
  | [x] => x
  | x :: xs' => x ++ sep ++ py_join sep xs'
  end.

(** [str(n)] for a natural number. *)
Fixpoint uint_digits (u : Decimal.uint) : pystr :=
  match u with
  | Decimal.Nil => []
  | Decimal.D0 u' => 48 :: uint_digits u'
  | Decimal.D1 u' => 49 :: uint_digits u'
  | Decimal.D2 u' => 50 :: uint_digits u'
  | Decimal.D3 u' => 51 :: uint_digits u'
  | Decimal.D4 u' => 52 :: uint_digits u'
  | Decimal.D5 u' => 53 :: uint_digits u'
  | Decimal.D6 u' => 54 :: uint_digits u'
  | Decimal.D7 u' => 55 :: uint_digits u'
  | Decimal.D8 u' => 56 :: uint_digits u'
  | Decimal.D9 u' => 57 :: uint_digits u'
  end.

Definition py_str_nat (n : nat) : pystr := uint_digits (Nat.to_uint n).

(* ------------------------------------------------------------------------- *)
(** ** Exceptions and results *)

(** The exceptions the modelled functions raise, named after the spec's
    taxonomy.  In the source [NotConfigured], [NoExtractableText] and
    [UnsupportedFormat] are [ValueError]s told apart by their message;
    [CompletionError] is any failure of the chat call or of [json.loads];
    [TypeError] and [AttributeError] are Python's. *)
Inductive exc :=
| NotConfigured
| NoExtractableText
| UnsupportedFormat
| CompletionError
| TypeError
| AttributeError.

Inductive result (A : Type) :=
| Ok (a : A)
| Raise (e : exc).
Arguments Ok {A} a.
Arguments Raise {A} e.

(* ------------------------------------------------------------------------- *)
(** ** [bytes.decode('utf-8')] and [bytes.decode('latin-1')] *)

Definition in_range (lo hi b : Z) : bool := (lo <=? b) && (b <=? hi).
Definition cont (b : Z) : bool := in_range 128 191 b.

(** Strict UTF-8 decoding as CPython does it: overlong forms, surrogates and
    code points above U+10FFFF are rejected ([None] is [UnicodeDecodeError]). *)
Fixpoint utf8_decode (bs : bytes) : option pystr :=
  match bs with
  | [] => Some []
  | b0 :: r0 =>
    if in_range 0 127 b0 then
      option_map (cons b0) (utf8_decode r0)
    else if in_range 194 223 b0 then
      match r0 with
      | b1 :: r1 =>
        if cont b1 then
          option_map (cons (Z.lor (Z.shiftl (Z.land b0 31) 6) (Z.land b1 63)))
                     (utf8_decode r1)
        else None
      | [] => None
      end
    else if in_range 224 239 b0 then
      match r0 with
      | b1 :: b2 :: r2 =>
        let lo1 := if b0 =? 224 then 160 else 128 in
        let hi1 := if b0 =? 237 then 159 else 191 in
        if in_range lo1 hi1 b1 && cont b2 then
          option_map (cons (Z.lor (Z.shiftl (Z.land b0 15) 12)
                             (Z.lor (Z.shiftl (Z.land b1 63) 6) (Z.land b2 63))))
                     (utf8_decode r2)
        else None
      | _ => None
      end
    else if in_range 240 244 b0 then
      match r0 with
      | b1 :: b2 :: b3 :: r3 =>
        let lo1 := if b0 =? 240 then 144 else 128 in
        let hi1 := if b0 =? 244 then 143 else 191 in
        if in_range lo1 hi1 b1 && cont b2 && cont b3 then
          option_map (cons (Z.lor (Z.shiftl (Z.land b0 7) 18)
                             (Z.lor (Z.shiftl (Z.land b1 63) 12)
                               (Z.lor (Z.shiftl (Z.land b2 63) 6) (Z.land b3 63)))))
                     (utf8_decode r3)
        else None
      | _ => None
      end
    else None
  end.

(** Latin-1 maps every byte to the code point of the same value; it never
    fails. *)
Definition latin1_decode (bs : bytes) : pystr := bs.

(* ------------------------------------------------------------------------- *)
(** ** JSON values and Python dictionaries *)

Set Warnings "-register-all,-abstract-large-number".

Inductive json :=
| JNull
| JBool (b : bool)
| JNum (q : Q)
| JStr (s : pystr)
| JArr (xs : list json)
| JObj (kvs : list (pystr * json)).

Definition dict := list (pystr * json).

(** [d.get(k)] *)
Fixpoint dget (k : pystr) (d : dict) : option json :=
  match d with
  | [] => None
  | (k', v) :: d' => if pystr_eqb k k' then Some v else dget k d'
  end.

(** [d.get(k, dflt)] *)
Definition dget_or (k : pystr) (dflt : json) (d : dict) : json :=
  match dget k d with Some v => v | None => dflt end.

(** [k in d] *)
Definition dmem (k : pystr) (d : dict) : bool :=
  match dget k d with Some _ => true | None => false end.

(** [d[k] = v]: an existing key keeps its position, a new key goes last. *)
Fixpoint dset (k : pystr) (v : json) (d : dict) : dict :=
  match d with
  | [] => [(k, v)]
  | (k', v') :: d' =>
    if pystr_eqb k k' then (k', v) :: d' else (k', v') :: dset k v d'
  end.

(** [seq[:n]] on a JSON value: lists and strings are sliced, any other value
    raises [TypeError]. *)
Definition py_slice_to (n : nat) (v : json) : result json :=
  match v with
  | JArr xs => Ok (JArr (firstn n xs))
  | JStr s => Ok (JStr (firstn n s))
  | _ => Raise TypeError
  end.

(* ------------------------------------------------------------------------- *)
(** ** Text extraction ([document_analyzer.py]) *)

(** What python-docx exposes of a parsed document: the text of every
    paragraph, and for every table its rows as lists of cell texts. *)
Record docx := mk_docx {
  paragraphs : list pystr;
  tables : list (list (list pystr))
}.

Section Extraction.

(** [Document(io.BytesIO(file_bytes))] followed by the traversal of its
    paragraphs and tables; [None] when python-docx raises. *)
Variable docx_parse : bytes -> option docx.

(** The cells of one table row: the stripped texts of the non-blank cells,
    joined with [" | "]; a row without such a cell is skipped. *)
Definition row_line (row : list pystr) : list pystr :=
  match map py_strip (filter strip_nonempty row) with
  | [] => []
  | row_text => [py_join (lit " | ") row_text]
  end.

(** [extract_text_from_docx]: any exception yields [""]. *)
Definition extract_text_from_docx (file_bytes : bytes) : pystr :=
  match docx_parse file_bytes with
  | None => []
  | Some doc =>
    let paras := filter strip_nonempty (paragraphs doc) in
    let rows := flat_map (fun table => flat_map row_line table) (tables doc) in
    py_join nl (paras ++ rows)
  end.

(** [extract_text_from_txt]: UTF-8, falling back to Latin-1 (which cannot
    fail, so the outer [except] returning [""] is unreachable). *)
Definition extract_text_from_txt (file_bytes : bytes) : pystr :=
  match utf8_decode file_bytes with
  | Some s => s
  | None => latin1_decode file_bytes
  end.

(** [extract_text]: dispatch on the lowercased suffix. *)
Definition extract_text (file_bytes : bytes) (filename : pystr) : result pystr :=
  let filename_lower := py_lower filename in
  if py_endswith filename_lower (lit ".docx") then
    Ok (extract_text_from_docx file_bytes)
  else if py_endswith filename_lower (lit ".txt") then
    Ok (extract_text_from_txt file_bytes)
  else if py_endswith filename_lower (lit ".doc") then
    Raise UnsupportedFormat
  else
    Ok (extract_text_from_txt file_bytes).

End Extraction.

(* ------------------------------------------------------------------------- *)
(** ** Configuration and observable effects *)

(** [os.environ] *)
Definition environ := list (pystr * pystr).

Fixpoint env_get (k : pystr) (env : environ) : option pystr :=
  match env with
  | [] => None
  | (k', v) :: env' => if pystr_eqb k k' then Some v else env_get k env'
  end.

(** [os.environ.get(k, dflt)] *)
Definition env_get_or (k : pystr) (dflt : pystr) (env : environ) : pystr :=
  match env_get k env with Some v => v | None => dflt end.

(** The keyword arguments shared by the LLM-driven operations. *)
Record azure_args := mk_azure_args {
  azure_endpoint : option pystr;
  azure_api_key : option pystr;
  azure_deployment : option pystr;
  api_version : option pystr
}.

(** [arg or os.environ.get(var)] *)
Definition or_env (arg : option pystr) (var : pystr) (env : environ) : option pystr :=
  match arg with
  | Some s => if py_truthy_str s then Some s else env_get var env
  | None => env_get var env
  end.

(** [arg or dflt] for a string default. *)
Definition or_default (arg : option pystr) (dflt : pystr) : pystr :=
  match arg with
  | Some s => if py_truthy_str s then s else dflt
  | None => dflt
  end.

Definition resolve_endpoint (a : azure_args) (env : environ) : option pystr :=
  or_env (azure_endpoint a) (lit "AZURE_OPENAI_ENDPOINT") env.

Definition resolve_api_key (a : azure_args) (env : environ) : option pystr :=
  or_env (azure_api_key a) (lit "AZURE_OPENAI_KEY") env.

(** [not endpoint or not api_key] is false. *)
Definition configured (endpoint api_key : option pystr) : bool :=
  match endpoint, api_key with
  | Some e, Some k => py_truthy_str e && py_truthy_str k
  | _, _ => false
  end.

(** Deployment preferring the large model ([family_analyzer.py],
    [document_generator.py]). *)
Definition resolve_deployment_large (a : azure_args) (env : environ) : pystr :=
  or_default (azure_deployment a)
    (env_get_or (lit "AZURE_OPENAI_DEPLOYMENT_LARGE")
       (env_get_or (lit "AZURE_OPENAI_DEPLOYMENT") (lit "gpt-4o-mini") env) env).

(** Deployment of the intent extractors. *)
Definition resolve_deployment (a : azure_args) (env : environ) : pystr :=
  or_default (azure_deployment a)
    (env_get_or (lit "AZURE_OPENAI_DEPLOYMENT") (lit "gpt-4o-mini") env).

(** A chat message: role and content. *)
Definition message := (pystr * pystr)%type.

(** Observable effects: one [EvExtract] per document whose extraction is
    attempted (base64 decoding and [extract_text]), one [EvChat] per request
    sent to the chat-completion endpoint (deployment and messages). *)
Inductive event :=
| EvExtract (fn : pystr)
| EvChat (model : pystr) (msgs : list message).

Definition is_chat (e : event) : bool :=
  match e with EvChat _ _ => true | EvExtract _ => false end.

Definition chat_calls (tr : list event) : list event := filter is_chat tr.

(* ------------------------------------------------------------------------- *)
(** ** Documents *)

(** An input document: [doc['filename']], [doc['content']] (base64) and
    [doc.get('metadata', {}).get('created')]. *)
Record document := mk_document {
  filename : pystr;
  content : pystr;
  created : option pystr
}.

(** An entry of [doc_texts] / [context_texts]. *)
Record doc_text := mk_doc_text {
  dt_filename : pystr;
  dt_text : pystr;
  dt_created : option pystr
}.

(** The sort key [d['metadata'].get('created', '')]. *)
Definition created_key (dt : doc_text) : pystr :=
  match dt_created dt with Some c => c | None => [] end.

(** One step of a stable insertion sort: [x] goes after every element whose
    key is not greater than its own. *)
Fixpoint insert_by_created (x : doc_text) (l : list doc_text) : list doc_text :=
  match l with
  | [] => [x]
  | y :: l' =>
    if pystr_ltb (created_key x) (created_key y) then x :: y :: l'
    else y :: insert_by_created x l'
  end.

(** [doc_texts.sort(key=lambda d: d['metadata'].get('created', ''))]
    (Python's sort is stable, as is this one). *)
Definition sort_by_created (l : list doc_text) : list doc_text :=
  fold_left (fun acc x => insert_by_created x acc) l [].

(* ------------------------------------------------------------------------- *)
(** ** [analyze_document_family] ([family_analyzer.py]) *)

Section FamilyAnalyzer.

Variable docx_parse : bytes -> option docx.
(** [base64.b64decode]; [None] when it raises. *)
Variable b64decode : pystr -> option bytes.
(** [client.chat.completions.create(model=..., messages=...)] followed by
    [response.choices[0].message.content]; [None] when the call raises. *)
Variable chat : pystr -> list message -> option pystr.
(** [json.loads]; [None] when it raises. *)
Variable json_loads : pystr -> option json.
(** The system prompt constant [FAMILY_ANALYSIS_PROMPT]. *)
Variable FAMILY_ANALYSIS_PROMPT : pystr.

(** The body of the extraction loop for one document: decode, extract,
    keep it when [text.strip()] is non-empty, truncated to [limit] code
    points.  Every exception of the body is caught and the document
    skipped. *)
Definition extract_doc (limit : nat) (d : document) : option doc_text :=
  match b64decode (content d) with
  | None => None
  | Some content_bytes =>
    match extract_text docx_parse content_bytes (filename d) with
    | Raise _ => None
    | Ok text =>
      if strip_nonempty text then
        Some (mk_doc_text (filename d) (firstn limit text) (created d))
      else None
    end
  end.

(** The extraction loop: the documents that survive, in input order. *)
Fixpoint extract_docs (limit : nat) (docs : list document) : list doc_text :=
  match docs with
  | [] => []
  | d :: docs' =>
    match extract_doc limit d with
    | Some dt => dt :: extract_docs limit docs'
    | None => extract_docs limit docs'
    end
  end.

(** [doc_texts] of [analyze_document_family]. *)
Definition doc_texts (documents : list document) : list doc_text :=
  extract_docs 6000 documents.

Definition extraction_events (docs : list document) : list event :=
  map (fun d => EvExtract (filename d)) docs.

(** The single-document stub. *)
Definition single_document_stub (dt : doc_text) : json :=
  let na := JObj [(lit "description", JStr (lit "N/A for single document"));
                  (lit "items", JArr [])] in
  JObj [
    (lit "family_type", JStr (lit "unknown"));
    (lit "family_type_display", JStr (lit "Single Document"));
    (lit "document_count", JNum (1 # 1));
    (lit "date_range",
      JStr (match dt_created dt with Some c => c | None => lit "unknown" end));
    (lit "analysis", JObj [(lit "stable_elements", na);
                           (lit "variable_elements", na);
                           (lit "emerging_elements", na)]);
    (lit "recommended_base", JStr (dt_filename dt));
    (lit "base_document_text", JStr (dt_text dt));
    (lit "organizational_context", JStr []);
    (lit "confidence", JNum (1 # 2));
    (lit "summary", JStr (lit "Only one document found: " ++ dt_filename dt ++
                          lit ". Use single-document analysis instead."));
    (lit "single_document_fallback", JBool true)
  ].

(** The document sections of [comparison_text], numbered from [i]. *)
Fixpoint document_sections (i : nat) (l : list doc_text) : pystr :=
  match l with
  | [] => []
  | dt :: l' =>
    nl ++ nl ++ lit "=== DOCUMENT " ++ py_str_nat i ++ lit ": " ++ dt_filename dt ++
    lit " (created: " ++
    (match dt_created dt with Some c => c | None => lit "unknown date" end) ++
    lit ") ===" ++ nl ++ dt_text dt ++ document_sections (S i) l'
  end.

(** The organizational-context sections, numbered from [i]. *)
Fixpoint context_sections (i : nat) (l : list doc_text) : pystr :=
  match l with
  | [] => []
  | ct :: l' =>
    nl ++ nl ++ lit "--- Context Doc " ++ py_str_nat i ++ lit ": " ++ dt_filename ct ++
    lit " ---" ++ nl ++ dt_text ct ++ context_sections (S i) l'
  end.

Definition user_context_section (user_context : pystr) : pystr :=
  if py_truthy_str user_context then nl ++ nl ++ lit "User context: " ++ user_context
  else [].

Definition context_block (context_texts : list doc_text) : pystr :=
  match context_texts with
  | [] => []
  | _ => nl ++ nl ++ lit "=== ORGANIZATIONAL CONTEXT DOCUMENTS ===" ++
         context_sections 1 context_texts
  end.

(** [context_documents] ([None] and [[]] are both skipped). *)
Definition context_list (context_documents : option (list document)) : list document :=
  match context_documents with Some l => l | None => [] end.

(** The messages of the comparison request. *)
Definition family_messages (sorted : list doc_text) (user_context : pystr)
    (context_texts : list doc_text) : list message :=
  let comparison_text :=
    document_sections 1 sorted ++ user_context_section user_context ++
    context_block context_texts in
  [(lit "system", FAMILY_ANALYSIS_PROMPT);
   (lit "user", lit "Analyze these " ++ py_str_nat (length sorted) ++
                lit " related documents:" ++ nl ++ comparison_text)].

(** Python equality [dt['filename'] == recommended]. *)
Definition json_eq_str (v : json) (s : pystr) : bool :=
  match v with JStr s' => pystr_eqb s s' | _ => false end.

(** [doc_texts[-1]['text']] *)
Definition last_text (l : list doc_text) : pystr :=
  match rev l with dt :: _ => dt_text dt | [] => [] end.

(** The post-processing of the parsed response (lines 266-283). *)
Definition post_process (sorted : list doc_text) (result : dict) : dict :=
  let r1 := dset (lit "document_count") (JNum (Z.of_nat (length sorted) # 1)) result in
  let recommended := dget_or (lit "recommended_base") (JStr []) r1 in
  let base_text :=
    match find (fun dt => json_eq_str recommended (dt_filename dt)) sorted with
    | Some dt => dt_text dt
    | None => []
    end in
  let base_text :=
    if negb (py_truthy_str base_text) && negb (match sorted with [] => true | _ => false end)
    then last_text sorted else base_text in
  let r2 := dset (lit "base_document_text") (JStr base_text) r1 in
  if dmem (lit "organizational_context") r2 then r2
  else dset (lit "organizational_context") (JStr []) r2.

(** The [try] block: the call, [json.loads], and the item assignments, which
    raise [TypeError] on a parsed value that is not an object. *)
Definition complete (deployment : pystr) (msgs : list message)
    (sorted : list doc_text) : result json :=
  match chat deployment msgs with
  | None => Raise CompletionError
  | Some result_text =>
    match json_loads result_text with
    | None => Raise CompletionError
    | Some (JObj r) => Ok (JObj (post_process sorted r))
    | Some _ => Raise TypeError
    end
  end.

(** [analyze_document_family(documents, user_context, context_documents,
    **azure_args)] with the environment [env]: the effects performed, and
    the returned value or the raised exception. *)
Definition analyze_document_family (documents : list document) (user_context : pystr)
    (context_documents : option (list document)) (a : azure_args) (env : environ)
    : list event * result json :=
  let endpoint := resolve_endpoint a env in
  let api_key := resolve_api_key a env in
  let deployment := resolve_deployment_large a env in
  if negb (configured endpoint api_key) then ([], Raise NotConfigured) else
  let ev1 := extraction_events documents in
  match doc_texts documents with
  | [] => (ev1, Raise NoExtractableText)
  | [dt] => (ev1, Ok (single_document_stub dt))
  | dts =>
    let sorted := sort_by_created dts in
    let ctx := context_list context_documents in
    let context_texts := extract_docs 4000 ctx in
    let msgs := family_messages sorted user_context context_texts in
    (ev1 ++ extraction_events ctx ++ [EvChat deployment msgs],
     complete deployment msgs sorted)
  end.

End FamilyAnalyzer.

(* ------------------------------------------------------------------------- *)
(** ** Intent extraction ([intent_extractor.py]) *)

Section IntentExtractor.

Variable chat : pystr -> list message -> option pystr.
Variable json_loads : pystr -> option json.
Variable SEARCH_INTENT_PROMPT INTENT_EXTRACTION_PROMPT : pystr.

(** The [return] of [extract_search_intent] from the parsed object. *)
Definition search_intent_of (r : dict) : result json :=
  match py_slice_to 3 (dget_or (lit "search_terms") (JArr []) r) with
  | Raise e => Raise e
  | Ok search_terms =>
    match py_slice_to 4 (dget_or (lit "context_search_terms") (JArr []) r) with
    | Raise e => Raise e
    | Ok context_search_terms =>
      Ok (JObj [
        (lit "document_type", dget_or (lit "document_type") (JStr (lit "unknown")) r);
        (lit "search_terms", search_terms);
        (lit "context_search_terms", context_search_terms);
        (lit "summary", dget_or (lit "summary") (JStr []) r);
        (lit "confidence", dget_or (lit "confidence") (JNum (1 # 2)) r)])
    end
  end.

(** Send one request and parse the answer; [k] continues with the parsed
    object, any other parsed value has no [.get] ([AttributeError]). *)
Definition ask (deployment : pystr) (msgs : list message) (k : dict -> result json)
    : list event * result json :=
  ([EvChat deployment msgs],
   match chat deployment msgs with
   | None => Raise CompletionError
   | Some result_text =>
     match json_loads result_text with
     | None => Raise CompletionError
     | Some (JObj r) => k r
     | Some _ => Raise AttributeError
     end
   end).

Definition extract_search_intent (user_prompt : pystr) (a : azure_args) (env : environ)
    : list event * result json :=
  let endpoint := resolve_endpoint a env in
  let api_key := resolve_api_key a env in
  let deployment := resolve_deployment a env in
  if negb (configured endpoint api_key) then ([], Raise NotConfigured) else
  ask deployment [(lit "system", SEARCH_INTENT_PROMPT); (lit "user", user_prompt)]
      search_intent_of.

Definition intent_of (r : dict) : result json :=
  Ok (JObj [
    (lit "intent", dget_or (lit "intent") (JStr (lit "unknown")) r);
    (lit "document_type", dget_or (lit "document_type") (JStr (lit "unknown")) r);
    (lit "search_terms", dget_or (lit "search_terms") (JArr []) r);
    (lit "extracted_fields", dget_or (lit "extracted_fields") (JObj []) r);
    (lit "confidence", dget_or (lit "confidence") (JNum (1 # 2)) r);
    (lit "summary", dget_or (lit "summary") (JStr []) r)]).

Definition extract_intent (user_prompt : pystr) (a : azure_args) (env : environ)
    : list event * result json :=
  let endpoint := resolve_endpoint a env in
  let api_key := resolve_api_key a env in
  let deployment := resolve_deployment a env in
  if negb (configured endpoint api_key) then ([], Raise NotConfigured) else
  ask deployment [(lit "system", INTENT_EXTRACTION_PROMPT); (lit "user", user_prompt)]
      intent_of.

End IntentExtractor.

(** [field_name in extracted_fields] and [extracted_fields[field_name]] for
    the JSON value of [field.get('field_name', '')]: a string is looked up;
    numbers, booleans and [None] are hashable but equal no string key; a list
    or a dict is unhashable and raises [TypeError]. *)
Definition lookup_field (name : json) (extracted_fields : dict) : result (option json) :=
  match name with
  | JStr k => Ok (dget k extracted_fields)
  | JNull | JBool _ | JNum _ => Ok None
  | JArr _ | JObj _ => Raise TypeError
  end.

(** One iteration of the loop of [merge_fields]. *)
Definition merge_field (extracted_fields : dict) (field : dict) : result dict :=
  let field_name := dget_or (lit "field_name") (JStr []) field in
  match lookup_field field_name extracted_fields with
  | Raise e => Raise e
  | Ok (Some v) =>
    Ok (dset (lit "pre_filled") (JBool true) (dset (lit "new_value") v field))
  | Ok None =>
    Ok (dset (lit "pre_filled") (JBool false)
          (dset (lit "new_value") (dget_or (lit "current_value") (JStr []) field) field))
  end.

(** [merge_fields(original_fields, extracted_fields)] *)
Fixpoint merge_fields (original_fields : list dict) (extracted_fields : dict)
    : result (list dict) :=
  match original_fields with
  | [] => Ok []
  | field :: rest =>
    match merge_field extracted_fields field with
    | Raise e => Raise e
    | Ok field_copy =>
      match merge_fields rest extracted_fields with
      | Raise e => Raise e
      | Ok merged => Ok (field_copy :: merged)
      end
    end
  end.

(** [len(v)] *)
Definition py_len (v : json) : result nat :=
  match v with
  | JStr s => Ok (length s)
  | JArr xs => Ok (length xs)
  | JObj kvs => Ok (length kvs)
  | _ => Raise TypeError
  end.

(* ------------------------------------------------------------------------- *)
(** ** [generate_from_synthesis] ([document_generator.py]) *)

Section Generator.

Variable chat : pystr -> list message -> option pystr.
Variable json_loads : pystr -> option json.
(** [json.dumps(family_analysis, indent=2)] *)
Variable json_dumps : json -> pystr.
(** [SYNTHESIS_GENERATION_PROMPT.format(target_info=...)] *)
Variable SYNTHESIS_GENERATION_PROMPT_format : pystr -> pystr.

Definition synthesis_user_msg (family_analysis : json) (base_document_text user_changes
    organizational_context : pystr) : pystr :=
  lit "COMPARATIVE ANALYSIS:" ++ nl ++ json_dumps family_analysis ++ nl ++ nl ++
  lit "MOST RECENT VERSION TEXT:" ++ nl ++ firstn 8000 base_document_text ++ nl ++ nl ++
  (if py_truthy_str organizational_context then
     lit "ORGANIZATIONAL CONTEXT (recently discovered changes in the organization " ++
     [8212] ++ lit " incorporate where relevant):" ++ nl ++ organizational_context ++ nl ++ nl
   else []) ++
  (if py_truthy_str user_changes then
     lit "USER REQUESTED CHANGES:" ++ nl ++ user_changes ++ nl ++ nl
   else []) ++
  lit "Generate the complete new version.".

(** The [try] block after [json.loads]: the log line takes
    [len(result.get('changes_applied', []))] and
    [len(result.get('flags', []))], which raise [TypeError] on a number, a
    boolean or [None]; then [result] is returned. *)
Definition synthesis_of (r : dict) : result json :=
  match py_len (dget_or (lit "changes_applied") (JArr []) r) with
  | Raise e => Raise e
  | Ok _ =>
    match py_len (dget_or (lit "flags") (JArr []) r) with
    | Raise e => Raise e
    | Ok _ => Ok (JObj r)
    end
  end.

Definition generate_from_synthesis (family_analysis : json) (base_document_text : pystr)
    (user_changes target_year organizational_context : pystr) (a : azure_args)
    (env : environ) : list event * result json :=
  let endpoint := resolve_endpoint a env in
  let api_key := resolve_api_key a env in
  let deployment := resolve_deployment_large a env in
  if negb (configured endpoint api_key) then ([], Raise NotConfigured) else
  let target_info := if py_truthy_str target_year then target_year
                     else lit "next iteration" in
  let msgs := [(lit "system", SYNTHESIS_GENERATION_PROMPT_format target_info);
               (lit "user", synthesis_user_msg family_analysis base_document_text
                              user_changes organizational_context)] in
  ask chat json_loads deployment msgs synthesis_of.

End Generator.

(* ------------------------------------------------------------------------- *)
(** ** Single-document analysis ([document_analyzer.py]) *)

Section DocumentAnalyzer.

Variable docx_parse : bytes -> option docx.
Variable chat : pystr -> list message -> option pystr.
Variable json_loads : pystr -> option json.
(** The system prompt constant [ANALYSIS_SYSTEM_PROMPT]. *)
Variable ANALYSIS_SYSTEM_PROMPT : pystr.

(** [max_chars] of [analyze_document_with_llm]. *)
Definition max_chars : nat := 12000.

Definition truncation_marker : pystr :=
  nl ++ nl ++ lit "[Document truncated for analysis...]".

(** The truncation of [analyze_document_with_llm]. *)
Definition truncate_for_analysis (text : pystr) : pystr :=
  if Nat.ltb max_chars (length text)
  then firstn max_chars text ++ truncation_marker
  else text.

Definition analysis_messages (text : pystr) : list message :=
  [(lit "system", ANALYSIS_SYSTEM_PROMPT);
   (lit "user", lit "Analyze this document and extract its variable fields:" ++ nl ++ nl ++
                truncate_for_analysis text)].

(** [analyze_document_with_llm(text, ..., azure_deployment, ...)]: the
    parsed answer, whatever JSON value it is. *)
Definition analyze_document_with_llm (text deployment : pystr) : list event * result json :=
  let msgs := analysis_messages text in
  ([EvChat deployment msgs],
   match chat deployment msgs with
   | None => Raise CompletionError
   | Some result_text =>
     match json_loads result_text with
     | None => Raise CompletionError
     | Some v => Ok v
     end
   end).

(** [text[:500] + "..." if len(text) > 500 else text] *)
Definition text_preview (text : pystr) : pystr :=
  if Nat.ltb 500 (length text) then firstn 500 text ++ lit "..." else text.

(** [analyze_document(file_bytes, filename, **azure_args)].  A blank text
    raises the [ValueError] "Could not extract text from document", the
    same category as [NoExtractableText]. *)
Definition analyze_document (file_bytes : bytes) (filename : pystr) (a : azure_args)
    (env : environ) : list event * result json :=
  let endpoint := resolve_endpoint a env in
  let api_key := resolve_api_key a env in
  let deployment := resolve_deployment a env in
  if negb (configured endpoint api_key) then ([], Raise NotConfigured) else
  match extract_text docx_parse file_bytes filename with
  | Raise e => ([EvExtract filename], Raise e)
  | Ok text =>
    if negb (strip_nonempty text) then ([EvExtract filename], Raise NoExtractableText)
    else
      let (ev, r) := analyze_document_with_llm text deployment in
      (EvExtract filename :: ev,
       match r with
       | Raise e => Raise e
       | Ok (JObj analysis) =>
         Ok (JObj (dset (lit "original_text_preview") (JStr (text_preview text))
                     (dset (lit "filename") (JStr filename) analysis)))
       | Ok _ => Raise TypeError
       end)
  end.

End DocumentAnalyzer.

(* ------------------------------------------------------------------------- *)
(** ** Python values in f-strings, [len], truthiness and [==] *)

Section PyValues.

(** [str(v)] of a value that is not a string (the rendering of numbers,
    lists and dicts is not modelled). *)
Variable str_other : json -> pystr.

(** [f"{v}"] / [str(v)] *)
Definition py_fmt (v : json) : pystr :=
  match v with JStr s => s | _ => str_other v end.

End PyValues.

(** [bool(v)] *)
Definition py_truthy (v : json) : bool :=
  match v with
  | JNull => false
  | JBool b => b
  | JNum q => negb (Qeq_bool q 0%Q)
  | JStr s => py_truthy_str s
  | JArr xs => match xs with [] => false | _ => true end
  | JObj kvs => match kvs with [] => false | _ => true end
  end.

(** A number as Python compares it ([True == 1], [False == 0]). *)
Definition py_num (v : json) : option Q :=
  match v with
  | JBool b => Some (if b then 1 else 0)%Q
  | JNum q => Some q
  | _ => None
  end.

(** [a == b] on JSON values: numbers and booleans numerically, strings and
    lists element-wise, dicts as maps (same size, every key of one bound to
    an equal value in the other). *)
(** Element-wise equality of two lists. *)
Fixpoint list_eqb {A : Type} (eqb : A -> A -> bool) (xs ys : list A) : bool :=
  match xs, ys with
  | [], [] => true
  | x :: xs', y :: ys' => eqb x y && list_eqb eqb xs' ys'
  | _, _ => false
  end.

Fixpoint py_eqb (a b : json) : bool :=
  match a, b with
  | JNull, JNull => true
  | JStr s, JStr t => pystr_eqb s t
  | JArr xs, JArr ys => list_eqb py_eqb xs ys
  | JObj kas, JObj kbs =>
    Nat.eqb (length kas) (length kbs) &&
    forallb (fun '(k, va) =>
               match dget k kbs with
               | Some vb => py_eqb va vb
               | None => false
               end) kas
  | _, _ =>
    match py_num a, py_num b with
    | Some p, Some q => Qeq_bool p q
    | _, _ => false
    end
  end.

(** No key occurs twice. *)
Fixpoint keys_nodupb (ks : list pystr) : bool :=
  match ks with
  | [] => true
  | k :: ks' => negb (existsb (pystr_eqb k) ks') && keys_nodupb ks'
  end.

(** A JSON value as Python holds it: no object has a key twice. *)
Fixpoint json_wf (v : json) : bool :=
  match v with
  | JArr xs => forallb json_wf xs
  | JObj kvs =>
    keys_nodupb (map fst kvs) &&
    forallb (fun '(_, v) => json_wf v) kvs
  | _ => true
  end.

(* ========================================================================= *)

(** [for x in v]: a list yields its items, a string its characters, a dict
    its keys; other values are not iterable. *)
Definition py_iter (v : json) : result (list json) :=
  match v with
  | JArr xs => Ok xs
  | JStr s => Ok (map (fun c => JStr [c]) s)
  | JObj kvs => Ok (map (fun kv => JStr (fst kv)) kvs)
  | _ => Raise TypeError
  end.

(** [v + s] for a string [s]: only a string can be extended by one. *)
Definition py_add_str (v : json) (s : pystr) : result json :=
  match v with JStr t => Ok (JStr (t ++ s)) | _ => Raise TypeError end.

(** [v[:50] + "..." if len(v) > 50 else v] *)
Definition preview50 (v : json) : result json :=
  match py_len v with
  | Raise e => Raise e
  | Ok n =>
    if Nat.ltb 50 n then
      match py_slice_to 50 v with
      | Raise e => Raise e
      | Ok w => py_add_str w (lit "...")
      end
    else Ok v
  end.

(** Map a fallible function over a list, stopping at the first exception. *)
Fixpoint map_result {A B : Type} (f : A -> result B) (xs : list A) : result (list B) :=
  match xs with
  | [] => Ok []
  | x :: xs' =>
    match f x with
    | Raise e => Raise e
    | Ok y =>
      match map_result f xs' with
      | Raise e => Raise e
      | Ok ys => Ok (y :: ys)
      end
    end
  end.

(** [field.get(...)] on an item of a field list: only a dict has [.get]. *)
Definition as_field (v : json) : result dict :=
  match v with JObj f => Ok f | _ => Raise AttributeError end.

(* ------------------------------------------------------------------------- *)
(** ** Adaptive cards ([document_analyzer.py], [intent_extractor.py]) *)

Definition adaptive_card (body actions : list json) : json :=
  JObj [(lit "$schema", JStr (lit "http://adaptivecards.io/schemas/adaptive-card.json"));
        (lit "type", JStr (lit "AdaptiveCard"));
        (lit "version", JStr (lit "1.5"));
        (lit "body", JArr body);
        (lit "actions", JArr actions)].

Definition submit_action (title : pystr) (positive : bool) (action : pystr) : json :=
  JObj ([(lit "type", JStr (lit "Action.Submit")); (lit "title", JStr title)] ++
        (if positive then [(lit "style", JStr (lit "positive"))] else []) ++
        [(lit "data", JObj [(lit "action", JStr action)])]).

(** The label [TextBlock] of an input field. *)
Definition label_block (text : json) : json :=
  JObj [(lit "type", JStr (lit "TextBlock")); (lit "text", text);
        (lit "weight", JStr (lit "Bolder")); (lit "spacing", JStr (lit "Medium"))].

(** [field.get('field_name', 'field')] and the other lookups of the input
    cards. *)
Definition card_field_name (f : dict) : json := dget_or (lit "field_name") (JStr (lit "field")) f.
Definition card_field_label (f : dict) : json := dget_or (lit "field_label") (card_field_name f) f.
Definition card_field_type (f : dict) : json := dget_or (lit "field_type") (JStr (lit "text")) f.
Definition card_current_value (f : dict) : json := dget_or (lit "current_value") (JStr []) f.

Section Cards.

(** [str(v)] / [f"{v}"] of a value that is not a string. *)
Variable str_other : json -> pystr.
(** [int(analysis.get('confidence', 0) * 100)] rendered by the f-string
    (floating-point arithmetic, not modelled). *)
Variable confidence_pct : json -> result pystr.
(** [s.title()] (Unicode title-casing, not modelled). *)
Variable py_title : pystr -> pystr.

(** One fact of [generate_results_card]. *)
Definition result_fact (v : json) : result json :=
  match as_field v with
  | Raise e => Raise e
  | Ok field =>
    match preview50 (dget_or (lit "current_value") (JStr []) field) with
    | Raise e => Raise e
    | Ok value =>
      Ok (JObj [(lit "title", dget_or (lit "field_label")
                                 (dget_or (lit "field_name") (JStr (lit "Field")) field) field);
                (lit "value", value)])
    end
  end.

(** [facts] of [generate_results_card]: the loop over
    [analysis.get('fields', [])[:10]]. *)
Definition results_facts (analysis : dict) : result (list json) :=
  match py_slice_to 10 (dget_or (lit "fields") (JArr []) analysis) with
  | Raise e => Raise e
  | Ok fields =>
    match py_iter fields with
    | Raise e => Raise e
    | Ok xs => map_result result_fact xs
    end
  end.

Definition generate_results_card (analysis : dict) : result json :=
  match results_facts analysis with
  | Raise e => Raise e
  | Ok facts =>
    match confidence_pct (dget_or (lit "confidence") (JNum 0) analysis) with
    | Raise e => Raise e
    | Ok pct =>
      Ok (adaptive_card
        [JObj [(lit "type", JStr (lit "TextBlock")); (lit "text", JStr (lit "Document Analyzed"));
               (lit "weight", JStr (lit "Bolder")); (lit "size", JStr (lit "Large"));
               (lit "color", JStr (lit "Good")); (lit "wrap", JBool true)];
         JObj [(lit "type", JStr (lit "FactSet"));
               (lit "facts", JArr [
                  JObj [(lit "title", JStr (lit "Document Type:"));
                        (lit "value", dget_or (lit "document_type_display")
                                        (JStr (lit "Unknown")) analysis)];
                  JObj [(lit "title", JStr (lit "Confidence:"));
                        (lit "value", JStr (pct ++ lit "%"))]])];
         JObj [(lit "type", JStr (lit "TextBlock"));
               (lit "text", dget_or (lit "summary") (JStr []) analysis);
               (lit "wrap", JBool true); (lit "isSubtle", JBool true);
               (lit "spacing", JStr (lit "Small"))];
         JObj [(lit "type", JStr (lit "TextBlock")); (lit "text", JStr (lit "Extracted Fields"));
               (lit "weight", JStr (lit "Bolder")); (lit "spacing", JStr (lit "Medium"))];
         JObj [(lit "type", JStr (lit "FactSet")); (lit "facts", JArr facts)]]
        [submit_action (lit "Update These Fields") true (lit "update_fields");
         submit_action (lit "Generate with Same Values") false (lit "generate_same")])
    end
  end.

(** The two body items of one field of [generate_input_card]. *)
Definition input_items (v : json) : result (list json) :=
  match as_field v with
  | Raise e => Raise e
  | Ok field =>
    let field_name := card_field_name field in
    let current_value := card_current_value field in
    let label := label_block (card_field_label field) in
    if json_eq_str (card_field_type field) (lit "date") then
      Ok [label; JObj [(lit "type", JStr (lit "Input.Date")); (lit "id", field_name);
                       (lit "value", current_value)]]
    else if json_eq_str (card_field_type field) (lit "multiline") then
      match preview50 current_value with
      | Raise e => Raise e
      | Ok placeholder =>
        Ok [label; JObj [(lit "type", JStr (lit "Input.Text")); (lit "id", field_name);
                         (lit "isMultiline", JBool true); (lit "value", current_value);
                         (lit "placeholder", JStr (lit "Current: " ++ py_fmt str_other placeholder))]]
      end
    else
      Ok [label; JObj [(lit "type", JStr (lit "Input.Text")); (lit "id", field_name);
                       (lit "value", current_value);
                       (lit "placeholder", JStr (lit "Current: " ++ py_fmt str_other current_value))]]
  end.

Definition input_card_header : list json :=
  [JObj [(lit "type", JStr (lit "TextBlock")); (lit "text", JStr (lit "Enter New Values"));
         (lit "weight", JStr (lit "Bolder")); (lit "size", JStr (lit "Large"));
         (lit "wrap", JBool true)];
   JObj [(lit "type", JStr (lit "TextBlock"));
         (lit "text", JStr (lit "Update the fields you want to change."));
         (lit "wrap", JBool true); (lit "isSubtle", JBool true)]].

(** [body] of [generate_input_card]. *)
Definition input_card_body (analysis : dict) : result (list json) :=
  match py_iter (dget_or (lit "fields") (JArr []) analysis) with
  | Raise e => Raise e
  | Ok xs =>
    match map_result input_items xs with
    | Raise e => Raise e
    | Ok items => Ok (input_card_header ++ concat items)
    end
  end.

Definition generate_input_card (analysis : dict) : result json :=
  match input_card_body analysis with
  | Raise e => Raise e
  | Ok body =>
    Ok (adaptive_card body [submit_action (lit "Generate Document") true (lit "generate");
                            submit_action (lit "Cancel") false (lit "cancel")])
  end.

(** The placeholder of a multiline field of [generate_field_input_card]. *)
Definition field_placeholder (current_value : json) : result pystr :=
  match py_len current_value with
  | Raise e => Raise e
  | Ok n =>
    if Nat.ltb 50 n then
      match py_slice_to 50 current_value with
      | Raise e => Raise e
      | Ok w => Ok (lit "Current: " ++ py_fmt str_other w ++ lit "...")
      end
    else Ok (lit "Current: " ++ py_fmt str_other current_value)
  end.

Definition prefilled_marker : pystr := lit " (pre-filled from your request)".

(** The two body items of one field of [generate_field_input_card]. *)
Definition field_input_items (v : json) : result (list json) :=
  match as_field v with
  | Raise e => Raise e
  | Ok field =>
    let field_name := card_field_name field in
    let current_value := card_current_value field in
    let new_value := dget_or (lit "new_value") current_value field in
    let pre_filled := dget_or (lit "pre_filled") (JBool false) field in
    let label_text := py_fmt str_other (card_field_label field) ++
                      (if py_truthy pre_filled then prefilled_marker else []) in
    let label := label_block (JStr label_text) in
    if json_eq_str (card_field_type field) (lit "date") then
      Ok [label; JObj [(lit "type", JStr (lit "Input.Date")); (lit "id", field_name);
                       (lit "value", if py_truthy new_value then new_value else JNull)]]
    else if json_eq_str (card_field_type field) (lit "multiline") then
      match field_placeholder current_value with
      | Raise e => Raise e
      | Ok placeholder =>
        Ok [label; JObj [(lit "type", JStr (lit "Input.Text")); (lit "id", field_name);
                         (lit "isMultiline", JBool true); (lit "value", new_value);
                         (lit "placeholder", JStr placeholder)]]
      end
    else
      Ok [label; JObj [(lit "type", JStr (lit "Input.Text")); (lit "id", field_name);
                       (lit "value", new_value);
                       (lit "placeholder", JStr (lit "Current: " ++ py_fmt str_other current_value))]]
  end.

(** [document_type.replace('_', ' ')] *)
Definition underscores_to_spaces (s : pystr) : pystr :=
  map (fun c => if c =? 95 then 32 else c) s.

(** [body] of [generate_field_input_card(fields, document_type)]. *)
Definition field_input_card_body (fields : list json) (document_type : pystr)
    : result (list json) :=
  match map_result field_input_items fields with
  | Raise e => Raise e
  | Ok items =>
    Ok ([JObj [(lit "type", JStr (lit "TextBlock"));
               (lit "text", JStr (lit "Update " ++ py_title (underscores_to_spaces document_type)));
               (lit "weight", JStr (lit "Bolder")); (lit "size", JStr (lit "Large"));
               (lit "wrap", JBool true)];
         JObj [(lit "type", JStr (lit "TextBlock"));
               (lit "text", JStr (lit "Review and edit the fields below. Pre-filled values are from your request."));
               (lit "wrap", JBool true); (lit "isSubtle", JBool true);
               (lit "spacing", JStr (lit "Small"))]] ++ concat items)
  end.

Definition generate_field_input_card (fields : list json) (document_type : pystr) : result json :=
  match field_input_card_body fields document_type with
  | Raise e => Raise e
  | Ok body =>
    Ok (adaptive_card body [submit_action (lit "Generate Updated Document") true (lit "generate");
                            submit_action (lit "Cancel") false (lit "cancel")])
  end.

End Cards.

(* ------------------------------------------------------------------------- *)
(** ** [generate_filename] ([document_generator.py]) *)

Section Filename.

Variable str_other : json -> pystr.
Variable py_title : pystr -> pystr.
(** [str.isalnum()] of a non-ASCII code point (Unicode categories, not
    modelled). *)
Variable isalnum_nonascii : Z -> bool.

(** [c.isalnum()] *)
Definition py_isalnum (c : Z) : bool :=
  if c <? 128 then
    ((48 <=? c) && (c <=? 57)) || ((65 <=? c) && (c <=? 90)) || ((97 <=? c) && (c <=? 122))
  else isalnum_nonascii c.

(** [c.isalnum() or c in ' -_'] *)
Definition subject_char_ok (c : Z) : bool :=
  py_isalnum c || (c =? 32) || (c =? 45) || (c =? 95).

(** [''.join(c for c in s[:30] if ...)] *)
Definition safe_subject (s : pystr) : pystr := filter subject_char_ok (firstn 30 s).

(** [generate_filename(document_type, fields)], the date string
    [datetime.now().strftime('%m%d%Y')] being an argument. *)
Definition generate_filename (document_type : pystr) (fields : dict) (date_str : pystr) : pystr :=
  let subject := dget_or (lit "subject")
                   (dget_or (lit "re") (JStr (py_title document_type)) fields) fields in
  py_title document_type ++ lit " - " ++ safe_subject (py_fmt str_other subject) ++
  lit " - " ++ date_str ++ lit ".docx".

End Filename.

(* ------------------------------------------------------------------------- *)
(** ** The merge-fields endpoint ([function_app.py]) *)

(** [merge_fields] over the items of the request's [original_fields]: an item
    that is not a dict has no [.copy()] or [.get()] and raises. *)
Definition merge_fields_json (original_fields : list json) (extracted_fields : dict)
    : result (list dict) :=
  map_result (fun v => match as_field v with
                       | Raise e => Raise e
                       | Ok field => merge_field extracted_fields field
                       end) original_fields.

(** [s.startswith(p)] *)
Definition py_startswith (s p : pystr) : bool :=
  Nat.leb (length p) (length s) && pystr_eqb (firstn (length p) s) p.

(** [s.split('\n', 1)]: the text after the first newline, if there is one. *)
Fixpoint after_first_nl (s : pystr) : option pystr :=
  match s with
  | [] => None
  | c :: s' => if c =? 10 then Some s' else after_first_nl s'
  end.

Definition fence : pystr := lit "```".

(** The removal of a Markdown code fence around the answer. *)
Definition unfence (content : pystr) : pystr :=
  if py_startswith content fence then
    let content := match after_first_nl content with Some r => r | None => content end in
    if py_endswith content fence then py_strip (firstn (length content - 3) content)
    else content
  else content.

(** A Python dict whose keys are any hashable JSON values, compared with
    [==] ([merged_fields_flat]). *)
Definition jdict := list (json * json).

Fixpoint jset (k v : json) (d : jdict) : jdict :=
  match d with
  | [] => [(k, v)]
  | (k', v') :: d' => if py_eqb k k' then (k', v) :: d' else (k', v') :: jset k v d'
  end.

Fixpoint jget (k : json) (d : jdict) : option json :=
  match d with
  | [] => None
  | (k', v) :: d' => if py_eqb k k' then Some v else jget k d'
  end.

(** [{**a, **b}] *)
Definition dict_merge (a b : dict) : dict :=
  fold_left (fun acc kv => dset (fst kv) (snd kv) acc) (a ++ b) [].

(** The response of the endpoint: the status code, and the JSON body
    ([json.dumps] of it is not modelled).  [MergeFailed] is the body
    [{'success': False, 'error': str(e)}] of a caught exception; [None]
    stands for the [ValueError] of [req.get_json()] on a body that is not
    JSON. *)
Inductive merge_body :=
| MergeOk (merged_fields : jdict) (fields_detail : list dict) (changes_summary : pystr)
| MergeError (error : pystr)
| MergeFailed (e : option exc).

Record http_response := HttpResponse {
  status_code : Z;
  response_body : merge_body
}.

(** [field.get('new_value', field.get('current_value', ''))] and
    [field.get('current_value', '')] of the endpoint's loop. *)
Definition detail_new_value (f : dict) : json :=
  dget_or (lit "new_value") (dget_or (lit "current_value") (JStr []) f) f.
Definition detail_current (f : dict) : json := dget_or (lit "current_value") (JStr []) f.
Definition detail_name (f : dict) : json := dget_or (lit "field_name") (JStr []) f.
Definition detail_changed (f : dict) : bool :=
  negb (py_eqb (detail_new_value f) (detail_current f)).

(** [', '.join(changed_fields)]: every item must be a string. *)
Definition join_names (names : list json) : result pystr :=
  match map_result (fun v => match v with JStr s => Ok s | _ => Raise TypeError end) names with
  | Raise e => Raise e
  | Ok ss => Ok (py_join (lit ", ") ss)
  end.

(** The loop over [merged_detail] and the summary. *)
Definition merge_response (merged_detail : list dict) : result (jdict * list dict * pystr) :=
  let merged_fields_flat :=
    fold_left (fun acc f => jset (detail_name f) (detail_new_value f) acc) merged_detail [] in
  let changed_fields := map detail_name (filter detail_changed merged_detail) in
  let detail := map (fun f => dset (lit "changed") (JBool (detail_changed f)) f) merged_detail in
  let total := py_str_nat (length merged_detail) in
  match changed_fields with
  | [] => Ok (merged_fields_flat, detail,
              lit "No changes detected across " ++ total ++ lit " fields")
  | _ =>
    match join_names changed_fields with
    | Raise e => Raise e
    | Ok joined =>
      Ok (merged_fields_flat, detail,
          lit "Updated " ++ py_str_nat (length changed_fields) ++ lit " of " ++ total ++
          lit " fields: " ++ joined)
    end
  end.

Section FunctionApp.

Variable str_other : json -> pystr.
(** The [urllib] request to the chat-completions URL, [json.loads] of the
    response and [result['choices'][0]['message']['content']]; [None] when
    any of them raises or the content is not a string. *)
Variable http_chat : pystr -> list message -> option pystr.
Variable json_loads : pystr -> option json.
(** The f-string system prompt of [_parse_natural_language_changes], from
    [field_reference]. *)
Variable NL_CHANGES_PROMPT_format : pystr -> pystr.

(** One line of [field_list]. *)
Definition field_line (v : json) : result pystr :=
  match as_field v with
  | Raise e => Raise e
  | Ok f =>
    let q := JStr (lit "?") in
    Ok (lit "- " ++ py_fmt str_other (dget_or (lit "field_name") q f) ++ lit " (label: " ++
        py_fmt str_other (dget_or (lit "field_label") q f) ++ lit ", current: " ++
        py_fmt str_other (dget_or (lit "current_value") q f) ++ lit ")")
  end.

(** The result of the [try] block, once the request is answered. *)
Definition parse_changes_answer (answer : option pystr) : dict :=
  match answer with
  | None => []
  | Some raw =>
    match json_loads (unfence (py_strip raw)) with
    | Some (JObj parsed) => parsed
    | _ => []
    end
  end.

(** [_parse_natural_language_changes(user_text, original_fields)]: it reads
    the configuration from the environment only. *)
Definition parse_natural_language_changes (user_text : pystr) (original_fields : json)
    (env : environ) : list event * result dict :=
  let endpoint := env_get (lit "AZURE_OPENAI_ENDPOINT") env in
  let api_key := env_get (lit "AZURE_OPENAI_KEY") env in
  let deployment := env_get_or (lit "AZURE_OPENAI_DEPLOYMENT") (lit "gpt-4o-mini") env in
  if negb (configured endpoint api_key) then ([], Ok []) else
  match py_iter original_fields with
  | Raise e => ([], Raise e)
  | Ok fs =>
    match map_result field_line fs with
    | Raise e => ([], Raise e)
    | Ok field_list =>
      let msgs := [(lit "system", NL_CHANGES_PROMPT_format (py_join nl field_list));
                   (lit "user", user_text)] in
      ([EvChat deployment msgs], Ok (parse_changes_answer (http_chat deployment msgs)))
    end
  end.

(** [merge_fields_endpoint(req)], the request body being [req.get_json()]
    ([None] when it is not JSON). *)
Definition merge_fields_endpoint (req_body : option json) (env : environ)
    : list event * http_response :=
  match req_body with
  | None => ([], HttpResponse 500 (MergeFailed None))
  | Some (JObj body) =>
    let original_fields := dget_or (lit "original_fields") (JArr []) body in
    let user_changes := dget_or (lit "user_changes") (JObj []) body in
    let pre_extracted_fields := dget_or (lit "pre_extracted_fields") (JObj []) body in
    if negb (py_truthy original_fields) then
      ([], HttpResponse 400 (MergeError (lit "Missing original_fields")))
    else
    let (ev, user) :=
      match user_changes with
      | JStr s => if strip_nonempty s
                  then parse_natural_language_changes s original_fields env
                  else ([], Ok [])
      | JObj d => ([], Ok d)
      | _ => ([], Ok [])
      end in
    let pre :=
      match pre_extracted_fields with
      | JStr s => if strip_nonempty s
                  then match json_loads s with Some v => v | None => JObj [] end
                  else JObj []
      | v => v
      end in
    let outcome :=
      match user with
      | Raise e => Raise e
      | Ok user =>
        match pre with
        | JObj pre =>
          match py_iter original_fields with
          | Raise e => Raise e
          | Ok fs =>
            match merge_fields_json fs (dict_merge pre user) with
            | Raise e => Raise e
            | Ok merged_detail => merge_response merged_detail
            end
          end
        | _ => Raise TypeError
        end
      end in
    (ev, match outcome with
         | Raise e => HttpResponse 500 (MergeFailed (Some e))
         | Ok (flat, detail, summary) => HttpResponse 200 (MergeOk flat detail summary)
         end)
  | Some _ => ([], HttpResponse 500 (MergeFailed (Some AttributeError)))
  end.

End FunctionApp.

(* ------------------------------------------------------------------------- *)
(** ** The analyze-family endpoint ([function_app.py]) *)

(** The body of a response of the endpoint ([json.dumps] of it is not
    modelled): [{'success': True, **result}], [{'success': False, 'error':
    'Missing documents array'}], or the body [{'success': False, 'error':
    str(e)}] of a caught exception. *)
Inductive family_body :=
| FamilyOk (body : dict)
| FamilyError (error : pystr)
| FamilyFailed (e : exc).

Record family_response := FamilyResponse {
  family_status : Z;
  family_response_body : family_body
}.

Section FamilyEndpoint.

Variable docx_parse : bytes -> option docx.
Variable b64decode : pystr -> option bytes.
Variable chat : pystr -> list message -> option pystr.
Variable json_loads : pystr -> option json.
Variable FAMILY_ANALYSIS_PROMPT : pystr.
(** The status of a [CompletionError]: 400 when [json.loads] raised (its
    [JSONDecodeError] is a [ValueError]), 500 when the chat call raised; the
    model does not tell the two apart. *)
Variable completion_error_status : Z.

(** [except ValueError] gives 400, [except Exception] 500. *)
Definition family_error_status (e : exc) : Z :=
  match e with
  | NotConfigured | NoExtractableText | UnsupportedFormat => 400
  | CompletionError => completion_error_status
  | TypeError | AttributeError => 500
  end.

(** [analyze_family_endpoint(req)] for a request whose [documents] and
    [context_documents] are lists of document objects (or absent, read as
    [[]]) and whose [user_context] is a string; [analyze_document_family] is
    called without configuration arguments. *)
Definition analyze_family_endpoint (documents context_documents : list document)
    (user_context : pystr) (env : environ) : list event * family_response :=
  match documents with
  | [] => ([], FamilyResponse 400 (FamilyError (lit "Missing documents array")))
  | _ =>
    let ctx := match context_documents with [] => None | _ => Some context_documents end in
    match analyze_document_family docx_parse b64decode chat json_loads FAMILY_ANALYSIS_PROMPT
            documents user_context ctx (mk_azure_args None None None None) env with
    | (ev, Ok (JObj result)) =>
      (ev, FamilyResponse 200 (FamilyOk (dict_merge [(lit "success", JBool true)] result)))
    | (ev, Ok _) => (ev, FamilyResponse 500 (FamilyFailed TypeError))
    | (ev, Raise e) => (ev, FamilyResponse (family_error_status e) (FamilyFailed e))
    end
  end.

End FamilyEndpoint.

(* ========================================================================= *)
(** * Properties *)

(* ------------------------------------------------------------------------- *)
(** ** Strings *)

Lemma pystr_eqb_eq : forall a b, pystr_eqb a b = true <-> a = b.
Proof.
  induction a as [|x a IH]; destruct b as [|y b]; simpl;
    try (split; congruence).
  rewrite andb_true_iff, Z.eqb_eq, IH. split.
  - intros [-> ->]; reflexivity.
  - intros H; injection H; auto.
Qed.

Lemma pystr_eqb_refl : forall a, pystr_eqb a a = true.
Proof. intros a; apply pystr_eqb_eq; reflexivity. Qed.

Lemma pystr_eqb_neq : forall a b, pystr_eqb a b = false <-> a <> b.
Proof.
  intros a b. rewrite <- pystr_eqb_eq. destruct (pystr_eqb a b); intuition congruence.
Qed.

Lemma py_endswith_app : forall s suf,
  py_endswith s suf = true <-> exists pre, s = pre ++ suf.
Proof.
  intros s suf. unfold py_endswith. rewrite andb_true_iff, Nat.leb_le, pystr_eqb_eq.
  split.
  - intros [Hle Hs]. exists (firstn (length s - length suf) s).
    rewrite <- Hs at 2. symmetry. apply firstn_skipn.
  - intros [pre ->]. rewrite length_app. split; [lia|].
    replace (length pre + length suf - length suf)%nat with (length pre) by lia.
    rewrite skipn_app, skipn_all, Nat.sub_diag; reflexivity.
Qed.

Lemma py_lower_app : forall a b, py_lower (a ++ b) = py_lower a ++ py_lower b.
Proof. intros; apply map_app. Qed.

(** Two suffixes whose last code points differ cannot both end a string. *)
Lemma endswith_last_differs : forall s suf1 suf2 c1 c2 p1 p2,
  suf1 = p1 ++ [c1] -> suf2 = p2 ++ [c2] -> c1 <> c2 ->
  py_endswith s suf1 = true -> py_endswith s suf2 = false.
Proof.
  intros s suf1 suf2 c1 c2 p1 p2 -> -> Hc H1.
  destruct (py_endswith s (p2 ++ [c2])) eqn:H2; [|reflexivity]. exfalso.
  apply py_endswith_app in H1 as [q1 Hq1]. apply py_endswith_app in H2 as [q2 Hq2].
  rewrite Hq1 in Hq2. rewrite !app_assoc in Hq2.
  apply (f_equal (@rev Z)) in Hq2. rewrite !rev_app_distr in Hq2. simpl in Hq2.
  injection Hq2. intros. congruence.
Qed.

(* ------------------------------------------------------------------------- *)
(** ** Dictionaries *)

Lemma dget_dset_eq : forall k v d, dget k (dset k v d) = Some v.
Proof.
  induction d as [|[k' v'] d IH]; simpl.
  - rewrite pystr_eqb_refl; reflexivity.
  - destruct (pystr_eqb k k') eqn:E; simpl.
    + rewrite E; reflexivity.
    + rewrite E; exact IH.
Qed.

Lemma dget_dset_neq : forall k k' v d, k <> k' -> dget k (dset k' v d) = dget k d.
Proof.
  intros k k' v d Hne. induction d as [|[k'' v''] d IH]; simpl.
  - apply pystr_eqb_neq in Hne. rewrite Hne. reflexivity.
  - destruct (pystr_eqb k' k'') eqn:E; simpl.
    + apply pystr_eqb_eq in E. subst k''.
      apply pystr_eqb_neq in Hne. rewrite Hne. reflexivity.
    + destruct (pystr_eqb k k''); [reflexivity | exact IH].
Qed.

Ltac dget_simpl :=
  repeat first
    [ rewrite dget_dset_eq
    | rewrite dget_dset_neq by (let H := fresh in intro H; vm_compute in H; discriminate H) ].

(* ------------------------------------------------------------------------- *)
(** ** Text extraction *)

Lemma docx_not_doc : forall s,
  py_endswith s (lit ".docx") = true -> py_endswith s (lit ".doc") = false.
Proof.
  intros s H. eapply (endswith_last_differs s _ _ 120 99 (lit ".doc") (lit ".do"));
    try reflexivity; try discriminate; exact H.
Qed.

Lemma txt_not_doc : forall s,
  py_endswith s (lit ".txt") = true -> py_endswith s (lit ".doc") = false.
Proof.
  intros s H. eapply (endswith_last_differs s _ _ 116 99 (lit ".tx") (lit ".do"));
    try reflexivity; try discriminate; exact H.
Qed.

(** C5: [extract_text] dispatches on the lowercased suffix.  It raises, and
    then [UnsupportedFormat], exactly when the lowercased filename ends with
    [".doc"] (such a name never ends with [".docx"]); for any name that ends
    with neither [".docx"] nor [".doc"] (so [".txt"] and every unknown
    suffix) it returns the UTF-8 decoding of the bytes, or their Latin-1
    decoding when UTF-8 decoding fails. *)
Theorem extract_text_dispatch : forall docx_parse file_bytes filename,
  (forall e, extract_text docx_parse file_bytes filename = Raise e <->
             e = UnsupportedFormat /\
             py_endswith (py_lower filename) (lit ".doc") = true) /\
  (py_endswith (py_lower filename) (lit ".docx") = false ->
   py_endswith (py_lower filename) (lit ".doc") = false ->
   extract_text docx_parse file_bytes filename =
     Ok (match utf8_decode file_bytes with
         | Some s => s
         | None => latin1_decode file_bytes
         end)).
Proof.
  intros docx_parse file_bytes filename. unfold extract_text, extract_text_from_txt.
  remember (py_lower filename) as fl eqn:Hfl; clear Hfl.
  destruct (py_endswith fl (lit ".docx")) eqn:E1.
  - pose proof (docx_not_doc _ E1) as E3. rewrite E3. split.
    + intros e; split; [discriminate | intros [_ H]; discriminate].
    + discriminate.
  - destruct (py_endswith fl (lit ".txt")) eqn:E2.
    + pose proof (txt_not_doc _ E2) as E3. rewrite E3. split.
      * intros e; split; [discriminate | intros [_ H]; discriminate].
      * reflexivity.
    + destruct (py_endswith fl (lit ".doc")) eqn:E3; split.
      * intros e; split; [intros H; injection H; auto | intros [-> _]; reflexivity].
      * discriminate.
      * intros e; split; [discriminate | intros [_ H]; discriminate].
      * reflexivity.
Qed.

(** Witness of C5: an upper-case [".TXT"] name holding invalid UTF-8 is
    decoded as Latin-1. *)
Lemma extract_text_dispatch_witness :
  extract_text (fun _ => None) [104; 233] (lit "notes.TXT") = Ok [104; 233].
Proof.
  apply (proj2 (extract_text_dispatch (fun _ => None) [104; 233] (lit "notes.TXT")));
    vm_compute; reflexivity.
Defined.

Lemma lower_docx_suffix : forall fn,
  py_endswith fn (lit ".docx") = true -> py_endswith (py_lower fn) (lit ".docx") = true.
Proof.
  intros fn H. apply py_endswith_app in H as [pre ->].
  apply py_endswith_app. exists (py_lower pre). rewrite py_lower_app. reflexivity.
Qed.

Lemma extract_docs_app : forall docx_parse b64decode lim l1 l2,
  extract_docs docx_parse b64decode lim (l1 ++ l2) =
  extract_docs docx_parse b64decode lim l1 ++ extract_docs docx_parse b64decode lim l2.
Proof.
  intros docx_parse b64decode lim l1 l2. induction l1 as [|d l1 IH]; simpl.
  - reflexivity.
  - destruct (extract_doc docx_parse b64decode lim d); simpl; rewrite IH; reflexivity.
Qed.

Lemma chat_calls_app : forall t1 t2, chat_calls (t1 ++ t2) = chat_calls t1 ++ chat_calls t2.
Proof. intros; apply filter_app. Qed.

Lemma chat_calls_extraction : forall docs, chat_calls (extraction_events docs) = [].
Proof. induction docs; simpl; auto. Qed.

(** [analyze_document_family] depends on the primary documents only through
    [doc_texts] (apart from the extraction events). *)
Lemma analyze_through_doc_texts : forall docx_parse b64decode chat json_loads FAP
    docs1 docs2 uc ctx a env,
  doc_texts docx_parse b64decode docs1 = doc_texts docx_parse b64decode docs2 ->
  snd (analyze_document_family docx_parse b64decode chat json_loads FAP docs1 uc ctx a env) =
  snd (analyze_document_family docx_parse b64decode chat json_loads FAP docs2 uc ctx a env) /\
  chat_calls (fst (analyze_document_family docx_parse b64decode chat json_loads FAP docs1 uc ctx a env)) =
  chat_calls (fst (analyze_document_family docx_parse b64decode chat json_loads FAP docs2 uc ctx a env)).
Proof.
  intros. unfold analyze_document_family. rewrite H.
  destruct (negb _); [split; reflexivity|].
  destruct (doc_texts docx_parse b64decode docs2) as [|dt [|dt' l]]; simpl;
    rewrite ?chat_calls_app, ?chat_calls_extraction; split; reflexivity.
Qed.

(** C10: on a name ending with [".docx"], [extract_text] never raises; when
    python-docx cannot parse the bytes it returns [""].  In a batch, such a
    corrupt [.docx] document is dropped like an empty one: the analysis of
    the batch with it returns what the batch without it returns and sends the
    same requests. *)
Theorem docx_extraction_total : forall docx_parse b64decode chat json_loads FAP
    file_bytes fn,
  py_endswith fn (lit ".docx") = true ->
  extract_text docx_parse file_bytes fn = Ok (extract_text_from_docx docx_parse file_bytes) /\
  (docx_parse file_bytes = None -> extract_text docx_parse file_bytes fn = Ok []) /\
  (forall d pre post uc ctx a env,
     filename d = fn -> b64decode (content d) = Some file_bytes ->
     docx_parse file_bytes = None ->
     snd (analyze_document_family docx_parse b64decode chat json_loads FAP
            (pre ++ d :: post) uc ctx a env) =
     snd (analyze_document_family docx_parse b64decode chat json_loads FAP
            (pre ++ post) uc ctx a env) /\
     chat_calls (fst (analyze_document_family docx_parse b64decode chat json_loads FAP
            (pre ++ d :: post) uc ctx a env)) =
     chat_calls (fst (analyze_document_family docx_parse b64decode chat json_loads FAP
            (pre ++ post) uc ctx a env))).
Proof.
  intros docx_parse b64decode chat json_loads FAP file_bytes fn Hfn.
  assert (Hx : extract_text docx_parse file_bytes fn =
               Ok (extract_text_from_docx docx_parse file_bytes)).
  { unfold extract_text. rewrite (lower_docx_suffix _ Hfn). reflexivity. }
  split; [exact Hx|]. split.
  - intros Hp. rewrite Hx. unfold extract_text_from_docx. rewrite Hp. reflexivity.
  - intros d pre post uc ctx a env Hn Hb Hp. apply analyze_through_doc_texts.
    unfold doc_texts. rewrite !extract_docs_app. f_equal. simpl.
    unfold extract_doc at 1. rewrite Hb, Hn, Hx.
    unfold extract_text_from_docx. rewrite Hp. reflexivity.
Qed.

(** Witness of C10. *)
Lemma docx_extraction_total_witness :
  extract_text (fun _ => None) [1; 2; 3] (lit "Letter.docx") = Ok [].
Proof.
  apply (proj1 (proj2 (docx_extraction_total (fun _ => None) (fun _ => None)
                         (fun _ _ => None) (fun _ => None) [] [1; 2; 3]
                         (lit "Letter.docx") eq_refl))).
  reflexivity.
Defined.

(* ------------------------------------------------------------------------- *)
(** ** The order on strings and the sort by creation date *)

Lemma pystr_ltb_irrefl : forall a, pystr_ltb a a = false.
Proof.
  induction a as [|x a IH]; simpl; [reflexivity|].
  rewrite Z.ltb_irrefl, Z.eqb_refl, IH. reflexivity.
Qed.

Lemma pystr_ltb_trans : forall a b c,
  pystr_ltb a b = true -> pystr_ltb b c = true -> pystr_ltb a c = true.
Proof.
  induction a as [|x a IH]; destruct b as [|y b]; destruct c as [|z c];
    simpl; try discriminate; auto.
  rewrite !orb_true_iff, !andb_true_iff, !Z.ltb_lt, !Z.eqb_eq.
  intros [Hxy | [-> Hab]] [Hyz | [-> Hbc]].
  - left; lia.
  - left; lia.
  - left; lia.
  - right; split; [reflexivity | eauto].
Qed.

Lemma pystr_ltb_total : forall a b,
  pystr_ltb a b = true \/ pystr_ltb b a = true \/ a = b.
Proof.
  induction a as [|x a IH]; destruct b as [|y b]; simpl; auto.
  rewrite !orb_true_iff, !andb_true_iff, !Z.ltb_lt, !Z.eqb_eq.
  destruct (Z.lt_trichotomy x y) as [H | [-> | H]].
  - left; left; exact H.
  - destruct (IH b) as [H | [H | ->]]; auto.
  - right; left; left; exact H.
Qed.

(** The empty string, the key of a document without a creation date, is
    below every key. *)
Lemma pystr_ltb_empty : forall s, pystr_ltb s [] = false.
Proof. destruct s; reflexivity. Qed.

(** [x] is not after [y] in the order of the sort. *)
Definition created_le (x y : doc_text) : Prop :=
  pystr_ltb (created_key y) (created_key x) = false.

Lemma created_le_trans : forall x y z, created_le x y -> created_le y z -> created_le x z.
Proof.
  unfold created_le. intros x y z Hxy Hyz.
  destruct (pystr_ltb (created_key z) (created_key x)) eqn:Hzx; [|reflexivity].
  exfalso. destruct (pystr_ltb_total (created_key x) (created_key y)) as [H | [H | H]].
  - rewrite (pystr_ltb_trans _ _ _ Hzx H) in Hyz. discriminate.
  - rewrite H in Hxy; discriminate.
  - rewrite H in Hzx. rewrite Hzx in Hyz. discriminate.
Qed.

Lemma insert_by_created_perm : forall x l,
  Permutation (insert_by_created x l) (x :: l).
Proof.
  intros x l. induction l as [|y l IH]; simpl; [reflexivity|].
  destruct (pystr_ltb _ _); [reflexivity|].
  rewrite IH. apply perm_swap.
Qed.

Lemma sort_by_created_perm_acc : forall l acc,
  Permutation (fold_left (fun acc x => insert_by_created x acc) l acc) (l ++ acc).
Proof.
  induction l as [|x l IH]; intros acc; simpl; [reflexivity|].
  rewrite IH, insert_by_created_perm. symmetry. apply Permutation_middle.
Qed.

Lemma sort_by_created_perm : forall l, Permutation (sort_by_created l) l.
Proof.
  intros l. unfold sort_by_created. rewrite sort_by_created_perm_acc, app_nil_r.
  reflexivity.
Qed.

Lemma insert_by_created_sorted : forall x l,
  Sorted created_le l -> Sorted created_le (insert_by_created x l).
Proof.
  intros x l. induction l as [|y l IH]; intros Hs; simpl.
  - repeat constructor.
  - destruct (pystr_ltb (created_key x) (created_key y)) eqn:Hxy.
    + constructor; [exact Hs|]. constructor. unfold created_le.
      destruct (pystr_ltb (created_key y) (created_key x)) eqn:Hyx; [|reflexivity].
      pose proof (pystr_ltb_trans _ _ _ Hxy Hyx). rewrite pystr_ltb_irrefl in H.
      discriminate.
    + apply Sorted_inv in Hs as [Hs Hhd]. constructor; [apply IH; exact Hs|].
      destruct l as [|z l]; simpl.
      * constructor. exact Hxy.
      * destruct (pystr_ltb (created_key x) (created_key z)); constructor.
        -- exact Hxy.
        -- inversion Hhd; assumption.
Qed.

Lemma sort_by_created_sorted : forall l, Sorted created_le (sort_by_created l).
Proof.
  intros l. unfold sort_by_created.
  assert (H : forall acc, Sorted created_le acc ->
            Sorted created_le (fold_left (fun acc x => insert_by_created x acc) l acc)).
  { induction l as [|x l IH]; intros acc Hacc; simpl; [exact Hacc|].
    apply IH, insert_by_created_sorted, Hacc. }
  apply H. constructor.
Qed.

(** Two lists sorted by creation date, permutations of each other, whose keys
    are pairwise distinct, are equal. *)
Lemma sorted_perm_unique : forall l1 l2,
  StronglySorted created_le l1 -> StronglySorted created_le l2 ->
  Permutation l1 l2 -> NoDup (map created_key l1) -> l1 = l2.
Proof.
  induction l1 as [|a l1 IH]; intros l2 H1 H2 Hp Hnd.
  - symmetry; apply Permutation_nil; exact Hp.
  - destruct l2 as [|b l2]; [apply Permutation_sym, Permutation_nil in Hp; discriminate|].
    apply StronglySorted_inv in H1 as [H1 Ha]. apply StronglySorted_inv in H2 as [H2 Hb].
    simpl in Hnd. apply NoDup_cons_iff in Hnd as [Hna Hnd].
    assert (Hab : a = b).
    { assert (Ina : In a (b :: l2)) by (eapply Permutation_in; [exact Hp | left; reflexivity]).
      assert (Inb : In b (a :: l1))
        by (eapply Permutation_in; [apply Permutation_sym, Hp | left; reflexivity]).
      destruct Ina as [-> | Ina]; [reflexivity|].
      destruct Inb as [-> | Inb]; [reflexivity|].
      exfalso. apply Hna.
      pose proof (proj1 (Forall_forall _ _) Hb a Ina) as Hba.
      pose proof (proj1 (Forall_forall _ _) Ha b Inb) as Hab.
      unfold created_le in Hba, Hab.
      destruct (pystr_ltb_total (created_key a) (created_key b)) as [H | [H | H]].
      + rewrite H in Hba; discriminate.
      + rewrite H in Hab; discriminate.
      + rewrite H. apply in_map. exact Inb. }
    subst b. f_equal. apply IH; auto. eapply Permutation_cons_inv; exact Hp.
Qed.

Lemma extract_docs_perm : forall docx_parse b64decode lim l1 l2,
  Permutation l1 l2 ->
  Permutation (extract_docs docx_parse b64decode lim l1)
              (extract_docs docx_parse b64decode lim l2).
Proof.
  intros docx_parse b64decode lim l1 l2 Hp. induction Hp; simpl.
  - reflexivity.
  - destruct (extract_doc docx_parse b64decode lim x); [constructor|]; assumption.
  - destruct (extract_doc docx_parse b64decode lim x);
      destruct (extract_doc docx_parse b64decode lim y); try reflexivity.
    apply perm_swap.
  - etransitivity; eassumption.
Qed.

(** Sorting two permutations of documents with distinct creation dates gives
    the same list. *)
Lemma sort_by_created_perm_eq : forall l1 l2,
  Permutation l1 l2 -> NoDup (map created_key l1) ->
  sort_by_created l1 = sort_by_created l2.
Proof.
  intros l1 l2 Hp Hnd. apply sorted_perm_unique.
  - apply Sorted_StronglySorted; [exact created_le_trans | apply sort_by_created_sorted].
  - apply Sorted_StronglySorted; [exact created_le_trans | apply sort_by_created_sorted].
  - rewrite !sort_by_created_perm. exact Hp.
  - eapply Permutation_NoDup; [|exact Hnd].
    apply Permutation_map. symmetry. apply sort_by_created_perm.
Qed.

(* ------------------------------------------------------------------------- *)
(** ** The comparative path of [analyze_document_family] *)

(** The messages of the comparison request for given inputs. *)
Definition family_request (docx_parse : bytes -> option docx)
    (b64decode : pystr -> option bytes) (FAP : pystr) (documents : list document)
    (user_context : pystr) (context_documents : option (list document)) : list message :=
  family_messages FAP (sort_by_created (doc_texts docx_parse b64decode documents))
    user_context (extract_docs docx_parse b64decode 4000 (context_list context_documents)).

Lemma analyze_compare_path : forall docx_parse b64decode chat json_loads FAP
    docs uc ctx a env,
  configured (resolve_endpoint a env) (resolve_api_key a env) = true ->
  (2 <= length (doc_texts docx_parse b64decode docs))%nat ->
  let sorted := sort_by_created (doc_texts docx_parse b64decode docs) in
  let msgs := family_request docx_parse b64decode FAP docs uc ctx in
  analyze_document_family docx_parse b64decode chat json_loads FAP docs uc ctx a env =
  (extraction_events docs ++
   extraction_events (context_list ctx) ++ [EvChat (resolve_deployment_large a env) msgs],
   complete chat json_loads (resolve_deployment_large a env) msgs sorted).
Proof.
  intros docx_parse b64decode chat json_loads FAP docs uc ctx a env Hc Hlen sorted msgs.
  unfold analyze_document_family. rewrite Hc. simpl negb. cbv iota.
  subst sorted msgs. unfold family_request.
  destruct (doc_texts docx_parse b64decode docs) as [|dt1 [|dt2 l]];
    simpl in Hlen; [lia | lia | reflexivity].
Qed.

(** C6: before composing the request, the surviving documents are sorted
    ascending by their [created] string, a missing one counting as the empty
    string, which no key is below.  The request carries the documents in
    that order, and the post-processing (whose fallback takes the last one)
    works on that order.  Hence, when the creation dates are distinct, any
    reordering of the input array yields the same request and the same
    result. *)
Theorem analyze_chronological : forall docx_parse b64decode chat json_loads FAP,
  (forall l, Sorted created_le (sort_by_created l) /\ Permutation (sort_by_created l) l) /\
  (forall s, pystr_ltb s [] = false) /\
  (forall docs uc ctx a env,
     configured (resolve_endpoint a env) (resolve_api_key a env) = true ->
     (2 <= length (doc_texts docx_parse b64decode docs))%nat ->
     chat_calls (fst (analyze_document_family docx_parse b64decode chat json_loads FAP
                        docs uc ctx a env)) =
       [EvChat (resolve_deployment_large a env)
          (family_messages FAP (sort_by_created (doc_texts docx_parse b64decode docs)) uc
             (extract_docs docx_parse b64decode 4000 (context_list ctx)))] /\
     snd (analyze_document_family docx_parse b64decode chat json_loads FAP docs uc ctx a env) =
       complete chat json_loads (resolve_deployment_large a env)
         (family_request docx_parse b64decode FAP docs uc ctx)
         (sort_by_created (doc_texts docx_parse b64decode docs))) /\
  (forall docs1 docs2 uc ctx a env,
     Permutation docs1 docs2 ->
     NoDup (map created_key (doc_texts docx_parse b64decode docs1)) ->
     snd (analyze_document_family docx_parse b64decode chat json_loads FAP
            docs1 uc ctx a env) =
     snd (analyze_document_family docx_parse b64decode chat json_loads FAP
            docs2 uc ctx a env) /\
     chat_calls (fst (analyze_document_family docx_parse b64decode chat json_loads FAP
                        docs1 uc ctx a env)) =
     chat_calls (fst (analyze_document_family docx_parse b64decode chat json_loads FAP
                        docs2 uc ctx a env))).
Proof.
  intros docx_parse b64decode chat json_loads FAP. split; [|split; [|split]].
  - intros l. split; [apply sort_by_created_sorted | apply sort_by_created_perm].
  - exact pystr_ltb_empty.
  - intros docs uc ctx a env Hc Hlen.
    rewrite (analyze_compare_path docx_parse b64decode chat json_loads FAP docs uc ctx a env
               Hc Hlen).
    simpl fst. simpl snd. rewrite !chat_calls_app, !chat_calls_extraction.
    split; reflexivity.
  - intros docs1 docs2 uc ctx a env Hp Hnd.
    pose proof (extract_docs_perm docx_parse b64decode 6000 docs1 docs2 Hp) as Hp'.
    fold (doc_texts docx_parse b64decode docs1) (doc_texts docx_parse b64decode docs2) in Hp'.
    pose proof (sort_by_created_perm_eq _ _ Hp' Hnd) as Hs.
    unfold analyze_document_family.
    destruct (negb _); [split; reflexivity|].
    assert (Hlen := Permutation_length Hp').
    destruct (doc_texts docx_parse b64decode docs1) as [|x1 [|y1 l1]] eqn:E1;
      destruct (doc_texts docx_parse b64decode docs2) as [|x2 [|y2 l2]] eqn:E2;
      simpl in Hlen; try lia.
    + simpl fst; simpl snd. rewrite !chat_calls_extraction. split; reflexivity.
    + apply Permutation_length_1 in Hp'. subst x2.
      simpl fst; simpl snd. rewrite !chat_calls_extraction. split; reflexivity.
    + rewrite Hs. simpl snd; simpl fst.
      rewrite !chat_calls_app, !chat_calls_extraction. split; reflexivity.
Qed.

(* ------------------------------------------------------------------------- *)
(** ** Concrete inputs *)

(** Base64 content given as its decoded bytes, no parsable .docx, a chat
    endpoint answering [answer], and [json.loads] yielding [parsed]. *)
Definition raw_b64 (s : pystr) : option bytes := Some s.
Definition no_docx (bs : bytes) : option docx := None.
Definition answer_with (answer : pystr) (model : pystr) (msgs : list message)
  : option pystr := Some answer.
Definition parse_to (parsed : json) (s : pystr) : option json := Some parsed.

(** Credentials passed as arguments. *)
Definition args_ok : azure_args :=
  mk_azure_args (Some (lit "https://example.openai.azure.com")) (Some (lit "k3y")) None None.
Definition no_args : azure_args := mk_azure_args None None None None.

Definition letter (year : string) (body : string) : document :=
  mk_document (lit ("letter-" ++ year ++ ".txt")) (lit body)
              (Some (lit (year ++ "-08-01T00:00:00Z"))).

Definition analyze_fixture (resp : json) (docs : list document) :=
  analyze_document_family no_docx raw_b64 (answer_with (lit "{}")) (parse_to resp)
    (lit "prompt") docs [] None args_ok [].

(** Witness of C6: three letters given in two different orders. *)
Lemma analyze_chronological_witness :
  snd (analyze_fixture (JObj [])
         [letter "2024" "B"; letter "2023" "A"; letter "2025" "C"]) =
  snd (analyze_fixture (JObj [])
         [letter "2025" "C"; letter "2024" "B"; letter "2023" "A"]) /\
  chat_calls (fst (analyze_fixture (JObj [])
         [letter "2024" "B"; letter "2023" "A"; letter "2025" "C"])) =
  chat_calls (fst (analyze_fixture (JObj [])
         [letter "2025" "C"; letter "2024" "B"; letter "2023" "A"])).
Proof.
  apply (proj2 (proj2 (proj2 (analyze_chronological no_docx raw_b64
           (answer_with (lit "{}")) (parse_to (JObj [])) (lit "prompt"))))).
  - etransitivity; [apply perm_skip, perm_swap | apply perm_swap].
  - vm_compute. repeat constructor; simpl; intros H;
      repeat (destruct H as [H|H]; [discriminate H|]); exact H.
Defined.

(* ------------------------------------------------------------------------- *)
(** ** Base document, single-document stub, document count, empty input *)

(** The text [extract_text] gives for a document, when decoding and
    extraction do not raise. *)
Definition extracted_text (docx_parse : bytes -> option docx)
    (b64decode : pystr -> option bytes) (d : document) : option pystr :=
  match b64decode (content d) with
  | Some bs =>
    match extract_text docx_parse bs (filename d) with
    | Ok t => Some t
    | Raise _ => None
    end
  | None => None
  end.

(** Number of documents whose extracted text is non-empty. *)
Definition count_nonempty (docx_parse : bytes -> option docx)
    (b64decode : pystr -> option bytes) (docs : list document) : nat :=
  length (filter (fun d => match extracted_text docx_parse b64decode d with
                           | Some (_ :: _) => true
                           | _ => false
                           end) docs).

Lemma find_none : forall {A} (f : A -> bool) l,
  (forall x, In x l -> f x = false) -> find f l = None.
Proof.
  intros A f l H. induction l as [|x l IH]; simpl; [reflexivity|].
  rewrite (H x (or_introl eq_refl)). apply IH. intros y Hy. apply H. right; exact Hy.
Qed.

Lemma post_process_get : forall sorted r k,
  k <> lit "base_document_text" -> k <> lit "organizational_context" ->
  k <> lit "document_count" ->
  dget k (post_process sorted r) = dget k r.
Proof.
  intros sorted r k H1 H2 H3. unfold post_process.
  destruct (dmem _ _); rewrite ?dget_dset_neq by assumption; reflexivity.
Qed.

Lemma post_process_base_text : forall sorted r,
  dget (lit "base_document_text") (post_process sorted r) =
  Some (JStr (let recommended := dget_or (lit "recommended_base") (JStr []) r in
              let bt := match find (fun dt => json_eq_str recommended (dt_filename dt)) sorted with
                        | Some dt => dt_text dt
                        | None => []
                        end in
              if negb (py_truthy_str bt) && negb (match sorted with [] => true | _ => false end)
              then last_text sorted else bt)).
Proof.
  intros sorted r. unfold post_process.
  assert (Hr : dget_or (lit "recommended_base") (JStr [])
                 (dset (lit "document_count") (JNum (Z.of_nat (length sorted) # 1)) r) =
               dget_or (lit "recommended_base") (JStr []) r).
  { unfold dget_or. dget_simpl. reflexivity. }
  rewrite Hr. destruct (dmem _ _); dget_simpl; reflexivity.
Qed.

Lemma last_text_app : forall pre dt, last_text (pre ++ [dt]) = dt_text dt.
Proof. intros. unfold last_text. rewrite rev_app_distr. reflexivity. Qed.

(** C1 (as amended): with two or more surviving documents and a parsed
    object whose [recommended_base] names none of them, the call succeeds;
    [base_document_text] is the text of the last document in creation
    order, and [recommended_base] is returned as the model gave it. *)
Theorem analyze_unresolved_base : forall docx_parse b64decode chat json_loads FAP
    docs uc ctx a env result_text r,
  configured (resolve_endpoint a env) (resolve_api_key a env) = true ->
  (2 <= length (doc_texts docx_parse b64decode docs))%nat ->
  chat (resolve_deployment_large a env) (family_request docx_parse b64decode FAP docs uc ctx)
    = Some result_text ->
  json_loads result_text = Some (JObj r) ->
  (forall dt, In dt (doc_texts docx_parse b64decode docs) ->
     json_eq_str (dget_or (lit "recommended_base") (JStr []) r) (dt_filename dt) = false) ->
  exists r' pre last,
    snd (analyze_document_family docx_parse b64decode chat json_loads FAP docs uc ctx a env)
      = Ok (JObj r') /\
    sort_by_created (doc_texts docx_parse b64decode docs) = pre ++ [last] /\
    dget (lit "base_document_text") r' = Some (JStr (dt_text last)) /\
    dget (lit "recommended_base") r' = dget (lit "recommended_base") r.
Proof.
  intros docx_parse b64decode chat json_loads FAP docs uc ctx a env result_text r
    Hc Hlen Hchat Hjson Hnomatch.
  rewrite (analyze_compare_path docx_parse b64decode chat json_loads FAP docs uc ctx a env
             Hc Hlen).
  simpl snd. unfold complete. rewrite Hchat, Hjson.
  set (sorted := sort_by_created (doc_texts docx_parse b64decode docs)).
  assert (Hperm : Permutation sorted (doc_texts docx_parse b64decode docs))
    by apply sort_by_created_perm.
  destruct (exists_last (l := sorted)) as [pre [last Hsl]].
  { intros E. rewrite E in Hperm. apply Permutation_nil in Hperm.
    rewrite Hperm in Hlen. simpl in Hlen. lia. }
  exists (post_process sorted r), pre, last. split; [reflexivity|]. split; [exact Hsl|].
  split.
  - rewrite post_process_base_text. simpl.
    rewrite find_none.
    + simpl. rewrite Hsl, last_text_app. destruct pre; reflexivity.
    + intros dt Hin. apply Hnomatch. eapply Permutation_in; [exact Hperm | exact Hin].
  - apply post_process_get; intros E; discriminate E.
Qed.

(** Witness of C1. *)
Lemma analyze_unresolved_base_witness :
  exists r' pre last,
    snd (analyze_fixture (JObj [(lit "recommended_base", JStr (lit "other.txt"))])
           [letter "2024" "B"; letter "2023" "A"; letter "2025" "C"]) = Ok (JObj r') /\
    sort_by_created (doc_texts no_docx raw_b64
           [letter "2024" "B"; letter "2023" "A"; letter "2025" "C"]) = pre ++ [last] /\
    dget (lit "base_document_text") r' = Some (JStr (dt_text last)) /\
    dget (lit "recommended_base") r' =
      dget (lit "recommended_base") [(lit "recommended_base", JStr (lit "other.txt"))].
Proof.
  apply (analyze_unresolved_base no_docx raw_b64 (answer_with (lit "{}"))
           (parse_to (JObj [(lit "recommended_base", JStr (lit "other.txt"))])) (lit "prompt")
           [letter "2024" "B"; letter "2023" "A"; letter "2025" "C"] [] None args_ok []
           (lit "{}")).
  - vm_compute; reflexivity.
  - vm_compute; lia.
  - reflexivity.
  - reflexivity.
  - vm_compute. intros dt H. repeat (destruct H as [H|H]; [subst dt; reflexivity|]).
    destruct H.
Defined.

(** C1 fails as stated: the returned [recommended_base] is the name the
    model gave, which is none of the input filenames. *)
Lemma analyze_unresolved_base_counterexample :
  exists r,
    snd (analyze_fixture (JObj [(lit "recommended_base", JStr (lit "other.txt"))])
           [letter "2024" "B"; letter "2023" "A"; letter "2025" "C"]) = Ok (JObj r) /\
    dget (lit "recommended_base") r = Some (JStr (lit "other.txt")) /\
    ~ In (lit "other.txt") (map filename [letter "2024" "B"; letter "2023" "A"; letter "2025" "C"]).
Proof.
  eexists. split; [vm_compute; reflexivity|]. split; [vm_compute; reflexivity|].
  vm_compute. intros H. repeat (destruct H as [H|H]; [discriminate H|]). exact H.
Qed.

Lemma extract_doc_in : forall docx_parse b64decode lim docs d dt,
  In d docs -> extract_doc docx_parse b64decode lim d = Some dt ->
  In dt (extract_docs docx_parse b64decode lim docs).
Proof.
  intros docx_parse b64decode lim docs d dt Hin Hd. induction docs as [|d' docs IH]; simpl.
  - destruct Hin.
  - destruct Hin as [-> | Hin].
    + rewrite Hd. left; reflexivity.
    + destruct (extract_doc docx_parse b64decode lim d'); [right|]; auto.
Qed.

(** C2 (as amended): when exactly one document survives extraction, i.e.
    exactly one has an extracted text that is not blank, no request is sent
    and the single-document stub is returned: [single_document_fallback] is
    true, [recommended_base] is that document's filename,
    [base_document_text] its text cut to 6000 code points, [confidence] is
    0.5 and the three element lists are empty. *)
Theorem analyze_single_document : forall docx_parse b64decode chat json_loads FAP
    docs uc ctx a env d file_bytes text,
  configured (resolve_endpoint a env) (resolve_api_key a env) = true ->
  In d docs ->
  b64decode (content d) = Some file_bytes ->
  extract_text docx_parse file_bytes (filename d) = Ok text ->
  strip_nonempty text = true ->
  length (doc_texts docx_parse b64decode docs) = 1%nat ->
  chat_calls (fst (analyze_document_family docx_parse b64decode chat json_loads FAP
                     docs uc ctx a env)) = [] /\
  exists r an,
    snd (analyze_document_family docx_parse b64decode chat json_loads FAP docs uc ctx a env)
      = Ok (JObj r) /\
    dget (lit "single_document_fallback") r = Some (JBool true) /\
    dget (lit "recommended_base") r = Some (JStr (filename d)) /\
    dget (lit "base_document_text") r = Some (JStr (firstn 6000 text)) /\
    dget (lit "confidence") r = Some (JNum (1 # 2)) /\
    dget (lit "analysis") r = Some (JObj an) /\
    forall k, In k [lit "stable_elements"; lit "variable_elements"; lit "emerging_elements"] ->
      exists e, dget k an = Some (JObj e) /\ dget (lit "items") e = Some (JArr []).
Proof.
  intros docx_parse b64decode chat json_loads FAP docs uc ctx a env d file_bytes text
    Hc Hin Hb Hx Hs Hlen.
  assert (Hd : extract_doc docx_parse b64decode 6000 d =
               Some (mk_doc_text (filename d) (firstn 6000 text) (created d))).
  { unfold extract_doc. rewrite Hb, Hx, Hs. reflexivity. }
  pose proof (extract_doc_in _ _ _ _ _ _ Hin Hd) as Hdt. fold (doc_texts docx_parse b64decode docs) in Hdt.
  unfold analyze_document_family. rewrite Hc. simpl negb. cbv iota.
  destruct (doc_texts docx_parse b64decode docs) as [|dt [|dt' l]];
    simpl in Hlen; try lia.
  destruct Hdt as [Hdt | []]; subst dt.
  split; [apply chat_calls_extraction|].
  eexists; eexists. split; [reflexivity|].
  split; [reflexivity|]. split; [reflexivity|]. split; [reflexivity|].
  split; [reflexivity|]. split; [reflexivity|].
  intros k Hk. repeat (destruct Hk as [<- | Hk]; [eexists; split; reflexivity|]).
  destruct Hk.
Qed.

(** Witness of C2. *)
Lemma analyze_single_document_witness :
  chat_calls (fst (analyze_fixture (JObj []) [letter "2023" " "; letter "2024" "B"])) = [] /\
  exists r an,
    snd (analyze_fixture (JObj []) [letter "2023" " "; letter "2024" "B"]) = Ok (JObj r) /\
    dget (lit "single_document_fallback") r = Some (JBool true) /\
    dget (lit "recommended_base") r = Some (JStr (filename (letter "2024" "B"))) /\
    dget (lit "base_document_text") r = Some (JStr (firstn 6000 (lit "B"))) /\
    dget (lit "confidence") r = Some (JNum (1 # 2)) /\
    dget (lit "analysis") r = Some (JObj an) /\
    forall k, In k [lit "stable_elements"; lit "variable_elements"; lit "emerging_elements"] ->
      exists e, dget k an = Some (JObj e) /\ dget (lit "items") e = Some (JArr []).
Proof.
  apply (analyze_single_document no_docx raw_b64 (answer_with (lit "{}")) (parse_to (JObj []))
           (lit "prompt") [letter "2023" " "; letter "2024" "B"] [] None args_ok []
           (letter "2024" "B") (lit "B") (lit "B")).
  - vm_compute; reflexivity.
  - right; left; reflexivity.
  - reflexivity.
  - vm_compute; reflexivity.
  - reflexivity.
  - vm_compute; reflexivity.
Defined.

(** C2 fails as stated: a document whose extracted text is one space has
    non-empty text, yet it does not survive, and the call raises
    [NoExtractableText] instead of returning the stub. *)
Lemma analyze_single_document_counterexample :
  extracted_text no_docx raw_b64 (letter "2024" " ") = Some (lit " ") /\
  snd (analyze_fixture (JObj []) [letter "2024" " "]) = Raise NoExtractableText.
Proof. split; vm_compute; reflexivity. Qed.

(** C3 (as amended): on the comparative path the returned [document_count]
    is the number of documents that survive extraction (extracted text not
    blank), whatever the number of inputs and whatever count the model gave. *)
Theorem analyze_document_count : forall docx_parse b64decode chat json_loads FAP
    docs uc ctx a env v,
  configured (resolve_endpoint a env) (resolve_api_key a env) = true ->
  (2 <= length (doc_texts docx_parse b64decode docs))%nat ->
  snd (analyze_document_family docx_parse b64decode chat json_loads FAP docs uc ctx a env)
    = Ok v ->
  exists r, v = JObj r /\
    dget (lit "document_count") r =
      Some (JNum (Z.of_nat (length (doc_texts docx_parse b64decode docs)) # 1)).
Proof.
  intros docx_parse b64decode chat json_loads FAP docs uc ctx a env v Hc Hlen Hok.
  rewrite (analyze_compare_path docx_parse b64decode chat json_loads FAP docs uc ctx a env
             Hc Hlen) in Hok.
  simpl snd in Hok. unfold complete in Hok.
  destruct (chat _ _) as [rt|]; [|discriminate].
  destruct (json_loads rt) as [[| | | | |r]|]; try discriminate.
  injection Hok as <-. exists (post_process (sort_by_created (doc_texts docx_parse b64decode docs)) r).
  split; [reflexivity|].
  rewrite <- (Permutation_length (sort_by_created_perm (doc_texts docx_parse b64decode docs))).
  unfold post_process. destruct (dmem _ _); dget_simpl; reflexivity.
Qed.

(** Witness of C3: the model claims seven documents. *)
Lemma analyze_document_count_witness :
  exists r, JObj (post_process (sort_by_created (doc_texts no_docx raw_b64
                  [letter "2023" "A"; letter "2024" "B"; letter "2025" "C"]))
                  [(lit "document_count", JNum (7 # 1))]) = JObj r /\
    dget (lit "document_count") r =
      Some (JNum (Z.of_nat (length (doc_texts no_docx raw_b64
                  [letter "2023" "A"; letter "2024" "B"; letter "2025" "C"])) # 1)).
Proof.
  apply (analyze_document_count no_docx raw_b64 (answer_with (lit "{}"))
           (parse_to (JObj [(lit "document_count", JNum (7 # 1))])) (lit "prompt")
           [letter "2023" "A"; letter "2024" "B"; letter "2025" "C"] [] None args_ok []).
  - vm_compute; reflexivity.
  - vm_compute; lia.
  - vm_compute; reflexivity.
Defined.

(** C3 fails as stated: three documents have non-empty extracted text, one
    of them only a space, and [document_count] is 2. *)
Lemma analyze_document_count_counterexample :
  count_nonempty no_docx raw_b64 [letter "2023" "A"; letter "2024" "B"; letter "2025" " "]
    = 3%nat /\
  exists r,
    snd (analyze_fixture (JObj [(lit "document_count", JNum (7 # 1))])
           [letter "2023" "A"; letter "2024" "B"; letter "2025" " "]) = Ok (JObj r) /\
    dget (lit "document_count") r = Some (JNum (2 # 1)).
Proof.
  split; [vm_compute; reflexivity|].
  eexists; split; vm_compute; reflexivity.
Qed.

(** C7: with the credentials configured (otherwise C8 applies), when no
    document has a non-empty extracted text (the empty list included), the
    call raises [NoExtractableText] and sends no request. *)
Theorem analyze_no_text : forall docx_parse b64decode chat json_loads FAP
    docs uc ctx a env,
  configured (resolve_endpoint a env) (resolve_api_key a env) = true ->
  (forall d t, In d docs -> extracted_text docx_parse b64decode d = Some t -> t = []) ->
  snd (analyze_document_family docx_parse b64decode chat json_loads FAP docs uc ctx a env)
    = Raise NoExtractableText /\
  chat_calls (fst (analyze_document_family docx_parse b64decode chat json_loads FAP
                     docs uc ctx a env)) = [].
Proof.
  intros docx_parse b64decode chat json_loads FAP docs uc ctx a env Hc Hnone.
  assert (Hdt : forall lim, extract_docs docx_parse b64decode lim docs = []).
  { intros lim. induction docs as [|d docs IH]; simpl; [reflexivity|].
    assert (Hd : extract_doc docx_parse b64decode lim d = None).
    { unfold extract_doc. specialize (Hnone d). unfold extracted_text in Hnone.
      destruct (b64decode (content d)) as [bs|]; [|reflexivity].
      destruct (extract_text docx_parse bs (filename d)) as [t|e]; [|reflexivity].
      rewrite (Hnone t (or_introl eq_refl) eq_refl). reflexivity. }
    rewrite Hd. apply IH. intros d' t Hin. apply Hnone. right; exact Hin. }
  unfold analyze_document_family, doc_texts. rewrite Hc, Hdt. simpl.
  split; [reflexivity | apply chat_calls_extraction].
Qed.

(** Witness of C7: an empty text and a legacy [.doc] file. *)
Lemma analyze_no_text_witness :
  snd (analyze_fixture (JObj []) [letter "2023" ""; mk_document (lit "old.DOC") (lit "x") None])
    = Raise NoExtractableText /\
  chat_calls (fst (analyze_fixture (JObj [])
    [letter "2023" ""; mk_document (lit "old.DOC") (lit "x") None])) = [].
Proof.
  apply (analyze_no_text no_docx raw_b64 (answer_with (lit "{}")) (parse_to (JObj []))
           (lit "prompt") [letter "2023" ""; mk_document (lit "old.DOC") (lit "x") None]
           [] None args_ok []).
  - vm_compute; reflexivity.
  - intros d t Hin. vm_compute in Hin.
    repeat (destruct Hin as [<- | Hin]; [vm_compute; intros H; inversion H; reflexivity|]).
    destruct Hin.
Defined.

(* ------------------------------------------------------------------------- *)
(** ** Missing credentials *)

Lemma absent_not_configured : forall endpoint api_key,
  (forall e, endpoint = Some e -> e = []) \/ (forall k, api_key = Some k -> k = []) ->
  configured endpoint api_key = false.
Proof.
  intros [e|] [k|] [H|H]; simpl; try reflexivity.
  - rewrite (H e eq_refl). reflexivity.
  - rewrite (H k eq_refl), andb_false_r. reflexivity.
Qed.

(** C8: when the resolved endpoint or API key is missing or empty, each
    LLM-driven operation raises [NotConfigured] with no effect at all: no
    document is extracted and no request is sent. *)
Theorem llm_operations_not_configured : forall a env,
  (forall e, resolve_endpoint a env = Some e -> e = []) \/
  (forall k, resolve_api_key a env = Some k -> k = []) ->
  (forall docx_parse b64decode chat json_loads FAP docs uc ctx,
     analyze_document_family docx_parse b64decode chat json_loads FAP docs uc ctx a env
       = ([], Raise NotConfigured)) /\
  (forall chat json_loads json_dumps SGP family_analysis base_document_text
          user_changes target_year organizational_context,
     generate_from_synthesis chat json_loads json_dumps SGP family_analysis
       base_document_text user_changes target_year organizational_context a env
       = ([], Raise NotConfigured)) /\
  (forall chat json_loads SIP user_prompt,
     extract_search_intent chat json_loads SIP user_prompt a env = ([], Raise NotConfigured)) /\
  (forall chat json_loads IEP user_prompt,
     extract_intent chat json_loads IEP user_prompt a env = ([], Raise NotConfigured)).
Proof.
  intros a env H. apply absent_not_configured in H.
  unfold analyze_document_family, generate_from_synthesis, extract_search_intent,
    extract_intent.
  rewrite H. repeat split.
Qed.

(** Witness of C8: an empty endpoint argument and no environment variable. *)
Lemma llm_operations_not_configured_witness :
  extract_search_intent (answer_with (lit "{}")) (parse_to (JObj [])) (lit "prompt")
    (lit "back to school letter")
    (mk_azure_args (Some []) (Some (lit "k3y")) None None)
    [(lit "AZURE_OPENAI_KEY", lit "k3y")] = ([], Raise NotConfigured).
Proof.
  apply (llm_operations_not_configured (mk_azure_args (Some []) (Some (lit "k3y")) None None)
           [(lit "AZURE_OPENAI_KEY", lit "k3y")]).
  left. vm_compute. intros e H; discriminate H.
Defined.

(* ------------------------------------------------------------------------- *)
(** ** Search intent *)

(** C9: for a parsed object whose [search_terms] and [context_search_terms]
    are arrays (or absent, read as [[]]), [extract_search_intent] returns the
    first at most 3, resp. 4, of their elements, and its dictionary has the
    keys [document_type], [search_terms], [context_search_terms], [summary]
    and [confidence]. *)
Theorem search_intent_caps : forall chat json_loads SIP user_prompt a env
    result_text r st cst,
  configured (resolve_endpoint a env) (resolve_api_key a env) = true ->
  chat (resolve_deployment a env) [(lit "system", SIP); (lit "user", user_prompt)]
    = Some result_text ->
  json_loads result_text = Some (JObj r) ->
  dget_or (lit "search_terms") (JArr []) r = JArr st ->
  dget_or (lit "context_search_terms") (JArr []) r = JArr cst ->
  exists out,
    snd (extract_search_intent chat json_loads SIP user_prompt a env) = Ok (JObj out) /\
    dget (lit "search_terms") out = Some (JArr (firstn 3 st)) /\
    dget (lit "context_search_terms") out = Some (JArr (firstn 4 cst)) /\
    forall k, In k [lit "document_type"; lit "search_terms"; lit "context_search_terms";
                    lit "summary"; lit "confidence"] -> dmem k out = true.
Proof.
  intros chat json_loads SIP user_prompt a env result_text r st cst Hc Hchat Hjson Hst Hcst.
  unfold extract_search_intent. rewrite Hc. simpl negb. cbv iota.
  unfold ask. simpl snd. rewrite Hchat, Hjson.
  unfold search_intent_of. rewrite Hst, Hcst. simpl py_slice_to. cbv iota.
  eexists. split; [reflexivity|]. split; [reflexivity|]. split; [reflexivity|].
  intros k Hk. repeat (destruct Hk as [<- | Hk]; [reflexivity|]). destruct Hk.
Qed.

(** Witness of C9: five search terms and six context terms. *)
Definition answer_search_terms : list json :=
  [JStr (lit "back to school"); JStr (lit "letter"); JStr (lit "welcome");
   JStr (lit "school year"); JStr (lit "families")].

Definition answer_context_terms : list json :=
  [JStr (lit "memo"); JStr (lit "announcement"); JStr (lit "hire");
   JStr (lit "budget"); JStr (lit "plan"); JStr (lit "policy")].

Definition intent_answer : dict :=
  [(lit "document_type", JStr (lit "back_to_school_letter"));
   (lit "search_terms", JArr answer_search_terms);
   (lit "context_search_terms", JArr answer_context_terms)].

Lemma search_intent_caps_witness :
  exists out,
    snd (extract_search_intent (answer_with (lit "{}")) (parse_to (JObj intent_answer))
           (lit "prompt") (lit "this year's back-to-school letter") args_ok []) = Ok (JObj out) /\
    dget (lit "search_terms") out = Some (JArr (firstn 3 answer_search_terms)) /\
    dget (lit "context_search_terms") out = Some (JArr (firstn 4 answer_context_terms)) /\
    forall k, In k [lit "document_type"; lit "search_terms"; lit "context_search_terms";
                    lit "summary"; lit "confidence"] -> dmem k out = true.
Proof.
  apply (search_intent_caps (answer_with (lit "{}")) (parse_to (JObj intent_answer))
           (lit "prompt") (lit "this year's back-to-school letter") args_ok [] (lit "{}")
           intent_answer answer_search_terms answer_context_terms).
  - vm_compute; reflexivity.
  - reflexivity.
  - reflexivity.
  - vm_compute; reflexivity.
  - vm_compute; reflexivity.
Defined.

(* ------------------------------------------------------------------------- *)
(** ** Field merging *)

(** [field.get('field_name', '')] *)
Definition field_key (field : dict) : json := dget_or (lit "field_name") (JStr []) field.

(** Values Python can look up in a dict. *)
Definition hashable (v : json) : bool :=
  match v with JArr _ | JObj _ => false | _ => true end.

Lemma dset_keys : forall k v d, exists extra, map fst (dset k v d) = map fst d ++ extra.
Proof.
  intros k v d. induction d as [|[k' v'] d [extra IH]]; simpl.
  - exists [k]; reflexivity.
  - destruct (pystr_eqb k k'); simpl.
    + exists []; rewrite app_nil_r; reflexivity.
    + exists extra; rewrite IH; reflexivity.
Qed.

(** What [merge_fields] promises of one output field [f'] built from [f]. *)
Definition merged_from (overrides : dict) (f f' : dict) : Prop :=
  (exists extra, map fst f' = map fst f ++ extra) /\
  (forall k, k <> lit "new_value" -> k <> lit "pre_filled" -> dget k f' = dget k f) /\
  ((exists name v, field_key f = JStr name /\ dget name overrides = Some v /\
      dget (lit "new_value") f' = Some v /\ dget (lit "pre_filled") f' = Some (JBool true)) \/
   ((forall name, field_key f = JStr name -> dget name overrides = None) /\
      dget (lit "new_value") f' = Some (dget_or (lit "current_value") (JStr []) f) /\
      dget (lit "pre_filled") f' = Some (JBool false))).

Lemma merge_field_spec : forall overrides f,
  hashable (field_key f) = true ->
  exists f', merge_field overrides f = Ok f' /\ merged_from overrides f f'.
Proof.
  intros overrides f Hh. unfold merge_field. fold (field_key f).
  assert (Hnp : lit "new_value" <> lit "pre_filled") by (intro E; vm_compute in E; discriminate E).
  assert (Hkeys : forall v1 v2,
    exists extra, map fst (dset (lit "pre_filled") v2 (dset (lit "new_value") v1 f))
                  = map fst f ++ extra).
  { intros v1 v2. destruct (dset_keys (lit "new_value") v1 f) as [e1 H1].
    destruct (dset_keys (lit "pre_filled") v2 (dset (lit "new_value") v1 f)) as [e2 H2].
    exists (e1 ++ e2). rewrite H2, H1, app_assoc. reflexivity. }
  assert (Hother : forall v1 v2 k, k <> lit "new_value" -> k <> lit "pre_filled" ->
    dget k (dset (lit "pre_filled") v2 (dset (lit "new_value") v1 f)) = dget k f).
  { intros v1 v2 k H1 H2. rewrite !dget_dset_neq by assumption. reflexivity. }
  destruct (field_key f) as [| | |name| |] eqn:Hk; try discriminate; simpl;
    [ | | | destruct (dget name overrides) as [v|] eqn:Hv ];
    eexists; (split; [reflexivity|]);
    (split; [apply Hkeys|]); (split; [apply Hother|]).
  - right. split; [intros n E; rewrite Hk in E; discriminate E|].
    rewrite dget_dset_neq, !dget_dset_eq by exact Hnp. split; reflexivity.
  - right. split; [intros n E; rewrite Hk in E; discriminate E|].
    rewrite dget_dset_neq, !dget_dset_eq by exact Hnp. split; reflexivity.
  - right. split; [intros n E; rewrite Hk in E; discriminate E|].
    rewrite dget_dset_neq, !dget_dset_eq by exact Hnp. split; reflexivity.
  - left. exists name, v. split; [exact Hk|]. split; [exact Hv|].
    rewrite dget_dset_neq, !dget_dset_eq by exact Hnp. split; reflexivity.
  - right. split; [intros n E; rewrite Hk in E; injection E as <-; exact Hv|].
    rewrite dget_dset_neq, !dget_dset_eq by exact Hnp. split; reflexivity.
Qed.

Lemma merge_field_unhashable : forall overrides f,
  hashable (field_key f) = false -> merge_field overrides f = Raise TypeError.
Proof.
  intros overrides f H. unfold merge_field. fold (field_key f).
  destruct (field_key f); try discriminate H; reflexivity.
Qed.

Lemma merge_field_raise : forall overrides f e,
  merge_field overrides f = Raise e -> e = TypeError.
Proof.
  intros overrides f e. unfold merge_field.
  destruct (lookup_field _ _) as [[v|]|e'] eqn:E; try discriminate.
  intros H. injection H as <-. unfold lookup_field in E.
  destruct (dget_or _ _ f); try discriminate E; injection E as <-; reflexivity.
Qed.

(** C4 (as amended): for every list of fields whose [field_name] is
    hashable (a string, a number, a boolean or null; an absent one reads as
    [""]) and every overrides map, [merge_fields] succeeds and returns, in
    the same order and one for one, a copy of each field that keeps the
    position and value of every other key and sets [new_value] to
    [overrides[field_name]] with [pre_filled] true when the name is a key of
    the overrides, and otherwise to [field.get('current_value', '')] with
    [pre_filled] false.  A list of fields one of whose [field_name] is a
    list or an object (unhashable) makes [merge_fields] raise [TypeError]. *)
Theorem merge_fields_spec : forall original_fields overrides,
  (Forall (fun f => hashable (field_key f) = true) original_fields ->
   exists merged, merge_fields original_fields overrides = Ok merged /\
     Forall2 (merged_from overrides) original_fields merged) /\
  (Exists (fun f => hashable (field_key f) = false) original_fields ->
   merge_fields original_fields overrides = Raise TypeError).
Proof.
  intros original_fields overrides. split.
  - intros Hall. induction Hall as [|f fs Hf Hfs IH]; simpl.
    + exists []. split; [reflexivity | constructor].
    + destruct (merge_field_spec overrides f Hf) as [f' [Hm Hf']].
      destruct IH as [merged [Hms Hmerged]].
      rewrite Hm, Hms. exists (f' :: merged). split; [reflexivity|].
      constructor; assumption.
  - intros Hex. induction Hex as [f fs Hf | f fs _ IH]; simpl.
    + rewrite (merge_field_unhashable overrides f Hf). reflexivity.
    + destruct (merge_field overrides f) as [f'|e] eqn:Hm.
      * rewrite IH. reflexivity.
      * rewrite (merge_field_raise overrides f e Hm). reflexivity.
Qed.

(** Witness of C4. *)
Definition sample_fields : list dict :=
  [[(lit "field_name", JStr (lit "principal_name"));
    (lit "current_value", JStr (lit "Dr. Smith"))];
   [(lit "field_name", JStr (lit "school_year"));
    (lit "current_value", JStr (lit "2025-2026"))]].

Lemma merge_fields_spec_witness :
  (exists merged,
    merge_fields sample_fields [(lit "principal_name", JStr (lit "Dr. Johnson"))] = Ok merged /\
    Forall2 (merged_from [(lit "principal_name", JStr (lit "Dr. Johnson"))]) sample_fields merged) /\
  merge_fields (sample_fields ++ [[(lit "field_name", JObj [(lit "first", JStr (lit "a"))])]])
    [(lit "principal_name", JStr (lit "Dr. Johnson"))] = Raise TypeError.
Proof.
  split.
  - apply (proj1 (merge_fields_spec sample_fields
                    [(lit "principal_name", JStr (lit "Dr. Johnson"))])).
    repeat constructor.
  - apply (proj2 (merge_fields_spec
                    (sample_fields ++ [[(lit "field_name", JObj [(lit "first", JStr (lit "a"))])]])
                    [(lit "principal_name", JStr (lit "Dr. Johnson"))])).
    apply Exists_exists. eexists. split; [apply in_or_app; right; left; reflexivity|].
    reflexivity.
Defined.

(** C4 fails as stated: a field whose [field_name] is a list is unhashable,
    and [field_name in extracted_fields] raises [TypeError]. *)
Lemma merge_fields_counterexample :
  merge_fields [[(lit "field_name", JArr [])]] [] = Raise TypeError.
Proof. reflexivity. Qed.

(* ------------------------------------------------------------------------- *)
(** ** Single-document analysis *)

Lemma doc_suffix_excludes : forall fl,
  py_endswith fl (lit ".doc") = true ->
  py_endswith fl (lit ".docx") = false /\ py_endswith fl (lit ".txt") = false.
Proof.
  intros fl H. split.
  - destruct (py_endswith fl (lit ".docx")) eqn:E; [|reflexivity].
    rewrite (docx_not_doc _ E) in H. discriminate H.
  - destruct (py_endswith fl (lit ".txt")) eqn:E; [|reflexivity].
    rewrite (txt_not_doc _ E) in H. discriminate H.
Qed.

(** X1: [analyze_document] raises [NotConfigured] before doing anything
    when the resolved endpoint or API key is missing or empty. *)
Theorem analyze_document_not_configured : forall docx_parse chat json_loads ASP
    file_bytes filename a env,
  (forall e, resolve_endpoint a env = Some e -> e = []) \/
  (forall k, resolve_api_key a env = Some k -> k = []) ->
  analyze_document docx_parse chat json_loads ASP file_bytes filename a env
    = ([], Raise NotConfigured).
Proof.
  intros docx_parse chat json_loads ASP file_bytes filename a env H.
  apply absent_not_configured in H. unfold analyze_document. cbv zeta. rewrite H.
  reflexivity.
Qed.

(** X2: a file whose lowercased name ends with [".doc"] makes
    [analyze_document] raise [UnsupportedFormat]; no request is sent. *)
Theorem analyze_document_doc_unsupported : forall docx_parse chat json_loads ASP
    file_bytes filename a env,
  configured (resolve_endpoint a env) (resolve_api_key a env) = true ->
  py_endswith (py_lower filename) (lit ".doc") = true ->
  analyze_document docx_parse chat json_loads ASP file_bytes filename a env
    = ([EvExtract filename], Raise UnsupportedFormat).
Proof.
  intros docx_parse chat json_loads ASP file_bytes filename a env Hc Hdoc.
  unfold analyze_document, extract_text. cbv zeta. rewrite Hc.
  destruct (doc_suffix_excludes _ Hdoc) as [E1 E2]. rewrite E1, E2, Hdoc. reflexivity.
Qed.

(** X3: when the extracted text is blank (as for a [.docx] file python-docx
    cannot open), [analyze_document] raises [NoExtractableText] and sends no
    request, where [analyze_document_family] skips such a document. *)
Theorem analyze_document_blank_text : forall docx_parse chat json_loads ASP
    file_bytes filename a env text,
  configured (resolve_endpoint a env) (resolve_api_key a env) = true ->
  extract_text docx_parse file_bytes filename = Ok text ->
  strip_nonempty text = false ->
  analyze_document docx_parse chat json_loads ASP file_bytes filename a env
    = ([EvExtract filename], Raise NoExtractableText).
Proof.
  intros docx_parse chat json_loads ASP file_bytes filename a env text Hc Hx Hs.
  unfold analyze_document. cbv zeta. rewrite Hc, Hx, Hs. reflexivity.
Qed.

(** X4: on an answer parsed as an object, [analyze_document] sends exactly
    one request and returns that object with [filename] set to the file name
    and [original_text_preview] set to the text, or to its first 500 code
    points followed by ["..."] when it is longer; every other key is the
    answer's. *)
Theorem analyze_document_result : forall docx_parse chat json_loads ASP
    file_bytes filename a env text answer analysis,
  configured (resolve_endpoint a env) (resolve_api_key a env) = true ->
  extract_text docx_parse file_bytes filename = Ok text ->
  strip_nonempty text = true ->
  chat (resolve_deployment a env) (analysis_messages ASP text) = Some answer ->
  json_loads answer = Some (JObj analysis) ->
  exists r,
    analyze_document docx_parse chat json_loads ASP file_bytes filename a env =
      ([EvExtract filename; EvChat (resolve_deployment a env) (analysis_messages ASP text)],
       Ok (JObj r)) /\
    dget (lit "filename") r = Some (JStr filename) /\
    dget (lit "original_text_preview") r = Some (JStr (text_preview text)) /\
    (forall k, k <> lit "filename" -> k <> lit "original_text_preview" ->
       dget k r = dget k analysis) /\
    (length (text_preview text) <= 503)%nat /\
    ((length text <= 500)%nat -> text_preview text = text).
Proof.
  intros docx_parse chat json_loads ASP file_bytes filename a env text answer analysis
    Hc Hx Hs Hchat Hj.
  unfold analyze_document, analyze_document_with_llm. cbv zeta.
  rewrite Hc, Hx, Hs, Hchat, Hj. simpl.
  eexists. split; [reflexivity|]. split; [dget_simpl; reflexivity|].
  split; [dget_simpl; reflexivity|]. split.
  { intros k H1 H2. rewrite !dget_dset_neq by assumption. reflexivity. }
  unfold text_preview. destruct (Nat.ltb 500 (length text)) eqn:E.
  - split; [|intros H; apply Nat.ltb_lt in E; lia].
    rewrite length_app, length_firstn. change (length (lit "...")) with 3%nat. lia.
  - apply Nat.ltb_ge in E. split; [lia | reflexivity].
Qed.

(** X5: the document text sent by [analyze_document_with_llm] is at most
    [max_chars] (12000) code points plus the truncation marker, and its first
    [max_chars] code points are those of the document. *)
Theorem analysis_text_bound : forall text,
  (length (truncate_for_analysis text) <= max_chars + length truncation_marker)%nat /\
  firstn max_chars (truncate_for_analysis text) = firstn max_chars text.
Proof.
  intros text. unfold truncate_for_analysis.
  destruct (Nat.ltb max_chars (length text)) eqn:E.
  - apply Nat.ltb_lt in E. rewrite length_app, length_firstn. split; [lia|].
    rewrite firstn_app, length_firstn, firstn_firstn, Nat.min_id.
    replace (max_chars - Nat.min max_chars (length text))%nat with 0%nat by lia.
    rewrite app_nil_r. reflexivity.
  - apply Nat.ltb_ge in E. split; [lia | reflexivity].
Qed.

(** X6: [analyze_document] propagates the failures of the request: a failed
    call or an unparsable answer raises [CompletionError]; an answer parsed
    as anything but an object raises [TypeError] at [analysis['filename']]. *)
Theorem analyze_document_llm_failure : forall docx_parse chat json_loads ASP
    file_bytes filename a env text,
  configured (resolve_endpoint a env) (resolve_api_key a env) = true ->
  extract_text docx_parse file_bytes filename = Ok text ->
  strip_nonempty text = true ->
  let msgs := analysis_messages ASP text in
  let ev := [EvExtract filename; EvChat (resolve_deployment a env) msgs] in
  ((chat (resolve_deployment a env) msgs = None \/
    exists answer, chat (resolve_deployment a env) msgs = Some answer /\
                   json_loads answer = None) ->
   analyze_document docx_parse chat json_loads ASP file_bytes filename a env
     = (ev, Raise CompletionError)) /\
  (forall answer v, chat (resolve_deployment a env) msgs = Some answer ->
     json_loads answer = Some v -> (forall kvs, v <> JObj kvs) ->
     analyze_document docx_parse chat json_loads ASP file_bytes filename a env
       = (ev, Raise TypeError)).
Proof.
  intros docx_parse chat json_loads ASP file_bytes filename a env text Hc Hx Hs msgs ev.
  unfold analyze_document, analyze_document_with_llm. cbv zeta. rewrite Hc, Hx, Hs.
  subst msgs ev. split.
  - intros [H | [answer [H1 H2]]].
    + rewrite H. reflexivity.
    + rewrite H1, H2. reflexivity.
  - intros answer v H1 H2 Hv. rewrite H1, H2.
    destruct v; try reflexivity. exfalso. eapply Hv. reflexivity.
Qed.

(** A chat endpoint whose call raises. *)
Definition no_answer (model : pystr) (msgs : list message) : option pystr := None.

(** Witness of X1: no credentials at all. *)
Lemma analyze_document_not_configured_witness :
  analyze_document no_docx (answer_with (lit "{}")) (parse_to (JObj [])) (lit "prompt")
    (lit "hello") (lit "memo.txt") no_args [] = ([], Raise NotConfigured).
Proof.
  apply analyze_document_not_configured. left. vm_compute. intros e H; discriminate H.
Defined.

(** Witness of X2: an upper-case [".DOC"] name. *)
Lemma analyze_document_doc_unsupported_witness :
  analyze_document no_docx (answer_with (lit "{}")) (parse_to (JObj [])) (lit "prompt")
    (lit "hello") (lit "MINUTES.DOC") args_ok []
    = ([EvExtract (lit "MINUTES.DOC")], Raise UnsupportedFormat).
Proof. apply analyze_document_doc_unsupported; vm_compute; reflexivity. Defined.

(** Witness of X3: a [.docx] file python-docx cannot open. *)
Lemma analyze_document_blank_text_witness :
  analyze_document no_docx (answer_with (lit "{}")) (parse_to (JObj [])) (lit "prompt")
    [80; 75] (lit "minutes.docx") args_ok []
    = ([EvExtract (lit "minutes.docx")], Raise NoExtractableText).
Proof. apply (analyze_document_blank_text _ _ _ _ _ _ _ _ []); vm_compute; reflexivity. Defined.

(** Witness of X4: a text file and an answer with a [document_type]. *)
Lemma analyze_document_result_witness :
  exists r,
    snd (analyze_document no_docx (answer_with (lit "{}"))
           (parse_to (JObj [(lit "document_type", JStr (lit "memo"))])) (lit "prompt")
           (lit "hello") (lit "memo.txt") args_ok []) = Ok (JObj r) /\
    dget (lit "filename") r = Some (JStr (lit "memo.txt")) /\
    dget (lit "document_type") r = Some (JStr (lit "memo")).
Proof.
  destruct (analyze_document_result no_docx (answer_with (lit "{}"))
              (parse_to (JObj [(lit "document_type", JStr (lit "memo"))])) (lit "prompt")
              (lit "hello") (lit "memo.txt") args_ok [] (lit "hello") (lit "{}")
              [(lit "document_type", JStr (lit "memo"))])
    as [r [Hr [Hf [_ [Hk _]]]]]; try (vm_compute; reflexivity).
  exists r. rewrite Hr. split; [reflexivity|]. split; [exact Hf|].
  rewrite Hk; [reflexivity | |]; intro E; vm_compute in E; discriminate E.
Defined.

(** Witness of X6: a call that raises. *)
Lemma analyze_document_llm_failure_witness :
  snd (analyze_document no_docx no_answer (parse_to (JObj [])) (lit "prompt")
         (lit "hello") (lit "memo.txt") args_ok []) = Raise CompletionError.
Proof.
  rewrite (proj1 (analyze_document_llm_failure no_docx no_answer (parse_to (JObj []))
                    (lit "prompt") (lit "hello") (lit "memo.txt") args_ok [] (lit "hello")
                    eq_refl eq_refl eq_refl) (or_introl eq_refl)).
  reflexivity.
Defined.

(* ------------------------------------------------------------------------- *)
(** ** Adaptive cards *)

Lemma map_result_Forall2 : forall {A B} (f : A -> result B) xs ys,
  map_result f xs = Ok ys -> Forall2 (fun x y => f x = Ok y) xs ys.
Proof.
  intros A B f xs. induction xs as [|x xs IH]; simpl; intros ys H.
  - injection H as <-. constructor.
  - destruct (f x) as [y|e] eqn:Ef; [|discriminate H].
    destruct (map_result f xs) as [ys'|e] eqn:Er; [|discriminate H].
    injection H as <-. constructor; [exact Ef | apply IH; reflexivity].
Qed.

Lemma map_result_ok : forall {A B} (f : A -> result B) xs ys,
  Forall2 (fun x y => f x = Ok y) xs ys -> map_result f xs = Ok ys.
Proof.
  intros A B f xs ys H. induction H as [|x y xs ys Hxy _ IH]; simpl; [reflexivity|].
  rewrite Hxy, IH. reflexivity.
Qed.

Lemma py_iter_slice_length : forall n v w xs,
  py_slice_to n v = Ok w -> py_iter w = Ok xs -> (length xs <= n)%nat.
Proof.
  intros n v w xs Hs Hi. destruct v; simpl in Hs; try discriminate Hs;
    injection Hs as <-; simpl in Hi; injection Hi as <-;
    [rewrite length_map|]; rewrite length_firstn; lia.
Qed.

(** A string [preview50] returns has at most 53 code points. *)
Lemma preview50_str_bound : forall v s,
  preview50 v = Ok (JStr s) -> (length s <= 53)%nat.
Proof.
  intros v s H. unfold preview50 in H.
  destruct v as [| | |t|xs|kvs]; cbn [py_len] in H; try discriminate H.
  - destruct (Nat.ltb 50 (length t)) eqn:E; cbn [py_slice_to py_add_str] in H.
    + assert (Hs : s = firstn 50 t ++ lit "...") by congruence. subst s.
      rewrite length_app, length_firstn. change (length (lit "...")) with 3%nat. lia.
    + assert (Hs : s = t) by congruence. subst s. apply Nat.ltb_ge in E. lia.
  - destruct (Nat.ltb 50 (length xs)); cbn [py_slice_to py_add_str] in H; discriminate H.
  - destruct (Nat.ltb 50 (length kvs)); cbn [py_slice_to py_add_str] in H; discriminate H.
Qed.

(** X7: the extracted-fields fact set of [generate_results_card] has at most
    10 facts, each a title and a value, and a value that is a string has at
    most 53 code points (50 and ["..."]). *)
Theorem results_facts_bounded : forall analysis facts,
  results_facts analysis = Ok facts ->
  (length facts <= 10)%nat /\
  Forall (fun fact => exists title value,
            fact = JObj [(lit "title", title); (lit "value", value)] /\
            forall s, value = JStr s -> (length s <= 53)%nat) facts.
Proof.
  intros analysis facts H. unfold results_facts in H.
  destruct (py_slice_to 10 (dget_or (lit "fields") (JArr []) analysis)) as [w|e] eqn:Hs;
    [|discriminate H].
  destruct (py_iter w) as [xs|e] eqn:Hi; [|discriminate H].
  apply map_result_Forall2 in H.
  split.
  - rewrite <- (Forall2_length H). eapply py_iter_slice_length; eassumption.
  - clear Hs Hi. induction H as [|x fact xs facts Hx _ IH]; constructor; [|exact IH].
    unfold result_fact in Hx. destruct (as_field x) as [field|e]; [|discriminate Hx].
    destruct (preview50 (dget_or (lit "current_value") (JStr []) field)) as [value|e] eqn:Hp;
      [|discriminate Hx].
    injection Hx as <-. do 2 eexists. split; [reflexivity|].
    intros s ->. eapply preview50_str_bound; exact Hp.
Qed.

(** A field whose [current_value] is a string or absent. *)
Definition string_current (f : dict) : Prop :=
  forall v, dget (lit "current_value") f = Some v -> exists s, v = JStr s.

Lemma string_current_value : forall f, string_current f ->
  exists s, card_current_value f = JStr s.
Proof.
  intros f H. unfold card_current_value, dget_or.
  destruct (dget (lit "current_value") f) as [v|] eqn:E; [exact (H v E) | eexists; reflexivity].
Qed.

Lemma preview50_str_ok : forall s, exists v, preview50 (JStr s) = Ok v.
Proof.
  intros s. unfold preview50. simpl. destruct (Nat.ltb 50 (length s)); eexists; reflexivity.
Qed.

Lemma input_items_spec : forall str_other f, string_current f ->
  exists kvs, input_items str_other (JObj f) = Ok [label_block (card_field_label f); JObj kvs] /\
    dget (lit "id") kvs = Some (card_field_name f) /\
    dget (lit "value") kvs = Some (card_current_value f) /\
    dget (lit "type") kvs =
      Some (JStr (if json_eq_str (card_field_type f) (lit "date")
                  then lit "Input.Date" else lit "Input.Text")).
Proof.
  intros str_other f Hf. unfold input_items. cbv beta iota zeta delta [as_field].
  destruct (json_eq_str (card_field_type f) (lit "date")).
  - eexists. split; [reflexivity|]. repeat split.
  - destruct (json_eq_str (card_field_type f) (lit "multiline")).
    + destruct (string_current_value f Hf) as [s Hs]. rewrite Hs.
      destruct (preview50_str_ok s) as [p Hp]. rewrite Hp.
      eexists. split; [reflexivity|]. repeat split.
    + eexists. split; [reflexivity|]. repeat split.
Qed.

(** X8: when the analysis's [fields] is a list of objects whose
    [current_value] is a string or absent, [generate_input_card] does not
    raise; its body is the two header blocks followed, for each field in
    order, by a label block with the field's label and an input whose [id]
    is the field's name (["field"] by default) and whose [value] is its
    current value; the input is an [Input.Date] exactly for a [date] field.
    The body has [2 + 2 * n] items for [n] fields. *)
Theorem input_card_layout : forall str_other analysis fs,
  dget_or (lit "fields") (JArr []) analysis = JArr (map JObj fs) ->
  Forall string_current fs ->
  exists items,
    input_card_body str_other analysis = Ok (input_card_header ++ concat items) /\
    length (input_card_header ++ concat items) = (2 + 2 * length fs)%nat /\
    Forall2 (fun f its => exists kvs,
               its = [label_block (card_field_label f); JObj kvs] /\
               dget (lit "id") kvs = Some (card_field_name f) /\
               dget (lit "value") kvs = Some (card_current_value f) /\
               dget (lit "type") kvs =
                 Some (JStr (if json_eq_str (card_field_type f) (lit "date")
                             then lit "Input.Date" else lit "Input.Text"))) fs items.
Proof.
  intros str_other analysis fs Hfields Hall. unfold input_card_body. rewrite Hfields.
  simpl py_iter. cbv iota.
  assert (H : exists items,
    map_result (input_items str_other) (map JObj fs) = Ok items /\
    length (concat items) = (2 * length fs)%nat /\
    Forall2 (fun f its => exists kvs,
               its = [label_block (card_field_label f); JObj kvs] /\
               dget (lit "id") kvs = Some (card_field_name f) /\
               dget (lit "value") kvs = Some (card_current_value f) /\
               dget (lit "type") kvs =
                 Some (JStr (if json_eq_str (card_field_type f) (lit "date")
                             then lit "Input.Date" else lit "Input.Text"))) fs items).
  { clear Hfields. induction Hall as [|f fs Hf _ IH].
    - exists []. repeat split; constructor.
    - destruct IH as [items [Hm [Hl Hr]]].
      destruct (input_items_spec str_other f Hf) as [kvs [Hi Hkvs]].
      exists ([label_block (card_field_label f); JObj kvs] :: items). simpl map.
      simpl map_result. rewrite Hi, Hm. split; [reflexivity|]. split.
      + simpl concat. simpl length. rewrite Hl. lia.
      + constructor; [exists kvs; split; [reflexivity | exact Hkvs] | exact Hr]. }
  destruct H as [items [Hm [Hl Hr]]]. rewrite Hm. exists items.
  split; [reflexivity|]. split; [|exact Hr].
  rewrite length_app, Hl. reflexivity.
Qed.

Lemma dget_merged_other : forall f x y k,
  k <> lit "new_value" -> k <> lit "pre_filled" ->
  dget k (dset (lit "pre_filled") x (dset (lit "new_value") y f)) = dget k f.
Proof. intros f x y k H1 H2. rewrite !dget_dset_neq by assumption. reflexivity. Qed.

Ltac lit_neq := let H := fresh in intro H; vm_compute in H; discriminate H.

Lemma card_lookups_merged : forall f x y,
  let m := dset (lit "pre_filled") x (dset (lit "new_value") y f) in
  card_field_name m = card_field_name f /\ card_field_label m = card_field_label f /\
  card_field_type m = card_field_type f /\ card_current_value m = card_current_value f /\
  dget_or (lit "new_value") (card_current_value m) m = y /\
  dget_or (lit "pre_filled") (JBool false) m = x.
Proof.
  intros f x y m. subst m.
  unfold card_field_label, card_field_name, card_field_type, card_current_value, dget_or.
  rewrite !(dget_merged_other f x y) by lit_neq.
  rewrite dget_dset_neq by lit_neq. rewrite !dget_dset_eq. repeat split.
Qed.

(** A field with a string [field_name] and a string or absent
    [current_value]. *)
Definition card_ready (f : dict) : Prop :=
  (exists k, dget (lit "field_name") f = Some (JStr k)) /\ string_current f.

(** What the field card shows for field [f] merged with [extracted]. *)
Definition merged_items (str_other : json -> pystr) (extracted : dict) (f : dict)
    (its : list json) : Prop :=
  exists k kvs,
    dget (lit "field_name") f = Some (JStr k) /\
    its = [label_block (JStr (py_fmt str_other (card_field_label f) ++
                              (if dmem k extracted then prefilled_marker else [])));
           JObj kvs] /\
    dget (lit "id") kvs = Some (JStr k) /\
    dget (lit "value") kvs =
      Some (let v := match dget k extracted with
                     | Some v => v
                     | None => card_current_value f
                     end in
            if json_eq_str (card_field_type f) (lit "date")
            then (if py_truthy v then v else JNull) else v).

Lemma merged_field_items : forall str_other extracted f,
  card_ready f ->
  exists m its, merge_field extracted f = Ok m /\
    field_input_items str_other (JObj m) = Ok its /\ merged_items str_other extracted f its.
Proof.
  intros str_other extracted f [[k Hk] Hs].
  destruct (string_current_value f Hs) as [s Hsv].
  assert (Hname : card_field_name f = JStr k)
    by (unfold card_field_name, dget_or; rewrite Hk; reflexivity).
  set (y := match dget k extracted with Some v => v | None => card_current_value f end).
  set (b := dmem k extracted).
  exists (dset (lit "pre_filled") (JBool b) (dset (lit "new_value") y f)).
  assert (Hm : merge_field extracted f =
               Ok (dset (lit "pre_filled") (JBool b) (dset (lit "new_value") y f))).
  { unfold merge_field.
    replace (dget_or (lit "field_name") (JStr []) f) with (JStr k)
      by (unfold dget_or; rewrite Hk; reflexivity).
    cbn [lookup_field]. subst y b. unfold dmem.
    destruct (dget k extracted); reflexivity. }
  destruct (card_lookups_merged f (JBool b) y) as [H1 [H2 [H3 [H4 [H5 H6]]]]].
  rewrite Hm. unfold field_input_items. cbv beta iota zeta delta [as_field].
  rewrite H5, H6, H1, H2, H3, H4, Hname. change (py_truthy (JBool b)) with b.
  unfold merged_items.
  destruct (json_eq_str (card_field_type f) (lit "date")).
  - eexists. split; [reflexivity|]. split; [reflexivity|].
    exists k; eexists. split; [exact Hk|]. split; [reflexivity|]. split; reflexivity.
  - destruct (json_eq_str (card_field_type f) (lit "multiline")).
    + assert (Hp : exists p, field_placeholder str_other (card_current_value f) = Ok p)
        by (rewrite Hsv; unfold field_placeholder; cbn [py_len];
            destruct (Nat.ltb 50 (length s)); eexists; reflexivity).
      destruct Hp as [p Hp]. rewrite Hp.
      eexists. split; [reflexivity|]. split; [reflexivity|].
      exists k; eexists. split; [exact Hk|]. split; [reflexivity|]. split; reflexivity.
    + eexists. split; [reflexivity|]. split; [reflexivity|].
      exists k; eexists. split; [exact Hk|]. split; [reflexivity|]. split; reflexivity.
Qed.

(** X9: [merge_fields] followed by [generate_field_input_card]: for fields
    with a string name and a string or absent current value, neither raises;
    after the two header blocks each field gets, in order, a label marked
    " (pre-filled from your request)" exactly when its name is a key of the
    extracted fields, and an input whose [id] is the name and whose [value]
    is the extracted value, or else the current value (a [date] input
    showing [None] for a falsy value). *)
Theorem merged_field_card : forall str_other py_title fs extracted document_type,
  Forall card_ready fs ->
  exists ms hdr items,
    merge_fields fs extracted = Ok ms /\
    field_input_card_body str_other py_title (map JObj ms) document_type
      = Ok (hdr ++ concat items) /\
    length hdr = 2%nat /\
    Forall2 (merged_items str_other extracted) fs items.
Proof.
  intros str_other py_title fs extracted document_type Hall.
  assert (H : exists ms items, merge_fields fs extracted = Ok ms /\
            map_result (field_input_items str_other) (map JObj ms) = Ok items /\
            Forall2 (merged_items str_other extracted) fs items).
  { induction Hall as [|f fs Hf _ IH].
    - exists [], []. repeat split; constructor.
    - destruct IH as [ms [items [Hm [Hi Hr]]]].
      destruct (merged_field_items str_other extracted f Hf) as [m [its [Hmf [Hits Hmi]]]].
      exists (m :: ms), (its :: items). simpl. rewrite Hmf, Hm, Hits, Hi.
      split; [reflexivity|]. split; [reflexivity|]. constructor; assumption. }
  destruct H as [ms [items [Hm [Hi Hr]]]].
  exists ms. unfold field_input_card_body. rewrite Hi.
  do 2 eexists. split; [exact Hm|]. split; [reflexivity|]. split; [reflexivity | exact Hr].
Qed.

(** Card inputs: a date field, a long multiline field and a plain field. *)
Definition long_text : pystr := repeat 120 60.

Definition card_fields : list dict :=
  [[(lit "field_name", JStr (lit "event_date")); (lit "field_label", JStr (lit "Event date"));
    (lit "field_type", JStr (lit "date")); (lit "current_value", JStr (lit "2025-01-20"))];
   [(lit "field_name", JStr (lit "body")); (lit "field_type", JStr (lit "multiline"));
    (lit "current_value", JStr long_text)];
   [(lit "field_name", JStr (lit "principal_name"));
    (lit "current_value", JStr (lit "Dr. Smith"))]].

Definition card_analysis : dict := [(lit "fields", JArr (map JObj card_fields))].

(** Twelve fields with long values. *)
Definition many_fields_analysis : dict :=
  [(lit "fields", JArr (map (fun i => JObj [(lit "field_name", JStr (py_str_nat i));
                                            (lit "current_value", JStr long_text)])
                            (seq 0 12)))].

Ltac string_current_tac :=
  unfold string_current; intros v H; vm_compute in H; injection H as <-;
  eexists; reflexivity.

Ltac card_ready_tac :=
  unfold card_ready; split; [eexists; reflexivity | string_current_tac].

(** Witness of X7: twelve fields give ten facts. *)
Lemma results_facts_bounded_witness :
  exists facts, results_facts many_fields_analysis = Ok facts /\ (length facts <= 10)%nat.
Proof.
  destruct (results_facts many_fields_analysis) as [facts|e] eqn:E.
  - exists facts. split; [reflexivity|]. exact (proj1 (results_facts_bounded _ _ E)).
  - vm_compute in E. discriminate E.
Defined.

(** Witness of X8: three fields give eight body items. *)
Lemma input_card_layout_witness :
  exists items,
    input_card_body (fun _ => []) card_analysis = Ok (input_card_header ++ concat items) /\
    length (input_card_header ++ concat items) = 8%nat.
Proof.
  destruct (input_card_layout (fun _ => []) card_analysis card_fields eq_refl)
    as [items [H1 [H2 _]]].
  - unfold card_fields.
    repeat (apply Forall_cons; [string_current_tac|]). apply Forall_nil.
  - exists items. split; [exact H1 | rewrite H2; reflexivity].
Defined.

(** Witness of X9: one of three fields is overridden. *)
Lemma merged_field_card_witness :
  exists ms hdr items,
    merge_fields card_fields [(lit "principal_name", JStr (lit "Dr. Johnson"))] = Ok ms /\
    field_input_card_body (fun _ => []) (fun s => s) (map JObj ms) (lit "newsletter")
      = Ok (hdr ++ concat items) /\
    length hdr = 2%nat /\
    Forall2 (merged_items (fun _ => []) [(lit "principal_name", JStr (lit "Dr. Johnson"))])
      card_fields items.
Proof.
  apply merged_field_card. unfold card_fields.
  repeat (apply Forall_cons; [card_ready_tac|]). apply Forall_nil.
Defined.

(* ------------------------------------------------------------------------- *)
(** ** Output file names *)

(** X10: [generate_filename] returns the title-cased document type, the
    sanitised subject and the date string, separated by [" - "] and followed
    by [".docx"]; the sanitised subject has at most 30 code points, each
    alphanumeric, a space, ['-'] or ['_'] (so it holds no path separator). *)
Theorem generate_filename_shape : forall str_other py_title isalnum_nonascii
    document_type fields date_str,
  exists safe,
    generate_filename str_other py_title isalnum_nonascii document_type fields date_str =
      py_title document_type ++ lit " - " ++ safe ++ lit " - " ++ date_str ++ lit ".docx" /\
    (length safe <= 30)%nat /\
    forallb (subject_char_ok isalnum_nonascii) safe = true.
Proof.
  intros str_other py_title isalnum_nonascii document_type fields date_str.
  eexists. split; [reflexivity|]. unfold safe_subject. split.
  - eapply Nat.le_trans; [apply filter_length_le|]. rewrite length_firstn. lia.
  - apply forallb_filter.
Qed.

(** X11: a subject taken from [subject], or from [re] when [subject] is
    absent, that is a string of at most 30 code points, each alphanumeric, a
    space, ['-'] or ['_'], appears verbatim in the file name. *)
Theorem generate_filename_clean_subject : forall str_other py_title isalnum_nonascii
    document_type fields date_str s,
  (dget (lit "subject") fields = Some (JStr s) \/
   (dget (lit "subject") fields = None /\ dget (lit "re") fields = Some (JStr s))) ->
  (length s <= 30)%nat ->
  forallb (subject_char_ok isalnum_nonascii) s = true ->
  generate_filename str_other py_title isalnum_nonascii document_type fields date_str =
    py_title document_type ++ lit " - " ++ s ++ lit " - " ++ date_str ++ lit ".docx".
Proof.
  intros str_other py_title isalnum_nonascii document_type fields date_str s Hs Hlen Hok.
  unfold generate_filename, dget_or.
  destruct Hs as [H | [H1 H2]]; [rewrite H | rewrite H1, H2]; simpl py_fmt;
    unfold safe_subject; rewrite firstn_all2 by exact Hlen;
    rewrite forallb_filter_id by exact Hok; reflexivity.
Qed.

(* ------------------------------------------------------------------------- *)
(** ** Natural-language change requests *)

(** X12: without [AZURE_OPENAI_ENDPOINT] and [AZURE_OPENAI_KEY] in the
    environment, [_parse_natural_language_changes] returns [{}] without a
    request and without looking at the fields. *)
Theorem parse_changes_not_configured : forall str_other http_chat json_loads NLP
    user_text original_fields env,
  configured (env_get (lit "AZURE_OPENAI_ENDPOINT") env)
             (env_get (lit "AZURE_OPENAI_KEY") env) = false ->
  parse_natural_language_changes str_other http_chat json_loads NLP user_text
    original_fields env = ([], Ok []).
Proof.
  intros str_other http_chat json_loads NLP user_text original_fields env H.
  unfold parse_natural_language_changes. cbv zeta. rewrite H. reflexivity.
Qed.

Lemma map_result_total : forall {A B} (f : A -> result B) xs,
  (forall x, In x xs -> exists y, f x = Ok y) -> exists ys, map_result f xs = Ok ys.
Proof.
  intros A B f xs H. induction xs as [|x xs IH]; simpl; [eexists; reflexivity|].
  destruct (H x (or_introl eq_refl)) as [y Hy]. rewrite Hy.
  destruct IH as [ys Hys]; [intros z Hz; apply H; right; exact Hz|].
  rewrite Hys. eexists; reflexivity.
Qed.

(** X13: once configured, [_parse_natural_language_changes] on a list of
    objects sends one request whose user message is the user's text, and
    never raises: it returns the answer parsed as an object, or [{}] when the
    request fails or the answer is not a JSON object. *)
Theorem parse_changes_result : forall str_other http_chat json_loads NLP user_text fs env,
  configured (env_get (lit "AZURE_OPENAI_ENDPOINT") env)
             (env_get (lit "AZURE_OPENAI_KEY") env) = true ->
  let deployment := env_get_or (lit "AZURE_OPENAI_DEPLOYMENT") (lit "gpt-4o-mini") env in
  exists system_prompt,
    let msgs := [(lit "system", system_prompt); (lit "user", user_text)] in
    parse_natural_language_changes str_other http_chat json_loads NLP user_text
      (JArr (map JObj fs)) env =
      ([EvChat deployment msgs],
       Ok (parse_changes_answer json_loads (http_chat deployment msgs))) /\
    (parse_changes_answer json_loads (http_chat deployment msgs) = [] \/
     exists raw, http_chat deployment msgs = Some raw /\
       json_loads (unfence (py_strip raw)) =
         Some (JObj (parse_changes_answer json_loads (http_chat deployment msgs)))).
Proof.
  intros str_other http_chat json_loads NLP user_text fs env Hc deployment.
  unfold parse_natural_language_changes. cbv zeta. rewrite Hc. cbn [negb py_iter].
  destruct (map_result_total (field_line str_other) (map JObj fs)) as [lines Hl].
  { intros x Hx. apply in_map_iff in Hx as [f [<- _]]. eexists. reflexivity. }
  rewrite Hl. eexists. split; [reflexivity|].
  unfold parse_changes_answer. destruct (http_chat _ _) as [raw|]; [|left; reflexivity].
  destruct (json_loads (unfence (py_strip raw))) as [[| | | | |d]|] eqn:E;
    try (left; reflexivity).
  right. exists raw. split; [reflexivity | rewrite E; reflexivity].
Qed.

Lemma after_first_nl_app : forall tag r,
  ~ In 10 tag -> after_first_nl (tag ++ 10 :: r) = Some r.
Proof.
  induction tag as [|c tag IH]; intros r H; simpl; [reflexivity|].
  destruct (Z.eqb_spec c 10) as [->|Hc]; [exfalso; apply H; left; reflexivity|].
  apply IH. intro Hin. apply H. right. exact Hin.
Qed.

Lemma py_strip_ends : forall c mid d,
  py_isspace c = false -> py_isspace d = false ->
  py_strip (c :: mid ++ [d]) = c :: mid ++ [d].
Proof.
  intros c mid d Hc Hd. unfold py_strip. cbn [lstrip_ws]. rewrite Hc.
  replace (rev (c :: mid ++ [d])) with (d :: rev mid ++ [c])
    by (simpl; rewrite rev_app_distr; reflexivity).
  cbn [lstrip_ws]. rewrite Hd.
  simpl. rewrite rev_app_distr, rev_involutive. reflexivity.
Qed.

Lemma py_strip_fenced : forall m, py_strip (fence ++ m ++ fence) = fence ++ m ++ fence.
Proof.
  intros m.
  replace (fence ++ m ++ fence) with (96 :: ([96; 96] ++ m ++ [96; 96]) ++ [96])
    by (change fence with [96; 96; 96]; simpl; rewrite <- !app_assoc; reflexivity).
  apply py_strip_ends; reflexivity.
Qed.

(** X14: an answer wrapped in a Markdown code fence (three backquotes, a
    language tag without a newline, a newline, the body, three backquotes)
    is parsed from its stripped body. *)
Theorem parse_changes_fenced : forall json_loads tag body,
  ~ In 10 tag ->
  parse_changes_answer json_loads (Some (fence ++ tag ++ nl ++ body ++ fence)) =
    match json_loads (py_strip body) with Some (JObj d) => d | _ => [] end.
Proof.
  intros json_loads tag body Htag. unfold parse_changes_answer.
  replace (fence ++ tag ++ nl ++ body ++ fence) with (fence ++ (tag ++ nl ++ body) ++ fence)
    by (rewrite <- !app_assoc; reflexivity).
  rewrite py_strip_fenced. f_equal. f_equal. unfold unfence.
  replace (py_startswith (fence ++ (tag ++ nl ++ body) ++ fence) fence) with true
    by reflexivity.
  replace (fence ++ (tag ++ nl ++ body) ++ fence) with
    ([96; 96; 96] ++ tag ++ 10 :: (body ++ fence)) by (rewrite <- !app_assoc; reflexivity).
  rewrite app_assoc, (after_first_nl_app ([96; 96; 96] ++ tag)).
  2:{ intros Hin. apply in_app_or in Hin as [Hin | Hin]; [|exact (Htag Hin)].
      simpl in Hin. lia. }
  assert (He : py_endswith (body ++ fence) fence = true)
    by (apply py_endswith_app; exists body; reflexivity).
  rewrite He. rewrite length_app. change (length fence) with 3%nat.
  replace (length body + 3 - 3)%nat with (length body) by lia.
  rewrite firstn_app, firstn_all, Nat.sub_diag, firstn_O, app_nil_r. reflexivity.
Qed.

(* ------------------------------------------------------------------------- *)
(** ** The merge-fields endpoint *)

(** X15: a request whose [original_fields] is missing or falsy (an empty
    list, an empty string, [0], [null], ...) is answered 400 "Missing
    original_fields" before any request to the model. *)
Theorem merge_endpoint_missing_fields : forall str_other http_chat json_loads NLP body env,
  py_truthy (dget_or (lit "original_fields") (JArr []) body) = false ->
  merge_fields_endpoint str_other http_chat json_loads NLP (Some (JObj body)) env =
    ([], HttpResponse 400 (MergeError (lit "Missing original_fields"))).
Proof.
  intros str_other http_chat json_loads NLP body env H.
  unfold merge_fields_endpoint. cbv zeta. rewrite H. reflexivity.
Qed.

Lemma dget_app : forall k a b,
  dget k (a ++ b) = match dget k a with Some v => Some v | None => dget k b end.
Proof.
  intros k a b. induction a as [|[k' v'] a IH]; simpl; [reflexivity|].
  destruct (pystr_eqb k k'); [reflexivity | exact IH].
Qed.

Lemma dget_not_key : forall k d, existsb (pystr_eqb k) (map fst d) = false -> dget k d = None.
Proof.
  intros k d H. induction d as [|[k' v'] d IH]; simpl in *; [reflexivity|].
  apply orb_false_iff in H as [H1 H2]. rewrite H1. apply IH, H2.
Qed.

Lemma dget_rev_nodup : forall k d, keys_nodupb (map fst d) = true -> dget k (rev d) = dget k d.
Proof.
  intros k d. induction d as [|[k' v'] d IH]; simpl; intros H; [reflexivity|].
  apply andb_true_iff in H as [H1 H2]. apply negb_true_iff in H1.
  rewrite dget_app, (IH H2). simpl.
  destruct (pystr_eqb k k') eqn:E.
  - apply pystr_eqb_eq in E. subst k'. rewrite dget_not_key by exact H1. reflexivity.
  - destruct (dget k d); reflexivity.
Qed.

Lemma dget_fold_dset : forall k l acc,
  dget k (fold_left (fun acc kv => dset (fst kv) (snd kv) acc) l acc) =
  match dget k (rev l) with Some v => Some v | None => dget k acc end.
Proof.
  intros k l. induction l as [|[k' v'] l IH]; intros acc; simpl; [reflexivity|].
  rewrite IH, dget_app. simpl.
  destruct (dget k (rev l)); [reflexivity|].
  destruct (pystr_eqb k k') eqn:E.
  - apply pystr_eqb_eq in E. subst k'. apply dget_dset_eq.
  - apply dget_dset_neq. intros ->. rewrite pystr_eqb_refl in E. discriminate E.
Qed.

(** [{**pre, **user}]: a key of [user] wins over the same key of [pre]. *)
Lemma dget_dict_merge : forall k pre user,
  keys_nodupb (map fst pre) = true -> keys_nodupb (map fst user) = true ->
  dget k (dict_merge pre user) =
  match dget k user with Some v => Some v | None => dget k pre end.
Proof.
  intros k pre user Hp Hu. unfold dict_merge. rewrite dget_fold_dset, rev_app_distr, dget_app.
  rewrite (dget_rev_nodup k user Hu), (dget_rev_nodup k pre Hp).
  destruct (dget k user); [reflexivity|]. destruct (dget k pre); reflexivity.
Qed.

Lemma merge_fields_json_map : forall fs ex,
  merge_fields_json (map JObj fs) ex = merge_fields fs ex.
Proof.
  intros fs ex. unfold merge_fields_json.
  induction fs as [|f fs IH]; cbn [map map_result merge_fields as_field]; [reflexivity|].
  destruct (merge_field ex f); [|reflexivity]. rewrite IH. reflexivity.
Qed.

(** The field [merge_field] makes of a field with a string name. *)
Definition merged_named (extracted : dict) (k : pystr) (f : dict) : dict :=
  dset (lit "pre_filled") (JBool (dmem k extracted))
    (dset (lit "new_value")
       (match dget k extracted with Some v => v | None => card_current_value f end) f).

Lemma merge_field_named : forall extracted f k,
  dget (lit "field_name") f = Some (JStr k) ->
  merge_field extracted f = Ok (merged_named extracted k f).
Proof.
  intros extracted f k Hk. unfold merge_field.
  replace (dget_or (lit "field_name") (JStr []) f) with (JStr k)
    by (unfold dget_or; rewrite Hk; reflexivity).
  cbn [lookup_field]. unfold merged_named, dmem.
  destruct (dget k extracted); reflexivity.
Qed.

(** A field with a string [field_name]. *)
Definition named_field (f : dict) : Prop :=
  exists k, dget (lit "field_name") f = Some (JStr k).

Lemma merge_fields_named : forall extracted fs,
  Forall named_field fs ->
  exists ms, merge_fields fs extracted = Ok ms /\
    Forall2 (fun f m => exists k, dget (lit "field_name") f = Some (JStr k) /\
                                  m = merged_named extracted k f) fs ms.
Proof.
  intros extracted fs H. induction H as [|f fs [k Hk] _ IH]; simpl.
  - exists []. split; [reflexivity | constructor].
  - destruct IH as [ms [Hms Hr]]. rewrite (merge_field_named extracted f k Hk), Hms.
    eexists. split; [reflexivity|]. constructor; [exists k; split; [exact Hk | reflexivity]|].
    exact Hr.
Qed.

Lemma merged_named_lookups : forall extracted k f,
  dget (lit "field_name") f = Some (JStr k) ->
  let m := merged_named extracted k f in
  detail_name m = JStr k /\ detail_current m = detail_current f /\
  detail_new_value m = match dget k extracted with Some v => v | None => detail_current f end.
Proof.
  intros extracted k f Hk m. subst m. unfold merged_named, detail_name, detail_current,
    detail_new_value, card_current_value, dget_or.
  rewrite !dget_merged_other by lit_neq. rewrite Hk.
  rewrite dget_dset_neq by lit_neq. rewrite dget_dset_eq. repeat split.
Qed.

Lemma join_names_ok : forall names,
  Forall (fun v => exists s, v = JStr s) names -> exists s, join_names names = Ok s.
Proof.
  intros names H. unfold join_names.
  destruct (map_result_total (fun v => match v with JStr s => Ok s | _ => Raise TypeError end)
              names) as [ss Hss].
  { intros x Hx. rewrite Forall_forall in H. destruct (H x Hx) as [s ->]. eexists; reflexivity. }
  rewrite Hss. eexists; reflexivity.
Qed.

Lemma merge_response_ok : forall ms,
  Forall (fun m => exists k, detail_name m = JStr k) ms ->
  exists flat summary,
    merge_response ms =
      Ok (flat, map (fun f => dset (lit "changed") (JBool (detail_changed f)) f) ms, summary) /\
    (forallb (fun m => negb (detail_changed m)) ms = true ->
     summary = lit "No changes detected across " ++ py_str_nat (length ms) ++ lit " fields").
Proof.
  intros ms H. unfold merge_response. cbv zeta.
  assert (Hf : filter detail_changed ms = [] <->
               forallb (fun m => negb (detail_changed m)) ms = true).
  { clear H. induction ms as [|m ms IH]; simpl; [tauto|].
    destruct (detail_changed m); simpl; [split; discriminate | exact IH]. }
  destruct (filter detail_changed ms) as [|m' rest] eqn:E.
  - do 2 eexists. split; [reflexivity|]. intros _. reflexivity.
  - destruct (join_names_ok (map detail_name (m' :: rest))) as [s Hs].
    { rewrite <- E. apply Forall_map. rewrite Forall_forall in H |- *.
      intros m Hm. apply filter_In in Hm as [Hm _]. destruct (H m Hm) as [k Hk].
      exists k. exact Hk. }
    rewrite Hs. cbn [map]. do 2 eexists. split; [reflexivity|].
    intros Hall. apply Hf in Hall. discriminate Hall.
Qed.

(** What the endpoint reports for the field [f]. *)
Definition endpoint_detail (user pre : dict) (f d : dict) : Prop :=
  exists k, dget (lit "field_name") f = Some (JStr k) /\
    let new_value := match dget k user with
                     | Some v => v
                     | None => match dget k pre with
                               | Some v => v
                               | None => detail_current f
                               end
                     end in
    dget (lit "new_value") d = Some new_value /\
    dget (lit "current_value") d = dget (lit "current_value") f /\
    dget (lit "changed") d = Some (JBool (negb (py_eqb new_value (detail_current f)))).

Lemma endpoint_ok : forall str_other http_chat json_loads NLP body env fs user pre,
  dget_or (lit "original_fields") (JArr []) body = JArr (map JObj fs) -> fs <> [] ->
  dget_or (lit "user_changes") (JObj []) body = JObj user ->
  dget_or (lit "pre_extracted_fields") (JObj []) body = JObj pre ->
  Forall named_field fs ->
  exists ms flat summary,
    merge_fields fs (dict_merge pre user) = Ok ms /\
    merge_fields_endpoint str_other http_chat json_loads NLP (Some (JObj body)) env =
      ([], HttpResponse 200
             (MergeOk flat (map (fun f => dset (lit "changed") (JBool (detail_changed f)) f) ms)
                      summary)) /\
    Forall2 (fun f m => exists k, dget (lit "field_name") f = Some (JStr k) /\
                                  m = merged_named (dict_merge pre user) k f) fs ms /\
    (forallb (fun m => negb (detail_changed m)) ms = true ->
     summary = lit "No changes detected across " ++ py_str_nat (length ms) ++ lit " fields").
Proof.
  intros str_other http_chat json_loads NLP body env fs user pre Ho Hne Hu Hp Hall.
  destruct (merge_fields_named (dict_merge pre user) fs Hall) as [ms [Hms Hr]].
  destruct (merge_response_ok ms) as [flat [summary [Hresp Hsum]]].
  { clear Hms Ho Hne Hall. induction Hr as [|f m fs ms [k [Hk ->]] _ IH];
      [constructor | constructor; [|exact IH]].
    exists k. apply (merged_named_lookups _ _ _ Hk). }
  exists ms, flat, summary. split; [exact Hms|]. split; [|split; [exact Hr | exact Hsum]].
  unfold merge_fields_endpoint. cbv zeta. rewrite Ho, Hu, Hp.
  destruct fs as [|f0 fs0]; [contradiction Hne; reflexivity|].
  cbn [py_truthy negb map py_iter]. fold (map JObj fs0).
  rewrite <- (merge_fields_json_map (f0 :: fs0)) in Hms. simpl map in Hms.
  rewrite Hms, Hresp. reflexivity.
Qed.

(** X16: for a list of fields with string names, and [user_changes] and
    [pre_extracted_fields] given as objects (or absent), the endpoint
    answers 200 without any request to the model; in [fields_detail], in
    the order of [original_fields], each field's [new_value] is the user's
    change for its name, else the pre-extracted value, else its current
    value, and [changed] is whether that value differs ([!=]) from the
    current value. *)
Theorem merge_endpoint_precedence : forall str_other http_chat json_loads NLP body env
    fs user pre,
  dget_or (lit "original_fields") (JArr []) body = JArr (map JObj fs) -> fs <> [] ->
  dget_or (lit "user_changes") (JObj []) body = JObj user ->
  dget_or (lit "pre_extracted_fields") (JObj []) body = JObj pre ->
  keys_nodupb (map fst user) = true -> keys_nodupb (map fst pre) = true ->
  Forall named_field fs ->
  exists flat detail summary,
    merge_fields_endpoint str_other http_chat json_loads NLP (Some (JObj body)) env =
      ([], HttpResponse 200 (MergeOk flat detail summary)) /\
    Forall2 (endpoint_detail user pre) fs detail.
Proof.
  intros str_other http_chat json_loads NLP body env fs user pre Ho Hne Hu Hp Hnu Hnp Hall.
  destruct (endpoint_ok str_other http_chat json_loads NLP body env fs user pre
              Ho Hne Hu Hp Hall) as [ms [flat [summary [_ [He [Hr _]]]]]].
  do 3 eexists. split; [exact He|].
  clear He Ho Hne Hall. induction Hr as [|f m fs ms [k [Hk ->]] _ IH];
    [constructor | simpl; constructor; [|exact IH]].
  destruct (merged_named_lookups (dict_merge pre user) k f Hk) as [_ [Hc Hn]].
  exists k. split; [exact Hk|].
  rewrite (dget_dict_merge k pre user Hnp Hnu) in Hn.
  unfold detail_changed. rewrite Hn, Hc.
  assert (Hnv : dget (lit "new_value") (merged_named (dict_merge pre user) k f) =
                Some (match dget k (dict_merge pre user) with
                      | Some v => v | None => card_current_value f end))
    by (unfold merged_named; rewrite dget_dset_neq by lit_neq; apply dget_dset_eq).
  rewrite (dget_dict_merge k pre user Hnp Hnu) in Hnv.
  split; [|split].
  - rewrite dget_dset_neq by lit_neq. rewrite Hnv.
    destruct (dget k user); [reflexivity|]. destruct (dget k pre); reflexivity.
  - rewrite dget_dset_neq by lit_neq. unfold merged_named.
    rewrite !dget_merged_other by lit_neq. reflexivity.
  - rewrite dget_dset_eq.
    destruct (dget k user); [reflexivity|]. destruct (dget k pre); reflexivity.
Qed.

Lemma Forall2_in_r : forall {A B : Type} (R : A -> B -> Prop) xs ys y,
  Forall2 R xs ys -> In y ys -> exists x, In x xs /\ R x y.
Proof.
  intros A B R xs ys y H. induction H as [|x y' xs ys Hxy _ IH]; simpl; [contradiction|].
  intros [-> | Hin]; [exists x; auto|]. destruct (IH Hin) as [x' [Hx' Hr]]. exists x'; auto.
Qed.

(** Induction on JSON values through their lists and objects. *)
Fixpoint json_nested_ind (P : json -> Prop) (HNull : P JNull) (HBool : forall b, P (JBool b))
    (HNum : forall q, P (JNum q)) (HStr : forall s, P (JStr s))
    (HArr : forall xs, Forall P xs -> P (JArr xs))
    (HObj : forall kvs, Forall (fun kv => P (snd kv)) kvs -> P (JObj kvs))
    (v : json) {struct v} : P v :=
  let IH := json_nested_ind P HNull HBool HNum HStr HArr HObj in
  match v with
  | JNull => HNull
  | JBool b => HBool b
  | JNum q => HNum q
  | JStr s => HStr s
  | JArr xs =>
    HArr xs ((fix go (xs : list json) : Forall P xs :=
                match xs with
                | [] => Forall_nil P
                | x :: xs' => Forall_cons x (IH x) (go xs')
                end) xs)
  | JObj kvs =>
    HObj kvs ((fix go (kvs : list (pystr * json)) : Forall (fun kv => P (snd kv)) kvs :=
                 match kvs with
                 | [] => Forall_nil _
                 | kv :: kvs' =>
                   Forall_cons kv (match kv as kv0 return P (snd kv0) with
                                   | (k, v0) => IH v0
                                   end) (go kvs')
                 end) kvs)
  end.

Lemma dget_in_nodup : forall k v d,
  keys_nodupb (map fst d) = true -> In (k, v) d -> dget k d = Some v.
Proof.
  intros k v d. induction d as [|[k' v'] d IH]; simpl; intros Hn Hin; [contradiction|].
  apply andb_true_iff in Hn as [H1 H2]. apply negb_true_iff in H1.
  destruct Hin as [E | Hin].
  - injection E as -> ->. rewrite pystr_eqb_refl. reflexivity.
  - destruct (pystr_eqb k k') eqn:E.
    + apply pystr_eqb_eq in E. subst k'. exfalso.
      assert (Hk : existsb (pystr_eqb k) (map fst d) = true).
      { apply existsb_exists. exists k. split; [apply (in_map fst _ _ Hin) | apply pystr_eqb_refl]. }
      rewrite Hk in H1. discriminate H1.
    + apply IH; assumption.
Qed.

(** Python's [==] is reflexive on the values [json.loads] produces. *)
Lemma py_eqb_refl : forall v, json_wf v = true -> py_eqb v v = true.
Proof.
  apply (json_nested_ind (fun v => json_wf v = true -> py_eqb v v = true)); simpl.
  - reflexivity.
  - intros b _. apply Qeq_bool_refl.
  - intros q _. apply Qeq_bool_refl.
  - intros s _. apply pystr_eqb_refl.
  - intros xs IH Hwf. induction IH as [|x xs Hx _ IHxs]; simpl in *; [reflexivity|].
    apply andb_true_iff in Hwf as [H1 H2]. rewrite (Hx H1). apply IHxs, H2.
  - intros kvs IH Hwf. apply andb_true_iff in Hwf as [Hn Hv].
    rewrite Nat.eqb_refl. simpl. apply forallb_forall. intros [k va] Hin.
    rewrite (dget_in_nodup k va kvs Hn Hin).
    rewrite Forall_forall in IH. apply (IH (k, va) Hin).
    rewrite forallb_forall in Hv. apply (Hv (k, va) Hin).
Qed.

(** X17: with no change requested ([user_changes] and [pre_extracted_fields]
    empty or absent), every field of a list with string names is reported
    unchanged, and the summary is "No changes detected across N fields". *)
Theorem merge_endpoint_no_changes : forall str_other http_chat json_loads NLP body env fs,
  dget_or (lit "original_fields") (JArr []) body = JArr (map JObj fs) -> fs <> [] ->
  dget_or (lit "user_changes") (JObj []) body = JObj [] ->
  dget_or (lit "pre_extracted_fields") (JObj []) body = JObj [] ->
  Forall (fun f => named_field f /\ json_wf (detail_current f) = true) fs ->
  exists flat detail,
    merge_fields_endpoint str_other http_chat json_loads NLP (Some (JObj body)) env =
      ([], HttpResponse 200 (MergeOk flat detail
              (lit "No changes detected across " ++ py_str_nat (length fs) ++ lit " fields"))) /\
    Forall (fun d => dget (lit "changed") d = Some (JBool false)) detail.
Proof.
  intros str_other http_chat json_loads NLP body env fs Ho Hne Hu Hp Hall.
  assert (Hnamed : Forall named_field fs)
    by (eapply Forall_impl; [|exact Hall]; intros a [Ha _]; exact Ha).
  destruct (endpoint_ok str_other http_chat json_loads NLP body env fs [] []
              Ho Hne Hu Hp Hnamed) as [ms [flat [summary [_ [He [Hr Hsum]]]]]].
  assert (Hunch : forallb (fun m => negb (detail_changed m)) ms = true).
  { apply forallb_forall. intros m Hm.
    destruct (Forall2_in_r _ _ _ _ Hr Hm) as [f [Hf [k [Hk ->]]]].
    rewrite Forall_forall in Hall. destruct (Hall f Hf) as [_ Hwf].
    destruct (merged_named_lookups (dict_merge [] []) k f Hk) as [_ [Hc Hn]].
    unfold detail_changed. rewrite Hn, Hc. simpl. rewrite (py_eqb_refl _ Hwf). reflexivity. }
  rewrite (Hsum Hunch), <- (Forall2_length Hr) in He.
  do 2 eexists. split; [exact He|].
  apply Forall_map. rewrite forallb_forall in Hunch. apply Forall_forall.
  intros m Hm. rewrite dget_dset_eq. specialize (Hunch m Hm).
  destruct (detail_changed m); [discriminate Hunch | reflexivity].
Qed.

(* ------------------------------------------------------------------------- *)
(** ** Concrete runs of the file-name, change-parsing and endpoint properties *)

Definition demo_str_other (_ : json) : pystr := [].
Definition demo_title (s : pystr) : pystr := s.
Definition demo_nonascii (_ : Z) : bool := false.
Definition demo_prompt (s : pystr) : pystr := s.
Definition demo_chat (_ : pystr) (_ : list message) : option pystr := Some (lit "{}").
Definition demo_loads (_ : pystr) : option json := Some (JObj []).

Definition demo_env : environ :=
  [(lit "AZURE_OPENAI_ENDPOINT", lit "https://example.openai.azure.com");
   (lit "AZURE_OPENAI_KEY", lit "k")].

Definition demo_fields : list dict :=
  [[(lit "field_name", JStr (lit "subject")); (lit "current_value", JStr (lit "Budget"))];
   [(lit "field_name", JStr (lit "date")); (lit "current_value", JStr (lit "10/01/2026"))]].

Lemma generate_filename_clean_subject_witness :
  generate_filename demo_str_other demo_title demo_nonascii (lit "memo")
    [(lit "re", JStr (lit "Budget Review_2026"))] (lit "10182026") =
  demo_title (lit "memo") ++ lit " - " ++ lit "Budget Review_2026" ++ lit " - " ++
    lit "10182026" ++ lit ".docx".
Proof.
  apply generate_filename_clean_subject.
  - right. split; reflexivity.
  - apply Nat.leb_le. reflexivity.
  - reflexivity.
Defined.

Lemma parse_changes_not_configured_witness :
  parse_natural_language_changes demo_str_other demo_chat demo_loads demo_prompt
    (lit "change the date") (JArr (map JObj demo_fields))
    [(lit "AZURE_OPENAI_ENDPOINT", lit "https://example.openai.azure.com")] = ([], Ok []).
Proof. apply parse_changes_not_configured. reflexivity. Defined.

Lemma parse_changes_result_witness :
  let deployment := env_get_or (lit "AZURE_OPENAI_DEPLOYMENT") (lit "gpt-4o-mini") demo_env in
  exists system_prompt,
    let msgs := [(lit "system", system_prompt); (lit "user", lit "change the date")] in
    parse_natural_language_changes demo_str_other demo_chat demo_loads demo_prompt
      (lit "change the date") (JArr (map JObj demo_fields)) demo_env =
      ([EvChat deployment msgs],
       Ok (parse_changes_answer demo_loads (demo_chat deployment msgs))) /\
    (parse_changes_answer demo_loads (demo_chat deployment msgs) = [] \/
     exists raw, demo_chat deployment msgs = Some raw /\
       demo_loads (unfence (py_strip raw)) =
         Some (JObj (parse_changes_answer demo_loads (demo_chat deployment msgs)))).
Proof. apply parse_changes_result. reflexivity. Defined.

Lemma parse_changes_fenced_witness :
  parse_changes_answer demo_loads
    (Some (fence ++ lit "json" ++ nl ++ lit " {} " ++ fence)) =
  match demo_loads (py_strip (lit " {} ")) with Some (JObj d) => d | _ => [] end.
Proof. apply parse_changes_fenced. simpl. lia. Defined.

Lemma merge_endpoint_missing_fields_witness :
  merge_fields_endpoint demo_str_other demo_chat demo_loads demo_prompt
    (Some (JObj [(lit "original_fields", JArr []);
                 (lit "user_changes", JStr (lit "set the date to today"))])) demo_env =
    ([], HttpResponse 400 (MergeError (lit "Missing original_fields"))).
Proof. apply merge_endpoint_missing_fields. reflexivity. Defined.

Lemma merge_endpoint_precedence_witness :
  exists flat detail summary,
    merge_fields_endpoint demo_str_other demo_chat demo_loads demo_prompt
      (Some (JObj [(lit "original_fields", JArr (map JObj demo_fields));
                   (lit "user_changes", JObj [(lit "date", JStr (lit "10/18/2026"))]);
                   (lit "pre_extracted_fields",
                    JObj [(lit "date", JStr (lit "10/02/2026"));
                          (lit "subject", JStr (lit "Budget"))])])) demo_env =
      ([], HttpResponse 200 (MergeOk flat detail summary)) /\
    Forall2 (endpoint_detail [(lit "date", JStr (lit "10/18/2026"))]
               [(lit "date", JStr (lit "10/02/2026")); (lit "subject", JStr (lit "Budget"))])
      demo_fields detail.
Proof.
  apply merge_endpoint_precedence; try reflexivity.
  - discriminate.
  - repeat (apply Forall_cons; [eexists; reflexivity|]). apply Forall_nil.
Defined.

Lemma merge_endpoint_no_changes_witness :
  exists flat detail,
    merge_fields_endpoint demo_str_other demo_chat demo_loads demo_prompt
      (Some (JObj [(lit "original_fields", JArr (map JObj demo_fields))])) demo_env =
      ([], HttpResponse 200 (MergeOk flat detail
              (lit "No changes detected across " ++ py_str_nat (length demo_fields) ++
               lit " fields"))) /\
    Forall (fun d => dget (lit "changed") d = Some (JBool false)) detail.
Proof.
  apply merge_endpoint_no_changes; try reflexivity.
  - discriminate.
  - repeat (apply Forall_cons; [split; [eexists; reflexivity | reflexivity]|]).
    apply Forall_nil.
Defined.

(* ------------------------------------------------------------------------- *)
(** ** The documents of a family analysis *)

Lemma extract_docs_inv : forall docx_parse b64decode lim docs dt,
  In dt (extract_docs docx_parse b64decode lim docs) ->
  exists d bs text,
    In d docs /\ b64decode (content d) = Some bs /\
    extract_text docx_parse bs (filename d) = Ok text /\ strip_nonempty text = true /\
    dt = mk_doc_text (filename d) (firstn lim text) (created d).
Proof.
  intros docx_parse b64decode lim docs dt. induction docs as [|d docs IH]; simpl; [tauto|].
  unfold extract_doc at 1.
  destruct (b64decode (content d)) as [bs|] eqn:Eb.
  2:{ intros Hin. destruct (IH Hin) as [d' [bs' [t [H1 H2]]]]. exists d', bs', t.
      split; [right; exact H1 | exact H2]. }
  destruct (extract_text docx_parse bs (filename d)) as [text|e] eqn:Et.
  2:{ intros Hin. destruct (IH Hin) as [d' [bs' [t [H1 H2]]]]. exists d', bs', t.
      split; [right; exact H1 | exact H2]. }
  destruct (strip_nonempty text) eqn:Es.
  - intros [<- | Hin].
    + exists d, bs, text. repeat split; auto.
    + destruct (IH Hin) as [d' [bs' [t [H1 H2]]]]. exists d', bs', t.
      split; [right; exact H1 | exact H2].
  - intros Hin. destruct (IH Hin) as [d' [bs' [t [H1 H2]]]]. exists d', bs', t.
    split; [right; exact H1 | exact H2].
Qed.

Lemma strip_nonempty_cons : forall text, strip_nonempty text = true -> exists c t, text = c :: t.
Proof. intros [|c t] H; [discriminate H | exists c, t; reflexivity]. Qed.

Lemma extract_docs_text_truthy : forall docx_parse b64decode lim docs dt,
  (0 < lim)%nat -> In dt (extract_docs docx_parse b64decode lim docs) ->
  py_truthy_str (dt_text dt) = true.
Proof.
  intros docx_parse b64decode lim docs dt Hlim Hin.
  destruct (extract_docs_inv docx_parse b64decode lim docs dt Hin)
    as [d [bs [text [_ [_ [_ [Hs ->]]]]]]].
  destruct (strip_nonempty_cons text Hs) as [c [t ->]].
  destruct lim as [|lim]; [lia | reflexivity].
Qed.

(** X22: every entry of [doc_texts] (and of the context texts) comes from an
    input document whose base64 content decoded and whose text extracted
    without an exception to a non-blank text; it carries that document's
    filename and creation date, and the first [limit] code points of the
    text: at most [limit] of them, and at least one. *)
Theorem extract_docs_origin : forall docx_parse b64decode lim docs dt,
  (0 < lim)%nat ->
  In dt (extract_docs docx_parse b64decode lim docs) ->
  exists d bs text,
    In d docs /\ b64decode (content d) = Some bs /\
    extract_text docx_parse bs (filename d) = Ok text /\ strip_nonempty text = true /\
    dt_filename dt = filename d /\ dt_created dt = created d /\
    dt_text dt = firstn lim text /\
    (length (dt_text dt) <= lim)%nat /\ dt_text dt <> [].
Proof.
  intros docx_parse b64decode lim docs dt Hlim Hin.
  assert (Ht := extract_docs_text_truthy docx_parse b64decode lim docs dt Hlim Hin).
  destruct (extract_docs_inv docx_parse b64decode lim docs dt Hin)
    as [d [bs [text [H1 [H2 [H3 [H4 ->]]]]]]].
  exists d, bs, text. cbn [dt_filename dt_created dt_text] in *.
  repeat split; auto.
  - rewrite length_firstn. lia.
  - intros E. rewrite E in Ht. discriminate Ht.
Qed.

Lemma find_first : forall {A} (f : A -> bool) pre x post,
  Forall (fun y => f y = false) pre -> f x = true -> find f (pre ++ x :: post) = Some x.
Proof.
  intros A f pre x post Hpre Hx. induction Hpre as [|y pre Hy _ IH]; simpl.
  - rewrite Hx. reflexivity.
  - rewrite Hy. exact IH.
Qed.

(** X18: with two or more surviving documents and a parsed object whose
    [recommended_base] is the filename of a surviving document,
    [base_document_text] is the text of the first document of that name in
    creation order, and [recommended_base] is returned unchanged. *)
Theorem analyze_matched_base : forall docx_parse b64decode chat json_loads FAP
    docs uc ctx a env result_text r pre dt post,
  configured (resolve_endpoint a env) (resolve_api_key a env) = true ->
  (2 <= length (doc_texts docx_parse b64decode docs))%nat ->
  chat (resolve_deployment_large a env) (family_request docx_parse b64decode FAP docs uc ctx)
    = Some result_text ->
  json_loads result_text = Some (JObj r) ->
  dget (lit "recommended_base") r = Some (JStr (dt_filename dt)) ->
  sort_by_created (doc_texts docx_parse b64decode docs) = pre ++ dt :: post ->
  Forall (fun x => dt_filename x <> dt_filename dt) pre ->
  exists r',
    snd (analyze_document_family docx_parse b64decode chat json_loads FAP docs uc ctx a env)
      = Ok (JObj r') /\
    dget (lit "base_document_text") r' = Some (JStr (dt_text dt)) /\
    dget (lit "recommended_base") r' = Some (JStr (dt_filename dt)).
Proof.
  intros docx_parse b64decode chat json_loads FAP docs uc ctx a env result_text r pre dt post
    Hc Hlen Hchat Hjson Hrec Hsort Hpre.
  rewrite (analyze_compare_path docx_parse b64decode chat json_loads FAP docs uc ctx a env
             Hc Hlen).
  simpl snd. unfold complete. rewrite Hchat, Hjson.
  exists (post_process (sort_by_created (doc_texts docx_parse b64decode docs)) r).
  split; [reflexivity|]. split.
  - rewrite post_process_base_text. cbv zeta.
    replace (dget_or (lit "recommended_base") (JStr []) r) with (JStr (dt_filename dt))
      by (unfold dget_or; rewrite Hrec; reflexivity).
    rewrite Hsort, find_first.
    + assert (Hin : In dt (doc_texts docx_parse b64decode docs)).
      { eapply Permutation_in; [apply sort_by_created_perm|].
        rewrite Hsort. apply in_or_app. right. left. reflexivity. }
      unfold doc_texts in Hin.
      rewrite (extract_docs_text_truthy docx_parse b64decode 6000 docs dt) by (exact Hin || (apply Nat.ltb_lt; reflexivity)).
      reflexivity.
    + eapply Forall_impl; [|exact Hpre]. intros x Hx. simpl.
      apply pystr_eqb_neq. intros E. apply Hx. exact E.
    + simpl. apply pystr_eqb_refl.
  - rewrite post_process_get by (intros E; discriminate E). exact Hrec.
Qed.

(** X19: with two or more surviving documents, whatever object the model
    answers, the result is that object with [document_count] set to the
    number of surviving documents, [base_document_text] set, and
    [organizational_context] kept when the model gave one and [""]
    otherwise; every other key keeps the model's value. *)
Theorem analyze_family_result_keys : forall docx_parse b64decode chat json_loads FAP
    docs uc ctx a env result_text r,
  configured (resolve_endpoint a env) (resolve_api_key a env) = true ->
  (2 <= length (doc_texts docx_parse b64decode docs))%nat ->
  chat (resolve_deployment_large a env) (family_request docx_parse b64decode FAP docs uc ctx)
    = Some result_text ->
  json_loads result_text = Some (JObj r) ->
  exists r',
    snd (analyze_document_family docx_parse b64decode chat json_loads FAP docs uc ctx a env)
      = Ok (JObj r') /\
    dget (lit "document_count") r' =
      Some (JNum (Z.of_nat (length (doc_texts docx_parse b64decode docs)) # 1)) /\
    dget (lit "organizational_context") r' =
      Some (match dget (lit "organizational_context") r with Some v => v | None => JStr [] end) /\
    dmem (lit "base_document_text") r' = true /\
    (forall k, k <> lit "base_document_text" -> k <> lit "organizational_context" ->
               k <> lit "document_count" -> dget k r' = dget k r).
Proof.
  intros docx_parse b64decode chat json_loads FAP docs uc ctx a env result_text r
    Hc Hlen Hchat Hjson.
  rewrite (analyze_compare_path docx_parse b64decode chat json_loads FAP docs uc ctx a env
             Hc Hlen).
  simpl snd. unfold complete. rewrite Hchat, Hjson.
  set (sorted := sort_by_created (doc_texts docx_parse b64decode docs)).
  exists (post_process sorted r). split; [reflexivity|].
  assert (Hl : length sorted = length (doc_texts docx_parse b64decode docs))
    by apply Permutation_length, sort_by_created_perm.
  split; [|split; [|split]].
  - unfold post_process. cbv zeta. rewrite Hl.
    destruct (dmem _ _); dget_simpl; reflexivity.
  - unfold post_process. cbv zeta. unfold dmem.
    match goal with
    | |- context [dset (lit "base_document_text") ?bt (dset (lit "document_count") ?n r)] =>
      replace (dget (lit "organizational_context")
                 (dset (lit "base_document_text") bt (dset (lit "document_count") n r)))
        with (dget (lit "organizational_context") r) by (dget_simpl; reflexivity)
    end.
    destruct (dget (lit "organizational_context") r) eqn:E; simpl.
    + dget_simpl. exact E.
    + dget_simpl. reflexivity.
  - unfold dmem. rewrite post_process_base_text. reflexivity.
  - apply post_process_get.
Qed.

(** X20: with two or more surviving documents, when the request fails or
    its answer is not JSON the call raises (the completion error), and when
    the answer is JSON but not an object the item assignments raise
    [TypeError]. *)
Theorem analyze_family_llm_failure : forall docx_parse b64decode chat json_loads FAP
    docs uc ctx a env,
  configured (resolve_endpoint a env) (resolve_api_key a env) = true ->
  (2 <= length (doc_texts docx_parse b64decode docs))%nat ->
  let msgs := family_request docx_parse b64decode FAP docs uc ctx in
  let out := snd (analyze_document_family docx_parse b64decode chat json_loads FAP
                    docs uc ctx a env) in
  (chat (resolve_deployment_large a env) msgs = None -> out = Raise CompletionError) /\
  (forall t, chat (resolve_deployment_large a env) msgs = Some t -> json_loads t = None ->
             out = Raise CompletionError) /\
  (forall t v, chat (resolve_deployment_large a env) msgs = Some t -> json_loads t = Some v ->
               (forall d, v <> JObj d) -> out = Raise TypeError).
Proof.
  intros docx_parse b64decode chat json_loads FAP docs uc ctx a env Hc Hlen msgs out.
  subst out. rewrite (analyze_compare_path docx_parse b64decode chat json_loads FAP docs uc ctx
                        a env Hc Hlen).
  simpl snd. unfold complete. subst msgs.
  split; [|split].
  - intros H. rewrite H. reflexivity.
  - intros t H1 H2. rewrite H1, H2. reflexivity.
  - intros t v H1 H2 Hv. rewrite H1, H2.
    destruct v as [| | | | |d]; try reflexivity. exfalso. exact (Hv d eq_refl).
Qed.

(** X21: context documents none of which yields text (an empty list among
    them) change nothing: the result and the requests are those of a call
    without context documents. *)
Theorem analyze_family_empty_context : forall docx_parse b64decode chat json_loads FAP
    docs uc ctx a env,
  extract_docs docx_parse b64decode 4000 ctx = [] ->
  snd (analyze_document_family docx_parse b64decode chat json_loads FAP docs uc (Some ctx) a env)
  = snd (analyze_document_family docx_parse b64decode chat json_loads FAP docs uc None a env) /\
  chat_calls (fst (analyze_document_family docx_parse b64decode chat json_loads FAP
                     docs uc (Some ctx) a env)) =
  chat_calls (fst (analyze_document_family docx_parse b64decode chat json_loads FAP
                     docs uc None a env)).
Proof.
  intros docx_parse b64decode chat json_loads FAP docs uc ctx a env H.
  unfold analyze_document_family. destruct (negb _); [split; reflexivity|].
  destruct (doc_texts docx_parse b64decode docs) as [|dt [|dt' l]];
    [split; reflexivity | split; reflexivity|].
  cbn [context_list snd fst]. rewrite H.
  rewrite !chat_calls_app, !chat_calls_extraction. split; reflexivity.
Qed.

(* ------------------------------------------------------------------------- *)
(** ** Intent extraction: answers of other shapes *)

(** X23: [search_terms] given as a string is cut to its first 3
    characters (a string, not a list); given as a number, a boolean or
    [null] it makes [extract_search_intent] raise [TypeError]. *)
Theorem search_intent_terms_shapes : forall chat json_loads SIP user_prompt a env
    result_text r,
  configured (resolve_endpoint a env) (resolve_api_key a env) = true ->
  chat (resolve_deployment a env) [(lit "system", SIP); (lit "user", user_prompt)]
    = Some result_text ->
  json_loads result_text = Some (JObj r) ->
  (forall s cst, dget_or (lit "search_terms") (JArr []) r = JStr s ->
     dget_or (lit "context_search_terms") (JArr []) r = JArr cst ->
     exists out,
       snd (extract_search_intent chat json_loads SIP user_prompt a env) = Ok (JObj out) /\
       dget (lit "search_terms") out = Some (JStr (firstn 3 s))) /\
  (match dget_or (lit "search_terms") (JArr []) r with
   | JNull | JBool _ | JNum _ => True
   | _ => False
   end ->
   snd (extract_search_intent chat json_loads SIP user_prompt a env) = Raise TypeError).
Proof.
  intros chat json_loads SIP user_prompt a env result_text r Hc Hchat Hjson.
  unfold extract_search_intent. rewrite Hc. cbn [negb]. unfold ask. cbn [snd].
  rewrite Hchat, Hjson. unfold search_intent_of. split.
  - intros s cst Hs Hcst. rewrite Hs, Hcst. cbn [py_slice_to]. eexists.
    split; reflexivity.
  - destruct (dget_or (lit "search_terms") (JArr []) r); try contradiction; reflexivity.
Qed.

(** X24: once configured, [extract_search_intent] and [extract_intent]
    send exactly one request, the fixed system prompt and the user's prompt;
    when it fails or its answer is not JSON they raise (the completion
    error), and when the answer is JSON but not an object, [result.get]
    raises [AttributeError]. *)
Theorem intent_llm_errors : forall chat json_loads SIP IEP user_prompt a env,
  configured (resolve_endpoint a env) (resolve_api_key a env) = true ->
  let dep := resolve_deployment a env in
  let ms1 := [(lit "system", SIP); (lit "user", user_prompt)] in
  let ms2 := [(lit "system", IEP); (lit "user", user_prompt)] in
  fst (extract_search_intent chat json_loads SIP user_prompt a env) = [EvChat dep ms1] /\
  fst (extract_intent chat json_loads IEP user_prompt a env) = [EvChat dep ms2] /\
  (forall ms out,
     (ms = ms1 /\ out = snd (extract_search_intent chat json_loads SIP user_prompt a env)) \/
     (ms = ms2 /\ out = snd (extract_intent chat json_loads IEP user_prompt a env)) ->
     (chat dep ms = None -> out = Raise CompletionError) /\
     (forall t, chat dep ms = Some t -> json_loads t = None -> out = Raise CompletionError) /\
     (forall t v, chat dep ms = Some t -> json_loads t = Some v -> (forall d, v <> JObj d) ->
                  out = Raise AttributeError)).
Proof.
  intros chat json_loads SIP IEP user_prompt a env Hc dep ms1 ms2.
  unfold extract_search_intent, extract_intent. rewrite Hc. cbn [negb].
  split; [reflexivity|]. split; [reflexivity|].
  intros ms out Hms.
  assert (Hout : exists k, out = snd (ask chat json_loads dep ms k)).
  { destruct Hms as [[-> ->] | [-> ->]]; eexists; reflexivity. }
  destruct Hout as [k ->]. unfold ask. cbn [snd]. split; [|split].
  - intros H. rewrite H. reflexivity.
  - intros t H1 H2. rewrite H1, H2. reflexivity.
  - intros t v H1 H2 Hv. rewrite H1, H2.
    destruct v as [| | | | |d]; try reflexivity. exfalso. exact (Hv d eq_refl).
Qed.

(** X25: on an object answer [extract_intent] never raises: it returns an
    object with the keys [intent], [document_type], [search_terms],
    [extracted_fields], [confidence] and [summary], in that order, each the
    answer's value or its default (["unknown"], ["unknown"], [[]], [{}],
    [0.5], [""]), whatever the types of the answer's values. *)
Theorem extract_intent_object : forall chat json_loads IEP user_prompt a env result_text r,
  configured (resolve_endpoint a env) (resolve_api_key a env) = true ->
  chat (resolve_deployment a env) [(lit "system", IEP); (lit "user", user_prompt)]
    = Some result_text ->
  json_loads result_text = Some (JObj r) ->
  exists out,
    snd (extract_intent chat json_loads IEP user_prompt a env) = Ok (JObj out) /\
    map fst out = [lit "intent"; lit "document_type"; lit "search_terms";
                   lit "extracted_fields"; lit "confidence"; lit "summary"] /\
    Forall2 (fun kd kv => fst kv = fst kd /\ snd kv = dget_or (fst kd) (snd kd) r)
      [(lit "intent", JStr (lit "unknown")); (lit "document_type", JStr (lit "unknown"));
       (lit "search_terms", JArr []); (lit "extracted_fields", JObj []);
       (lit "confidence", JNum (1 # 2)); (lit "summary", JStr [])] out.
Proof.
  intros chat json_loads IEP user_prompt a env result_text r Hc Hchat Hjson.
  unfold extract_intent. rewrite Hc. cbn [negb]. unfold ask. cbn [snd].
  rewrite Hchat, Hjson. unfold intent_of. eexists. split; [reflexivity|].
  split; [reflexivity|]. repeat constructor.
Qed.

(* ------------------------------------------------------------------------- *)
(** ** Concrete runs of the family-analysis and intent properties *)

Definition three_letters : list document :=
  [letter "2024" "B"; letter "2023" "A"; letter "2025" "C"].

Definition letter_text (year body : string) : doc_text :=
  mk_doc_text (lit ("letter-" ++ year ++ ".txt")) (lit body)
              (Some (lit (year ++ "-08-01T00:00:00Z"))).

Definition blank_context : list document :=
  [mk_document (lit "notes.txt") (lit "   ") None].

Definition no_answer_chat (_ : pystr) (_ : list message) : option pystr := None.

Lemma extract_docs_origin_witness :
  exists d bs text,
    In d [letter "2024" "Budget"] /\ raw_b64 (content d) = Some bs /\
    extract_text no_docx bs (filename d) = Ok text /\ strip_nonempty text = true /\
    dt_filename (letter_text "2024" "Bud") = filename d /\
    dt_created (letter_text "2024" "Bud") = created d /\
    dt_text (letter_text "2024" "Bud") = firstn 3 text /\
    (length (dt_text (letter_text "2024" "Bud")) <= 3)%nat /\
    dt_text (letter_text "2024" "Bud") <> [].
Proof.
  apply (extract_docs_origin no_docx raw_b64 3 [letter "2024" "Budget"]).
  - lia.
  - vm_compute. left. reflexivity.
Defined.

Lemma analyze_matched_base_witness :
  exists r',
    snd (analyze_fixture (JObj [(lit "recommended_base", JStr (lit "letter-2024.txt"))])
           three_letters) = Ok (JObj r') /\
    dget (lit "base_document_text") r' = Some (JStr (dt_text (letter_text "2024" "B"))) /\
    dget (lit "recommended_base") r' = Some (JStr (dt_filename (letter_text "2024" "B"))).
Proof.
  apply (analyze_matched_base no_docx raw_b64 (answer_with (lit "{}"))
           (parse_to (JObj [(lit "recommended_base", JStr (lit "letter-2024.txt"))]))
           (lit "prompt") three_letters [] None args_ok [] (lit "{}")
           [(lit "recommended_base", JStr (lit "letter-2024.txt"))]
           [letter_text "2023" "A"] (letter_text "2024" "B") [letter_text "2025" "C"]).
  - vm_compute; reflexivity.
  - vm_compute; lia.
  - reflexivity.
  - reflexivity.
  - vm_compute; reflexivity.
  - vm_compute; reflexivity.
  - constructor; [|constructor]. intros H. vm_compute in H. discriminate H.
Defined.

Lemma analyze_family_result_keys_witness :
  exists r',
    snd (analyze_fixture (JObj [(lit "family_type", JStr (lit "annual_letter"));
                                (lit "document_count", JNum (7 # 1))]) three_letters)
      = Ok (JObj r') /\
    dget (lit "document_count") r' =
      Some (JNum (Z.of_nat (length (doc_texts no_docx raw_b64 three_letters)) # 1)) /\
    dget (lit "organizational_context") r' =
      Some (match dget (lit "organizational_context")
                    [(lit "family_type", JStr (lit "annual_letter"));
                     (lit "document_count", JNum (7 # 1))] with
            | Some v => v | None => JStr [] end) /\
    dmem (lit "base_document_text") r' = true /\
    (forall k, k <> lit "base_document_text" -> k <> lit "organizational_context" ->
               k <> lit "document_count" ->
               dget k r' = dget k [(lit "family_type", JStr (lit "annual_letter"));
                                  (lit "document_count", JNum (7 # 1))]).
Proof.
  apply (analyze_family_result_keys no_docx raw_b64 (answer_with (lit "{}"))
           (parse_to (JObj [(lit "family_type", JStr (lit "annual_letter"));
                            (lit "document_count", JNum (7 # 1))]))
           (lit "prompt") three_letters [] None args_ok [] (lit "{}")).
  - vm_compute; reflexivity.
  - vm_compute; lia.
  - reflexivity.
  - reflexivity.
Defined.

Lemma analyze_family_llm_failure_witness :
  let msgs := family_request no_docx raw_b64 (lit "prompt") three_letters [] None in
  let out := snd (analyze_document_family no_docx raw_b64 no_answer_chat
                    (parse_to (JObj [])) (lit "prompt") three_letters [] None args_ok []) in
  (no_answer_chat (resolve_deployment_large args_ok []) msgs = None ->
   out = Raise CompletionError) /\
  (forall t, no_answer_chat (resolve_deployment_large args_ok []) msgs = Some t ->
             parse_to (JObj []) t = None -> out = Raise CompletionError) /\
  (forall t v, no_answer_chat (resolve_deployment_large args_ok []) msgs = Some t ->
               parse_to (JObj []) t = Some v ->
               (forall d, v <> JObj d) -> out = Raise TypeError).
Proof.
  apply analyze_family_llm_failure.
  - vm_compute; reflexivity.
  - vm_compute; lia.
Defined.

Lemma analyze_family_empty_context_witness :
  snd (analyze_document_family no_docx raw_b64 (answer_with (lit "{}")) (parse_to (JObj []))
         (lit "prompt") three_letters [] (Some blank_context) args_ok [])
  = snd (analyze_document_family no_docx raw_b64 (answer_with (lit "{}")) (parse_to (JObj []))
           (lit "prompt") three_letters [] None args_ok []) /\
  chat_calls (fst (analyze_document_family no_docx raw_b64 (answer_with (lit "{}"))
                     (parse_to (JObj [])) (lit "prompt") three_letters []
                     (Some blank_context) args_ok [])) =
  chat_calls (fst (analyze_document_family no_docx raw_b64 (answer_with (lit "{}"))
                     (parse_to (JObj [])) (lit "prompt") three_letters [] None args_ok [])).
Proof. apply analyze_family_empty_context. vm_compute. reflexivity. Defined.

Definition string_terms_answer : dict :=
  [(lit "search_terms", JStr (lit "budget memo"));
   (lit "context_search_terms", JArr [JStr (lit "memo")])].

Lemma search_intent_terms_shapes_witness :
  (forall s cst, dget_or (lit "search_terms") (JArr []) string_terms_answer = JStr s ->
     dget_or (lit "context_search_terms") (JArr []) string_terms_answer = JArr cst ->
     exists out,
       snd (extract_search_intent (answer_with (lit "{}")) (parse_to (JObj string_terms_answer))
              (lit "prompt") (lit "the budget memo") args_ok []) = Ok (JObj out) /\
       dget (lit "search_terms") out = Some (JStr (firstn 3 s))) /\
  (match dget_or (lit "search_terms") (JArr []) string_terms_answer with
   | JNull | JBool _ | JNum _ => True
   | _ => False
   end ->
   snd (extract_search_intent (answer_with (lit "{}")) (parse_to (JObj string_terms_answer))
          (lit "prompt") (lit "the budget memo") args_ok []) = Raise TypeError).
Proof.
  apply (search_intent_terms_shapes (answer_with (lit "{}"))
           (parse_to (JObj string_terms_answer)) (lit "prompt") (lit "the budget memo")
           args_ok [] (lit "{}")).
  - vm_compute; reflexivity.
  - reflexivity.
  - reflexivity.
Defined.

Lemma intent_llm_errors_witness :
  let dep := resolve_deployment args_ok [] in
  let ms1 := [(lit "system", lit "search prompt"); (lit "user", lit "the budget memo")] in
  let ms2 := [(lit "system", lit "intent prompt"); (lit "user", lit "the budget memo")] in
  fst (extract_search_intent no_answer_chat (parse_to (JArr [])) (lit "search prompt")
         (lit "the budget memo") args_ok []) = [EvChat dep ms1] /\
  fst (extract_intent no_answer_chat (parse_to (JArr [])) (lit "intent prompt")
         (lit "the budget memo") args_ok []) = [EvChat dep ms2] /\
  (forall ms out,
     (ms = ms1 /\ out = snd (extract_search_intent no_answer_chat (parse_to (JArr []))
                              (lit "search prompt") (lit "the budget memo") args_ok [])) \/
     (ms = ms2 /\ out = snd (extract_intent no_answer_chat (parse_to (JArr []))
                              (lit "intent prompt") (lit "the budget memo") args_ok [])) ->
     (no_answer_chat dep ms = None -> out = Raise CompletionError) /\
     (forall t, no_answer_chat dep ms = Some t -> parse_to (JArr []) t = None ->
                out = Raise CompletionError) /\
     (forall t v, no_answer_chat dep ms = Some t -> parse_to (JArr []) t = Some v ->
                  (forall d, v <> JObj d) -> out = Raise AttributeError)).
Proof. apply intent_llm_errors. vm_compute; reflexivity. Defined.

Lemma extract_intent_object_witness :
  exists out,
    snd (extract_intent (answer_with (lit "{}"))
           (parse_to (JObj [(lit "intent", JNum (3 # 1)); (lit "summary", JStr (lit "a memo"))]))
           (lit "intent prompt") (lit "the budget memo") args_ok []) = Ok (JObj out) /\
    map fst out = [lit "intent"; lit "document_type"; lit "search_terms";
                   lit "extracted_fields"; lit "confidence"; lit "summary"] /\
    Forall2 (fun kd kv => fst kv = fst kd /\
               snd kv = dget_or (fst kd) (snd kd)
                          [(lit "intent", JNum (3 # 1)); (lit "summary", JStr (lit "a memo"))])
      [(lit "intent", JStr (lit "unknown")); (lit "document_type", JStr (lit "unknown"));
       (lit "search_terms", JArr []); (lit "extracted_fields", JObj []);
       (lit "confidence", JNum (1 # 2)); (lit "summary", JStr [])] out.
Proof.
  apply (extract_intent_object (answer_with (lit "{}"))
           (parse_to (JObj [(lit "intent", JNum (3 # 1)); (lit "summary", JStr (lit "a memo"))]))
           (lit "intent prompt") (lit "the budget memo") args_ok [] (lit "{}")).
  - vm_compute; reflexivity.
  - reflexivity.
  - reflexivity.
Defined.

(* ------------------------------------------------------------------------- *)
(** ** The analyze-family endpoint *)

Lemma dset_keys_in : forall k v d x,
  In x (map fst (dset k v d)) -> x = k \/ In x (map fst d).
Proof.
  intros k v d x. induction d as [|[k' v'] d IH]; simpl.
  - intros [<- | []]. left; reflexivity.
  - destruct (pystr_eqb k k'); simpl; [tauto|].
    intros [<- | Hin]; [right; left; reflexivity|]. destruct (IH Hin); tauto.
Qed.

Lemma existsb_pystr_false : forall k l, existsb (pystr_eqb k) l = false <-> ~ In k l.
Proof.
  intros k l. split.
  - intros H Hin. assert (existsb (pystr_eqb k) l = true)
      by (apply existsb_exists; exists k; split; [exact Hin | apply pystr_eqb_refl]).
    congruence.
  - intros H. destruct (existsb (pystr_eqb k) l) eqn:E; [|reflexivity].
    apply existsb_exists in E as [x [Hx Ex]]. apply pystr_eqb_eq in Ex. subst x.
    contradiction.
Qed.

Lemma keys_nodupb_dset : forall k v d,
  keys_nodupb (map fst d) = true -> keys_nodupb (map fst (dset k v d)) = true.
Proof.
  intros k v d. induction d as [|[k' v'] d IH]; simpl; intros H; [reflexivity|].
  destruct (pystr_eqb k k') eqn:E; simpl; [exact H|].
  apply andb_true_iff in H as [H1 H2]. apply andb_true_iff. split; [|apply IH, H2].
  apply negb_true_iff. apply negb_true_iff in H1. apply existsb_pystr_false.
  apply existsb_pystr_false in H1. intros Hin. destruct (dset_keys_in k v d k' Hin) as [-> | Hd].
  - rewrite pystr_eqb_refl in E. discriminate E.
  - contradiction.
Qed.

Lemma post_process_nodup : forall sorted r,
  keys_nodupb (map fst r) = true -> keys_nodupb (map fst (post_process sorted r)) = true.
Proof.
  intros sorted r H. unfold post_process. cbv zeta.
  destruct (dmem _ _); repeat apply keys_nodupb_dset; exact H.
Qed.

(** X26: the [success] flag of a 200 response of the analyze-family
    endpoint is the model's: the body is [{'success': True, **result}] and
    the result keeps every key of the model's object, so an answer with a
    [success] key (say [false]) overrides [True].  Stated for a request
    with two or more surviving documents and an answer that parses to an
    object. *)
Theorem family_endpoint_success_flag : forall docx_parse b64decode chat json_loads FAP ces
    documents context_documents uc env result_text r,
  configured (resolve_endpoint (mk_azure_args None None None None) env)
             (resolve_api_key (mk_azure_args None None None None) env) = true ->
  (2 <= length (doc_texts docx_parse b64decode documents))%nat ->
  chat (resolve_deployment_large (mk_azure_args None None None None) env)
    (family_request docx_parse b64decode FAP documents uc
       (match context_documents with [] => None | _ => Some context_documents end))
    = Some result_text ->
  json_loads result_text = Some (JObj r) ->
  keys_nodupb (map fst r) = true ->
  exists body,
    snd (analyze_family_endpoint docx_parse b64decode chat json_loads FAP ces
           documents context_documents uc env) = FamilyResponse 200 (FamilyOk body) /\
    dget (lit "success") body =
      Some (match dget (lit "success") r with Some v => v | None => JBool true end).
Proof.
  intros docx_parse b64decode chat json_loads FAP ces documents context_documents uc env
    result_text r Hc Hlen Hchat Hjson Hnd.
  unfold analyze_family_endpoint.
  destruct documents as [|d ds]; [simpl in Hlen; lia|].
  cbv zeta.
  rewrite (analyze_compare_path docx_parse b64decode chat json_loads FAP (d :: ds) uc _ _ env
             Hc Hlen).
  unfold complete. rewrite Hchat, Hjson.
  set (r' := post_process (sort_by_created (doc_texts docx_parse b64decode (d :: ds))) r).
  exists (dict_merge [(lit "success", JBool true)] r'). split; [reflexivity|].
  rewrite dget_dict_merge by (reflexivity || apply post_process_nodup, Hnd).
  subst r'. rewrite post_process_get by (intros E; discriminate E).
  destruct (dget (lit "success") r); reflexivity.
Qed.

(** X27: the analyze-family endpoint answers 400 with no request to the
    model when [documents] is empty or absent ("Missing documents array"),
    when Azure OpenAI is not configured, and when no document yields text
    (the two [ValueError]s of [analyze_document_family]). *)
Theorem family_endpoint_client_errors : forall docx_parse b64decode chat json_loads FAP ces
    documents context_documents uc env,
  let a := mk_azure_args None None None None in
  let out := analyze_family_endpoint docx_parse b64decode chat json_loads FAP ces
               documents context_documents uc env in
  (documents = [] ->
   out = ([], FamilyResponse 400 (FamilyError (lit "Missing documents array")))) /\
  (documents <> [] -> configured (resolve_endpoint a env) (resolve_api_key a env) = false ->
   out = ([], FamilyResponse 400 (FamilyFailed NotConfigured))) /\
  (documents <> [] -> configured (resolve_endpoint a env) (resolve_api_key a env) = true ->
   doc_texts docx_parse b64decode documents = [] ->
   out = (extraction_events documents, FamilyResponse 400 (FamilyFailed NoExtractableText))).
Proof.
  intros docx_parse b64decode chat json_loads FAP ces documents context_documents uc env a out.
  subst out a. unfold analyze_family_endpoint.
  split; [|split].
  - intros ->. reflexivity.
  - intros Hne Hc. destruct documents as [|d ds]; [contradiction Hne; reflexivity|].
    unfold analyze_document_family. rewrite Hc. reflexivity.
  - intros Hne Hc Hd. destruct documents as [|d ds]; [contradiction Hne; reflexivity|].
    unfold analyze_document_family. rewrite Hc, Hd. reflexivity.
Qed.

Lemma family_endpoint_success_flag_witness :
  exists body,
    snd (analyze_family_endpoint no_docx raw_b64 (answer_with (lit "{}"))
           (parse_to (JObj [(lit "success", JBool false)])) (lit "prompt") 500
           three_letters [] [] [(lit "AZURE_OPENAI_ENDPOINT", lit "https://example.openai.azure.com");
                                (lit "AZURE_OPENAI_KEY", lit "k")])
      = FamilyResponse 200 (FamilyOk body) /\
    dget (lit "success") body =
      Some (match dget (lit "success") [(lit "success", JBool false)] with
            | Some v => v | None => JBool true end).
Proof.
  apply (family_endpoint_success_flag no_docx raw_b64 (answer_with (lit "{}"))
           (parse_to (JObj [(lit "success", JBool false)])) (lit "prompt") 500
           three_letters [] [] _ (lit "{}")).
  - vm_compute; reflexivity.
  - vm_compute; lia.
  - reflexivity.
  - reflexivity.
  - reflexivity.
Defined.

Lemma family_endpoint_client_errors_witness :
  analyze_family_endpoint no_docx raw_b64 (answer_with (lit "{}")) (parse_to (JObj []))
    (lit "prompt") 500 [] three_letters [] demo_env =
  ([], FamilyResponse 400 (FamilyError (lit "Missing documents array"))) /\
  analyze_family_endpoint no_docx raw_b64 (answer_with (lit "{}")) (parse_to (JObj []))
    (lit "prompt") 500 three_letters [] [] [] =
  ([], FamilyResponse 400 (FamilyFailed NotConfigured)) /\
  analyze_family_endpoint no_docx raw_b64 (answer_with (lit "{}")) (parse_to (JObj []))
    (lit "prompt") 500 blank_context [] [] demo_env =
  (extraction_events blank_context, FamilyResponse 400 (FamilyFailed NoExtractableText)).
Proof.
  split; [|split].
  - apply (family_endpoint_client_errors no_docx raw_b64 (answer_with (lit "{}"))
             (parse_to (JObj [])) (lit "prompt") 500 [] three_letters [] demo_env).
    reflexivity.
  - apply (family_endpoint_client_errors no_docx raw_b64 (answer_with (lit "{}"))
             (parse_to (JObj [])) (lit "prompt") 500 three_letters [] [] []).
    + discriminate.
    + reflexivity.
  - apply (family_endpoint_client_errors no_docx raw_b64 (answer_with (lit "{}"))
             (parse_to (JObj [])) (lit "prompt") 500 blank_context [] [] demo_env).
    + discriminate.
    + vm_compute; reflexivity.
    + vm_compute; reflexivity.
Defined.
